(** * check_sha: a shallow embedding of tools/check_sha.py

    The development follows the layout of the script: first the string
    primitives of the Python runtime the script relies on, then the data
    structures ([Asset], [AssetGroup]), then the procedures, and finally
    the properties established about them. *)

From Stdlib Require Import Ascii String List Bool Arith Lia.
From stdpp Require Import base option list strings gmap.
Import ListNotations.

Local Open Scope string_scope.
Local Open Scope list_scope.

(** ** Python string primitives

    A Python [str] is held as its UTF-8 encoding, one [ascii] per byte:
    every separator, marker and keyword of the script is an ASCII
    character, and such a byte never occurs inside the encoding of
    another character, so splitting, searching and replacing act on the
    encoding as they act on the text. White space is the one place where
    characters outside the ASCII range matter; see [blank_size]. *)

Module PyStr.

(** [str.startswith]. *)
Definition startswith (s p : string) : bool := String.prefix p s.

(** [old in s] for strings: [old] occurs as a contiguous substring. *)
Fixpoint occurs (old s : string) : bool :=
  match s with
  | EmptyString => String.prefix old EmptyString
  | String _ s' => String.prefix old s || occurs old s'
  end.

(** The scan of [str.replace] for a non-empty pattern: [skip] counts the
    characters of the occurrence being consumed. *)
Fixpoint replace_scan (old new : string) (skip : nat) (s : string) : string :=
  match s with
  | EmptyString => EmptyString
  | String c s' =>
      match skip with
      | S k => replace_scan old new k s'
      | O =>
          if String.prefix old s
          then new +:+ replace_scan old new (String.length old - 1) s'
          else String c (replace_scan old new 0 s')
      end
  end.

(** [str.replace] with an empty pattern puts [new] around every character. *)
Fixpoint interleave (new s : string) : string :=
  match s with
  | EmptyString => new
  | String c s' => new +:+ String c (interleave new s')
  end.

(** [s.replace(old, new)]. *)
Definition replace (old new s : string) : string :=
  match old with
  | EmptyString => interleave new s
  | _ => replace_scan old new 0 s
  end.

(** [s.split(c)] for a one-character separator: never the empty list. *)
Fixpoint split (c : ascii) (s : string) : list string :=
  match s with
  | EmptyString => [EmptyString]
  | String x s' =>
      if Ascii.eqb x c then EmptyString :: split c s'
      else match split c s' with
           | h :: t => String x h :: t
           | [] => [String x EmptyString]
           end
  end.

(** [str.isspace] on the ASCII range: tab to carriage return, the four
    separators and the space. *)
Definition isspace (c : ascii) : bool :=
  let n := nat_of_ascii c in
  ((9 <=? n)%nat && (n <=? 13)%nat) || ((28 <=? n)%nat && (n <=? 32)%nat).

(** The white space characters outside the ASCII range, by the bytes of
    their encoding: U+0085 and U+00A0 take two bytes, *)
Definition blank2 (c d : ascii) : bool :=
  Ascii.eqb c "194" && (Ascii.eqb d "133" || Ascii.eqb d "160").

(** and U+1680, U+2000 to U+200A, U+2028, U+2029, U+202F, U+205F and
    U+3000 take three. *)
Definition blank3 (c d e : ascii) : bool :=
  (Ascii.eqb c "225" && Ascii.eqb d "154" && Ascii.eqb e "128")
  || (Ascii.eqb c "226" && Ascii.eqb d "128"
      && (((128 <=? nat_of_ascii e)%nat && (nat_of_ascii e <=? 138)%nat)
          || Ascii.eqb e "168" || Ascii.eqb e "169" || Ascii.eqb e "175"))
  || (Ascii.eqb c "226" && Ascii.eqb d "129" && Ascii.eqb e "159")
  || (Ascii.eqb c "227" && Ascii.eqb d "128" && Ascii.eqb e "128").

(** The number of bytes of the white space character a text starts with,
    and 0 when it starts with none: the characters [str.isspace]
    accepts, which are the ones [str.strip] removes. *)
Definition blank_size (s : string) : nat :=
  match s with
  | EmptyString => 0
  | String c r =>
      if isspace c then 1
      else match r with
           | EmptyString => 0
           | String d r' =>
               if blank2 c d then 2
               else match r' with
                    | EmptyString => 0
                    | String e _ => if blank3 c d e then 3 else 0
                    end
           end
  end.

(** [s[n:]]. *)
Fixpoint drop (n : nat) (s : string) : string :=
  match n, s with
  | O, _ => s
  | S k, String _ s' => drop k s'
  | S _, EmptyString => EmptyString
  end.

(** The scan of [s.lstrip()]: [skip] counts the bytes of the white space
    character being removed. *)
Fixpoint lstrip_scan (skip : nat) (s : string) : string :=
  match s with
  | EmptyString => EmptyString
  | String _ r =>
      match skip with
      | S k => lstrip_scan k r
      | O =>
          match blank_size s with
          | O => s
          | S k => lstrip_scan k r
          end
      end
  end.

(** [s.lstrip()]. *)
Definition lstrip (s : string) : string := lstrip_scan 0 s.

(** [s.isspace()], or [s] is empty: white space and nothing else. *)
Definition all_blank (s : string) : bool :=
  match lstrip s with
  | EmptyString => true
  | String _ _ => false
  end.

(** [s.rstrip()]: the text up to the point from which only white space
    follows. *)
Fixpoint rstrip (s : string) : string :=
  match s with
  | EmptyString => EmptyString
  | String c r => if all_blank s then EmptyString else String c (rstrip r)
  end.

(** [s.strip()]. *)
Definition strip (s : string) : string := rstrip (lstrip s).

(** [s.lstrip(' ')]. *)
Fixpoint lstrip_char (c : ascii) (s : string) : string :=
  match s with
  | EmptyString => EmptyString
  | String x s' => if Ascii.eqb x c then lstrip_char c s' else s
  end.

(** [' ' * n]. *)
Fixpoint spaces (n : nat) : string :=
  match n with
  | O => EmptyString
  | S k => String " " (spaces k)
  end.

(** [sep.join(parts)]. *)
Definition join (sep : string) (parts : list string) : string :=
  String.concat sep parts.

(** One byte in a range of values. *)
Definition in_range (lo hi : nat) (c : ascii) : bool :=
  (lo <=? nat_of_ascii c)%nat && (nat_of_ascii c <=? hi)%nat.

(** The second byte a three-byte character may have after its first. *)
Definition three_bytes (c d : ascii) : bool :=
  (Ascii.eqb c "224" && in_range 160 191 d)
  || (in_range 225 236 c && in_range 128 191 d)
  || (Ascii.eqb c "237" && in_range 128 159 d)
  || (in_range 238 239 c && in_range 128 191 d).

(** The second byte a four-byte character may have after its first. *)
Definition four_bytes (c d : ascii) : bool :=
  (Ascii.eqb c "240" && in_range 144 191 d)
  || (in_range 241 243 c && in_range 128 191 d)
  || (Ascii.eqb c "244" && in_range 128 143 d).

(** The bytes a text-mode read decodes: well-formed UTF-8, the preferred
    encoding being UTF-8. On anything else the read raises
    [UnicodeDecodeError]. *)
Fixpoint valid_utf8 (s : string) : bool :=
  match s with
  | EmptyString => true
  | String c r =>
      if in_range 0 127 c then valid_utf8 r
      else match r with
           | EmptyString => false
           | String d r1 =>
               if in_range 194 223 c then in_range 128 191 d && valid_utf8 r1
               else match r1 with
                    | EmptyString => false
                    | String e r2 =>
                        if three_bytes c d then in_range 128 191 e && valid_utf8 r2
                        else match r2 with
                             | EmptyString => false
                             | String f r3 =>
                                 four_bytes c d && in_range 128 191 e
                                 && in_range 128 191 f && valid_utf8 r3
                             end
                    end
           end
  end.

(** Universal newlines, as a text-mode read applies them: a carriage
    return, with the line feed that follows it if there is one, is read
    as a line feed. *)
Fixpoint universal_newlines (s : string) : string :=
  match s with
  | EmptyString => EmptyString
  | String c r =>
      if Ascii.eqb c "013"
      then match r with
           | String d r' =>
               if Ascii.eqb d "010" then String "010" (universal_newlines r')
               else String "010" (universal_newlines r)
           | EmptyString => String "010" EmptyString
           end
      else String c (universal_newlines r)
  end.

(** Lines of a text as iteration over the file object (or [readlines()])
    yields them: each line keeps its terminating newline. The text is
    what a text-mode read gives, so every line end is a line feed. *)
Fixpoint readlines (s : string) : list string :=
  match s with
  | EmptyString => []
  | String c s' =>
      if Ascii.eqb c "010" then String c EmptyString :: readlines s'
      else match readlines s' with
           | [] => [String c EmptyString]
           | l :: ls => String c l :: ls
           end
  end.

(** [file.writelines(data)]. *)
Definition writelines (data : list string) : string := String.concat "" data.

(** Truthiness of an optional string: [None] and [''] are false. *)
Definition truthy (o : option string) : bool :=
  match o with
  | Some (String _ _) => true
  | _ => false
  end.

(** [str(x)] of an optional string. *)
Definition str (o : option string) : string :=
  match o with
  | Some s => s
  | None => "None"
  end.

(** The double quote and the newline, as one-character strings. *)
Definition dquote : string := String "034" EmptyString.
Definition newline : string := String "010" EmptyString.

End PyStr.

(** ** Regular expressions used by the script

    Each [re.match] call of the script has a fixed pattern; the matcher of
    each pattern is written out. *)

Module Re.

(** [.*$]: no newline, except one that ends the string. *)
Fixpoint dot_star_end (s : string) : bool :=
  match s with
  | EmptyString => true
  | String c s' =>
      if Ascii.eqb c "010" then String.eqb s' EmptyString else dot_star_end s'
  end.

(** [re.match("^maven_jar\(.*$", line)]. *)
Definition match_maven_jar (line : string) : bool :=
  PyStr.startswith line "maven_jar(" &&
  dot_star_end (String.substring 10 (String.length line - 10) line).

(** [re.match("^\)$", line)]. *)
Definition match_close (line : string) : bool :=
  String.eqb line ")" || String.eqb line (String ")" (String "010" EmptyString)).

(** The rest of a string after its longest prefix free of ['=']. *)
Fixpoint skip_non_eq (s : string) : string :=
  match s with
  | EmptyString => EmptyString
  | String c s' => if Ascii.eqb c "=" then s else skip_non_eq s'
  end.

(** [re.match("[^=]+=[^=]+", line)]. *)
Definition match_assign (line : string) : bool :=
  match line with
  | EmptyString => false
  | String c _ =>
      if Ascii.eqb c "=" then false
      else match skip_non_eq line with
           | String _ (String d _) => negb (Ascii.eqb d "=")
           | _ => false
           end
  end.

(** The part of a string before its first newline. *)
Fixpoint first_line (s : string) : string :=
  match s with
  | EmptyString => EmptyString
  | String c s' => if Ascii.eqb c "010" then EmptyString else String c (first_line s')
  end.

(** Does [c] occur in [s]? *)
Fixpoint has_char (c : ascii) (s : string) : bool :=
  match s with
  | EmptyString => false
  | String x s' => Ascii.eqb x c || has_char c s'
  end.

(** Is there a [':'] with a ['+'] somewhere after it? *)
Fixpoint colon_then_plus (s : string) : bool :=
  match s with
  | EmptyString => false
  | String c s' =>
      (Ascii.eqb c ":" && has_char "+" s') || colon_then_plus s'
  end.

(** [re.match(".*:.*\+", v)]. *)
Definition match_colon_plus (v : string) : bool :=
  colon_then_plus (first_line v).

End Re.

(** ** Exceptions and results *)

Inductive exn : Type :=
| TypeError
| ValueError
| IndexError
| KeyError
| AttributeError
| FileNotFoundError
| UnicodeDecodeError.

Inductive result (A : Type) : Type :=
| Ok (a : A)
| Raise (e : exn).

Arguments Ok {A} a.
Arguments Raise {A} e.

(** Sequencing: an exception raised by the first computation propagates. *)
#[global] Instance result_bind : MBind result :=
  fun A B (k : A -> result B) (r : result A) =>
    match r with
    | Ok a => k a
    | Raise e => Raise e
    end.

#[global] Instance result_ret : MRet result := @Ok.

(** [l[i]] on a Python list. *)
Definition index {A : Type} (l : list A) (i : nat) : result A :=
  match nth_error l i with
  | Some x => Ok x
  | None => Raise IndexError
  end.

(** ** Dictionaries

    A Python [dict] keeps its keys in insertion order, and the script
    iterates over [items()]: an association list without repeated keys,
    where assigning to a present key keeps the key's position. *)

Module Dict.
Section Dict.
Context {K V : Type} `{EqDecision K}.

Definition t := list (K * V).

Fixpoint get (k : K) (d : t) : option V :=
  match d with
  | [] => None
  | (k', v) :: d' => if decide (k = k') then Some v else get k d'
  end.

(** [k in d]. *)
Definition mem (k : K) (d : t) : bool :=
  match get k d with Some _ => true | None => false end.

(** [d[k] = v]. *)
Fixpoint set (k : K) (v : V) (d : t) : t :=
  match d with
  | [] => [(k, v)]
  | (k', v') :: d' =>
      if decide (k = k') then (k, v) :: d' else (k', v') :: set k v d'
  end.

(** [d.update(u)]. *)
Definition update (u d : t) : t :=
  fold_left (fun acc kv => set (fst kv) (snd kv) acc) u d.

(** [d[k]], which raises [KeyError] on an absent key. *)
Definition item (k : K) (d : t) : result V :=
  match get k d with
  | Some v => Ok v
  | None => Raise KeyError
  end.

Definition keys (d : t) : list K := map fst d.
End Dict.
Arguments t : clear implicits.
End Dict.

(** ** Data structures *)

(** [known_repos]. *)
Definition known_repos : Dict.t string string :=
  [ ("GERRIT", "GERRIT:");
    ("GERRIT_API", "GERRIT_API:");
    ("MAVEN_CENTRAL", "MAVEN_CENTRAL:");
    ("MAVEN_LOCAL", "MAVEN_LOCAL:");
    ("ECLIPSE", "ECLIPSE:");
    ("WANDISCO_ASSETS", "WANDISCO:") ].

(** [class Asset]: every member starts as [None]. *)
Record Asset : Type := mkAsset {
  name : option string;
  artifact : option string;
  repository : option string;
  sha1 : option string;
  src_sha1 : option string;
  old_version : option string
}.

(** [Asset()]. *)
Definition Asset_init : Asset := mkAsset None None None None None None.

(** The keys of [self.__dict__], in the order [__init__] creates them. *)
Definition Asset_keys : list string :=
  ["name"; "artifact"; "repository"; "sha1"; "src_sha1"; "old_version"].

(** [self.__dict__[key]] for a member; [None] when [key] is no member. *)
Definition Asset_member (key : string) (a : Asset) : option (option string) :=
  if String.eqb key "name" then Some (name a)
  else if String.eqb key "artifact" then Some (artifact a)
  else if String.eqb key "repository" then Some (repository a)
  else if String.eqb key "sha1" then Some (sha1 a)
  else if String.eqb key "src_sha1" then Some (src_sha1 a)
  else if String.eqb key "old_version" then Some (old_version a)
  else None.

(** [Asset.__setitem__]: keys that are not members are rejected silently. *)
Definition Asset_setitem (key : string) (val : option string) (a : Asset) : Asset :=
  if String.eqb key "name" then
    mkAsset val (artifact a) (repository a) (sha1 a) (src_sha1 a) (old_version a)
  else if String.eqb key "artifact" then
    mkAsset (name a) val (repository a) (sha1 a) (src_sha1 a) (old_version a)
  else if String.eqb key "repository" then
    mkAsset (name a) (artifact a) val (sha1 a) (src_sha1 a) (old_version a)
  else if String.eqb key "sha1" then
    mkAsset (name a) (artifact a) (repository a) val (src_sha1 a) (old_version a)
  else if String.eqb key "src_sha1" then
    mkAsset (name a) (artifact a) (repository a) (sha1 a) val (old_version a)
  else if String.eqb key "old_version" then
    mkAsset (name a) (artifact a) (repository a) (sha1 a) (src_sha1 a) val
  else a.

(** [Asset.__copy__]: a new [Asset] filled member by member. *)
Definition Asset_copy (self : Asset) : Asset :=
  fold_left
    (fun new key =>
       match Asset_member key self with
       | Some v => Asset_setitem key v new
       | None => new
       end)
    Asset_keys Asset_init.

#[global] Instance Asset_eq_dec : EqDecision Asset.
Proof. solve_decision. Defined.

(** [class AssetGroup]. *)
Record AssetGroup : Type := mkAssetGroup {
  source_type : string;
  source : string;
  assets : list Asset;
  env : option (Dict.t string string)
}.

(** [AssetGroup(source_type, source)]. *)
Definition AssetGroup_init (source_type source : string) : AssetGroup :=
  mkAssetGroup source_type source [] None.

(** Equality of two optional strings, as [==] decides it. *)
Definition opt_eqb (x y : option string) : bool := bool_decide (x = y).

(** [None in [x, y]]. *)
Definition none_in (x y : option string) : bool :=
  opt_eqb x None || opt_eqb y None.

(** [AssetGroup.make_replacement_set]. *)
Definition make_replacement_set (self other : AssetGroup)
  : result (list (option string * option string * option string)) :=
  if negb (String.eqb (source_type self) "FILE") then Raise TypeError
  else
    Ok (a ← assets self; b ← assets other;
        if opt_eqb (artifact a) (artifact b)
           && negb (opt_eqb (sha1 a) (sha1 b))
           && negb (none_in (sha1 a) (sha1 b))
        then [(artifact a, sha1 a, sha1 b)] else []).

(** [AssetGroup.assets_missing_shas]. *)
Definition assets_missing_shas (self : AssetGroup) : list (option string) :=
  a ← assets self; if opt_eqb (sha1 a) None then [name a] else [].

(** [AssetGroup.assets_with_duplicate_shas]. *)
Definition assets_with_duplicate_shas (self : AssetGroup)
  : list (option string * option string * option string) :=
  asset ← assets self; other ← assets self;
  if negb (opt_eqb (artifact asset) (artifact other))
     && opt_eqb (sha1 asset) (sha1 other)
  then [(name asset, name other, sha1 asset)] else [].

(** [AssetGroup.print_validation_summary]: the lines printed and the
    returned issue count. *)
Definition print_validation_summary (self : AssetGroup) : list string * nat :=
  let no_shas := assets_missing_shas self in
  let duplicate_shas := assets_with_duplicate_shas self in
  let no_sha_count := length no_shas in
  let out1 :=
    if (0 <? no_sha_count)%nat
    then ("The following assets in " +:+ source self +:+ " have no SHA1:")
           :: map PyStr.str no_shas
    else ["All assets in in " +:+ source self +:+ " have SHA1 values."] in
  let duplicate_sha_count := length duplicate_shas in
  let out2 :=
    if (0 <? duplicate_sha_count)%nat
    then ("The following assets in " +:+ source self
            +:+ " have duplicate SHA1 values:")
           :: map (fun pair : option string * option string * option string =>
                     let '(p0, p1, p2) := pair in
                     PyStr.str p0 +:+ "," +:+ PyStr.str p1 +:+ ": " +:+ PyStr.str p2)
                  duplicate_shas
    else ["No duplicate SHA1 values in " +:+ source self] in
  (out1 ++ out2, (no_sha_count + duplicate_sha_count)%nat).

(** [parse_property(s, delim)]. *)
Definition parse_property (s : string) (delim : ascii) : result (string * string) :=
  let parts := PyStr.split delim s in
  p0 ← index parts 0;
  let key := PyStr.strip (PyStr.replace "#" "" p0) in
  p1 ← index parts 1;
  v0 ← index (PyStr.split "#" p1) 0;
  let val := PyStr.replace "," "" (PyStr.replace PyStr.dquote "" (PyStr.strip v0)) in
  Ok (key, val).

(** ** Procedures *)

(** The file system: path to content, the bytes of the file. Text
    written to a file is stored as it is: its encoding, with line feeds
    as line ends. *)
Abbreviation FS := (gmap string string).

(** Reading the bytes of a file opened in text mode: the bytes are
    decoded, which fails on bytes that are no UTF-8, and line ends are
    translated. *)
Definition read_text (content : string) : result string :=
  if PyStr.valid_utf8 content then Ok (PyStr.universal_newlines content)
  else Raise UnicodeDecodeError.

(** [open(filename)] followed by reading the whole file, in text mode. A
    path either names a file with its content or nothing. *)
Definition read_file (fs : FS) (filename : string) : result string :=
  match fs !! filename with
  | Some content => read_text content
  | None => Raise FileNotFoundError
  end.

(** *** Loading assets from a bazel file *)

(** The variables of the scanning loop of [assets_from_bazel_file]. *)
Record scan_state : Type := mkScan {
  scan_current : option Asset;
  scan_assets : list Asset;
  scan_env : Dict.t string string
}.

(** One iteration of [for line in file_in]. An [Asset] object is always
    true in a condition, so [current_asset] is false only when [None]. *)
Definition scan_line (st : scan_state) (raw : string) : result scan_state :=
  let line := PyStr.strip raw in
  let st1 :=
    if Re.match_maven_jar line
    then mkScan (Some Asset_init) (scan_assets st) (scan_env st)
    else st in
  let st2 :=
    match scan_current st1 with
    | Some cur =>
        if Re.match_close line
        then mkScan None (scan_assets st1 ++ [cur]) (scan_env st1)
        else st1
    | None => st1
    end in
  if Re.match_assign line then
    kv ← parse_property line "=";
    let '(k, v) := kv in
    match scan_current st2 with
    | None => Ok (mkScan None (scan_assets st2) (Dict.set k v (scan_env st2)))
    | Some cur =>
        Ok (mkScan (Some (Asset_setitem k (Some v) cur))
                   (scan_assets st2) (scan_env st2))
    end
  else Ok st2.

Fixpoint scan_lines (st : scan_state) (lines : list string) : result scan_state :=
  match lines with
  | [] => Ok st
  | raw :: rest => st' ← scan_line st raw; scan_lines st' rest
  end.

(** The inner loop [for l,m in list(env.items())] of the environment
    pass: every declared name is replaced by its declared value. *)
Definition substitute_all (env : Dict.t string string) (val : string) : string :=
  fold_left (fun acc lm => PyStr.replace (fst lm) (snd lm) acc) env val.

(** "Resolve Variables in environment": [updates] is filled from the
    bindings as they were scanned, then merged into [env]. *)
Definition resolve_env (env : Dict.t string string) : Dict.t string string :=
  let updates :=
    fold_left
      (fun (updates : Dict.t string string) kv =>
         let k := fst kv in
         let v := snd kv in
         let updated_val := substitute_all env (PyStr.replace " + " "" v) in
         let updates := Dict.set k updated_val updates in
         if Dict.mem v known_repos
         then match Dict.get v known_repos with
              | Some repo => Dict.set k repo updates
              | None => updates
              end
         else updates)
      env [] in
  Dict.update updates env.

(** One iteration of [for k,v in list(env.items())] on an asset. *)
Definition substitute_asset (a : Asset) (kv : string * string) : Asset :=
  let k := fst kv in
  let v := snd kv in
  let a1 :=
    if PyStr.truthy (artifact a)
    then Asset_setitem "artifact"
           (option_map (fun s => PyStr.replace k v (PyStr.replace " + " "" s))
                       (artifact a)) a
    else a in
  if PyStr.truthy (repository a1)
  then Asset_setitem "repository"
         (option_map (PyStr.replace k v) (repository a1)) a1
  else a1.

(** [x in known_repos], then [known_repos[x]], for an optional string. *)
Definition known_repo (x : option string) : option string :=
  match x with
  | Some r => Dict.get r known_repos
  | None => None
  end.

(** The body of [for asset in assets] of the asset pass. *)
Definition resolve_asset (env : Dict.t string string) (a : Asset) : Asset :=
  let a1 := fold_left substitute_asset env a in
  match known_repo (repository a1) with
  | Some repo => Asset_setitem "repository" (Some repo) a1
  | None => a1
  end.

(** [assets_from_bazel_file] on the text of the file. *)
Definition assets_from_bazel_text (filename content : string) : result AssetGroup :=
  st ← scan_lines (mkScan None [] []) (PyStr.readlines content);
  let env := resolve_env (scan_env st) in
  let assets := map (resolve_asset env) (scan_assets st) in
  Ok (mkAssetGroup "FILE" filename assets (Some env)).

(** [assets_from_bazel_file(filename)]. *)
Definition assets_from_bazel_file (fs : FS) (filename : string) : result AssetGroup :=
  content ← read_file fs filename;
  assets_from_bazel_text filename content.

(** *** Asset objects

    [asset_from_repo] and [process_assets] create [Asset] objects and
    assign to their members, so objects live in a store and are named by
    their position in it. *)

Abbreviation heap := (list Asset).

(** The object a reference names. *)
Definition heap_get (h : heap) (r : nat) : Asset := nth r h Asset_init.

(** A new object holding [a]; its reference is the next free position. *)
Definition heap_alloc (h : heap) (a : Asset) : nat * heap :=
  (length h, h ++ [a]).

(** Assignment to a member of the object [r] names. *)
Definition heap_setattr (h : heap) (r : nat) (key : string) (val : option string) : heap :=
  <[r := Asset_setitem key val (heap_get h r)]> h.

(** [copy(asset)]: [Asset.__copy__] builds a new object. *)
Definition heap_copy (h : heap) (r : nat) : nat * heap :=
  heap_alloc h (Asset_copy (heap_get h r)).

(** [os.path.join(a, b)] on POSIX paths. *)
Definition path_join (a b : string) : string :=
  if PyStr.startswith b "/" then b
  else if String.eqb a "" then b
  else if PyStr.startswith (String.substring (String.length a - 1) 1 a) "/"
       then a +:+ b
       else a +:+ "/" +:+ b.

(** The loop over the lines of the failed command's output: the last
    line starting with [received] gives the digest. *)
Fixpoint received_sha (new_sha : option string) (lines : list string)
  : result (option string) :=
  match lines with
  | [] => Ok new_sha
  | line :: rest =>
      if PyStr.startswith line "received"
      then sha ← index (PyStr.split " " line) 1; received_sha (Some sha) rest
      else received_sha new_sha rest
  end.

(** The captured output of a command. [subprocess.check_output] returns,
    and [CalledProcessError.output] holds, a [bytes] object unless the
    call asks for text. *)
Inductive captured : Type :=
| Text (s : string)
| Bytes (s : string).

(** [output.split('\n')] with the separator a [str]: [bytes.split]
    refuses it. *)
Definition output_lines (output : captured) : result (list string) :=
  match output with
  | Text s => Ok (PyStr.split "010" s)
  | Bytes _ => Raise TypeError
  end.

Section Collaborators.

(** [tempfile.gettempdir()] and [str(os.getpid())]. *)
Variable tempdir : string.
Variable pid : string.

(** [subprocess.check_output(cmd, stderr=STDOUT)] for
    tools/download_file.py: [None] when the command exits with status
    zero, [Some output] when it fails with [CalledProcessError] carrying
    [output]. The call does not ask for text, so under Python 3 the output
    is [Bytes]. *)
Variable download_file : list string -> option captured.

(** [asset_from_repo(asset, repo_name)]. The result comes with the
    store as the call leaves it, also when an exception is raised.
    Console output and the temporary file are not part of the model. *)
Definition asset_from_repo (h : heap) (asset : nat) (repo_name : option string)
  : result nat * heap :=
  let repo_name := if PyStr.truthy repo_name then PyStr.str repo_name
                   else "MAVEN_CENTRAL:" in
  match artifact (heap_get h asset) with
  | None => (Raise AttributeError, h)
  | Some art =>
      match PyStr.split ":" art with
      | [vendor; name; version] =>
          let jar_name := name +:+ "-" +:+ version +:+ ".jar" in
          let tmp_file := path_join tempdir (jar_name +:+ "." +:+ pid) in
          let url := PyStr.join "/" [repo_name; PyStr.replace "." "/" vendor;
                                     name; version; jar_name] in
          let '(new_asset, h1) := heap_copy h asset in
          let cmd := ["tools/download_file.py"; "-o"; tmp_file; "-u"; url;
                      "-v"; "xxxxxxxxxxx"] in
          match download_file cmd with
          | None => (Ok new_asset, h1)
          | Some output =>
              match lines ← output_lines output; received_sha None lines with
              | Raise e => (Raise e, h1)
              | Ok new_sha =>
                  if PyStr.truthy new_sha
                  then (Ok new_asset, heap_setattr h1 new_asset "sha1" new_sha)
                  else (Ok new_asset, h1)
              end
          end
      | _ => (Raise ValueError, h)
      end
  end.

(** The dictionaries [process_assets] builds and the store of the
    objects it created. *)
Record process_state : Type := mkProcess {
  proc_heap : heap;
  assets_to_update : Dict.t (option string) nat;
  skipped_assets : Dict.t (option string) Asset
}.

(** [jgit_artifact_id]. *)
Definition jgit_artifact_id : string := "org.eclipse.jgit".

(** The body of [for asset in asset_group.assets] in [process_assets]. *)
Definition process_asset (properties : Dict.t string string)
    (st : process_state) (asset : Asset) : result process_state :=
  match artifact asset with
  | None => Raise AttributeError
  | Some art =>
      let artifact_split := PyStr.split ":" art in
      group_id ← index artifact_split 0;
      artifact_id ← index artifact_split 1;
      version ← index artifact_split 2;
      let property_key :=
        (if String.eqb artifact_id jgit_artifact_id then artifact_id
         else group_id +:+ "." +:+ artifact_id) +:+ ".version" in
      match Dict.get property_key properties with
      | Some property_version =>
          if String.eqb version property_version
          then Ok (mkProcess (proc_heap st) (assets_to_update st)
                     (Dict.set (name asset) asset (skipped_assets st)))
          else
            let '(new_asset, h1) := heap_alloc (proc_heap st) (Asset_copy asset) in
            let h2 := heap_setattr h1 new_asset "artifact"
                        (Some (group_id +:+ ":" +:+ artifact_id +:+ ":"
                                 +:+ property_version)) in
            let h3 := heap_setattr h2 new_asset "old_version" (Some version) in
            let '(r, h4) := asset_from_repo h3 new_asset
                              (repository (heap_get h3 new_asset)) in
            new_asset ← r;
            let key := if String.eqb artifact_id jgit_artifact_id
                       then Some artifact_id
                       else name (heap_get h4 new_asset) in
            Ok (mkProcess h4 (Dict.set key new_asset (assets_to_update st))
                          (skipped_assets st))
      | None => Ok st
      end
  end.

Fixpoint process_list (properties : Dict.t string string)
    (st : process_state) (l : list Asset) : result process_state :=
  match l with
  | [] => Ok st
  | asset :: rest =>
      st' ← process_asset properties st asset;
      process_list properties st' rest
  end.

(** [process_assets(properties, build_file_assets, check)]: the flag
    [check] only selects a message. The assets of the groups are read
    and never assigned to; the objects created for updates are in the
    returned store. *)
Definition process_assets (properties : Dict.t string string)
    (build_file_assets : list AssetGroup) : result process_state :=
  process_list properties (mkProcess [] [] [])
    (asset_group ← build_file_assets; assets asset_group).

End Collaborators.

(** *** Updating a bazel file *)

(** The variables of the loop of [update_bazel_file]. *)
Record update_state : Type := mkUpdate {
  upd_env : Dict.t string string;
  upd_env_line : Dict.t string nat;
  updated_assets : Dict.t (option string) Asset;
  upd_current : option Asset;
  upd_data : list string
}.

(** [x in s] for a string [s] that may be [None]. *)
Definition contains (x : string) (s : option string) : result bool :=
  match s with
  | Some s => Ok (PyStr.occurs x s)
  | None => Raise TypeError
  end.

(** The branch of an [artifact] line whose value refers to a variable:
    the declaration line of the variable is rewritten. *)
Definition update_variable (st : update_state) (new_asset : Asset) (v : string)
  : result update_state :=
  part ← index (PyStr.split "+" v) 1;
  let env_variable := PyStr.strip part in
  line_num ← Dict.item env_variable (upd_env_line st);
  art ← match artifact new_asset with
        | Some art => Ok art
        | None => Raise AttributeError
        end;
  version ← index (PyStr.split ":" art) 2;
  if (line_num =? 0)%nat then Ok st
  else
    declared ← Dict.item env_variable (upd_env st);
    if String.eqb declared version then Ok st
    else
      line ← index (upd_data st) line_num;
      let indent_amount :=
        (String.length line - String.length (PyStr.lstrip_char " " line))%nat in
      let data :=
        <[line_num := PyStr.spaces indent_amount +:+ env_variable +:+ " = "
                        +:+ PyStr.dquote +:+ version +:+ PyStr.dquote
                        +:+ PyStr.newline]> (upd_data st) in
      Ok (mkUpdate (upd_env st) (upd_env_line st)
            (Dict.set (name new_asset) new_asset (updated_assets st))
            (upd_current st) data).

(** What [getattr(asset, k)] gives for a name [k] that is none of the
    six members: a string, or another object, of which only the text
    that [format] gives for it matters. The methods of the class and the
    attributes every object has are of this kind. *)
Inductive attribute : Type :=
| StrAttribute (s : string)
| ObjectAttribute (text : string).

(** [v != new_val] for such a value: a string differs from every object
    that is no string. *)
Definition attribute_differs (v : string) (attr : attribute) : bool :=
  match attr with
  | StrAttribute s => negb (String.eqb v s)
  | ObjectAttribute _ => true
  end.

(** [str(new_val)] for such a value. *)
Definition attribute_text (attr : attribute) : string :=
  match attr with
  | StrAttribute s => s
  | ObjectAttribute text => text
  end.

Definition attributes : Type := option string -> Asset -> string -> option attribute.

Section Update.

(** The attributes, besides its members, of the object that
    [assets_to_update] holds under a key, [None] for a name the object
    has no attribute for. Which names there are depends on the
    interpreter; the text of a method holds the address of the object,
    which is why the key that leads to the object is given too. *)
Variable other_attribute : attributes.

(** The branch of every other field line: the line to write and whether
    the asset counts as updated. [hasattr(new_asset, k)] holds for the
    six members and for the other attributes of the object; for these
    [k] is none of [sha1], [repository] and [artifact]. *)
Definition update_field (key : option string) (new_asset : Asset)
    (k v original_line : string) : result (string * bool) :=
  match Asset_member k new_asset with
  | None =>
      match other_attribute key new_asset k with
      | None => Ok (original_line, false)
      | Some new_val =>
          if attribute_differs v new_val
          then Ok ("        " +:+ k +:+ " = " +:+ PyStr.dquote
                     +:+ attribute_text new_val +:+ PyStr.dquote +:+ ","
                     +:+ PyStr.newline, false)
          else Ok (original_line, false)
      end
  | Some new_val =>
      if opt_eqb (Some v) new_val then Ok (original_line, false)
      else
        snapshot ← (if String.eqb k "sha1"
                    then contains "SNAPSHOT" (artifact new_asset)
                    else Ok false);
        if snapshot : bool then
          match new_val with
          | Some nv =>
              Ok ("    #" +:+ k +:+ " = " +:+ PyStr.dquote +:+ nv +:+ PyStr.dquote
                    +:+ "," +:+ PyStr.newline, false)
          | None => Raise TypeError
          end
        else if String.eqb k "repository" then
          has_colon ← contains ":" new_val;
          let nv := PyStr.str new_val in
          let nv := if has_colon : bool then PyStr.replace ":" "" nv else nv in
          let nv := if String.eqb nv "WANDISCO" then nv +:+ "_ASSETS" else nv in
          Ok ("        " +:+ k +:+ " = " +:+ nv +:+ "," +:+ PyStr.newline, false)
        else
          Ok ("        " +:+ k +:+ " = " +:+ PyStr.dquote +:+ PyStr.str new_val
                +:+ PyStr.dquote +:+ "," +:+ PyStr.newline,
              String.eqb k "artifact")
  end.

(** One iteration of [for count, original_line in enumerate(data)]. *)
Definition update_line (to_update : Dict.t (option string) Asset)
    (st : update_state) (count : nat) : result update_state :=
  original_line ← index (upd_data st) count;
  let line := PyStr.strip original_line in
  if Re.match_maven_jar line then
    Ok (mkUpdate (upd_env st) (upd_env_line st) (updated_assets st)
          (Some Asset_init) (upd_data st))
  else if bool_decide (is_Some (upd_current st)) && Re.match_close line then
    Ok (mkUpdate (upd_env st) (upd_env_line st) (updated_assets st)
          None (upd_data st))
  else if Re.match_assign line then
    kv ← parse_property line "=";
    let '(k, v) := kv in
    match upd_current st with
    | None =>
        Ok (mkUpdate (Dict.set k v (upd_env st))
              (Dict.set k count (upd_env_line st))
              (updated_assets st) None (upd_data st))
    | Some cur =>
        let cur := Asset_setitem k (Some v) cur in
        let st := mkUpdate (upd_env st) (upd_env_line st) (updated_assets st)
                    (Some cur) (upd_data st) in
        match Dict.get (name cur) to_update with
        | None =>
            Ok (mkUpdate (upd_env st) (upd_env_line st) (updated_assets st)
                  (upd_current st) (<[count := original_line]> (upd_data st)))
        | Some new_asset =>
            if String.eqb k "artifact" && Re.match_colon_plus v then
              st' ← update_variable st new_asset v;
              Ok (mkUpdate (upd_env st') (upd_env_line st') (updated_assets st')
                    (upd_current st') (<[count := original_line]> (upd_data st')))
            else
              lw ← update_field (name cur) new_asset k v original_line;
              let '(new_line, updated) := lw in
              Ok (mkUpdate (upd_env st) (upd_env_line st)
                    (if updated : bool
                     then Dict.set (name new_asset) new_asset (updated_assets st)
                     else updated_assets st)
                    (upd_current st) (<[count := new_line]> (upd_data st)))
        end
    end
  else Ok st.

Fixpoint update_lines (to_update : Dict.t (option string) Asset)
    (st : update_state) (counts : list nat) : result update_state :=
  match counts with
  | [] => Ok st
  | count :: rest =>
      st' ← update_line to_update st count;
      update_lines to_update st' rest
  end.

(** [update_bazel_file(filename, assets_to_update)]: the file system
    after the call and the returned [updated_assets]. *)
Definition update_bazel_file (fs : FS) (filename : string)
    (to_update : Dict.t (option string) Asset)
  : result (FS * Dict.t (option string) Asset) :=
  content ← read_file fs filename;
  let data := PyStr.readlines content in
  st ← update_lines to_update (mkUpdate [] [] [] None data) (seq 0 (length data));
  Ok (<[filename := PyStr.writelines (upd_data st)]> fs, updated_assets st).

End Update.

(** *** Replacing SHAs in a file *)

Section Sed.

(** [subprocess.check_output(["sed", ...])]: the file system the
    command leaves behind. A failure of the command only prints a
    message. *)
Variable run_sed : list string -> FS -> FS.

(** The command built for one replacement. *)
Definition sed_command (source : string) (enable_shas : bool)
    (old new : option string) : list string :=
  ["sed"; "-E"; "-i"; source; "-e";
   "s/" +:+ PyStr.str old +:+ "/" +:+ PyStr.str new +:+ "/"]
  ++ (if enable_shas
      then ["-e"; "s/^([^#]*)#(.+" +:+ PyStr.str new +:+ ".+)$/\1\2/"]
      else []).

(** [replace_shas_in_file(groupA, groupB, enable_shas)]. *)
Definition replace_shas_in_file (fs : FS) (groupA groupB : AssetGroup)
    (enable_shas : bool) : result FS :=
  replacements ← make_replacement_set groupA groupB;
  Ok (fold_left
        (fun fs (r : option string * option string * option string) =>
           let '(_, old, new) := r in
           run_sed (sed_command (source groupA) enable_shas old new) fs)
        replacements fs).

End Sed.

(** * Properties *)

(** ** Reading a file *)

(** A text without carriage returns is read as it is. *)
Lemma universal_newlines_plain s :
  Re.has_char "013" s = false -> PyStr.universal_newlines s = s.
Proof.
  induction s as [|c s IH]; [reflexivity|]. cbn [Re.has_char PyStr.universal_newlines].
  intros H. apply orb_false_iff in H as [Hc Hs]. rewrite Hc, (IH Hs). reflexivity.
Qed.

(** What is read has no carriage return. *)
Lemma universal_newlines_no_return s :
  Re.has_char "013" (PyStr.universal_newlines s) = false.
Proof.
  remember (String.length s) as n eqn:Hn. revert s Hn.
  induction n as [n IH] using lt_wf_ind. intros s Hn.
  destruct s as [|c s]; [reflexivity|]. cbn [PyStr.universal_newlines].
  destruct (Ascii.eqb c "013") eqn:Hc.
  - destruct s as [|d s]; [reflexivity|].
    destruct (Ascii.eqb d "010"); cbn [Re.has_char Ascii.eqb Bool.eqb orb].
    + apply (IH (String.length s)); [subst n; simpl; lia|reflexivity].
    + apply (IH (String.length (String d s))); [subst n; simpl; lia|reflexivity].
  - cbn [Re.has_char]. rewrite Hc.
    apply (IH (String.length s)); [subst n; simpl; lia|reflexivity].
Qed.

(** The three ways a text-mode read ends. *)
Lemma read_file_cases (fs : FS) (filename : string) :
  (fs !! filename = None /\ read_file fs filename = Raise FileNotFoundError)
  \/ (exists content,
        fs !! filename = Some content /\ PyStr.valid_utf8 content = false
        /\ read_file fs filename = Raise UnicodeDecodeError)
  \/ (exists content,
        fs !! filename = Some content /\ PyStr.valid_utf8 content = true
        /\ read_file fs filename = Ok (PyStr.universal_newlines content)).
Proof.
  unfold read_file, read_text. destruct (fs !! filename) as [content|]; [|left; auto].
  right. destruct (PyStr.valid_utf8 content) eqn:E; [right|left]; eauto.
Qed.

(** A well-formed file with line feeds as line ends is read as it is. *)
Lemma read_file_plain (fs : FS) (filename content : string) :
  fs !! filename = Some content ->
  PyStr.valid_utf8 content = true -> Re.has_char "013" content = false ->
  read_file fs filename = Ok content.
Proof.
  intros Hfile Hvalid Hplain. unfold read_file, read_text.
  rewrite Hfile, Hvalid, (universal_newlines_plain _ Hplain). reflexivity.
Qed.

(** ** Comparing two asset groups *)

(** The condition under which a pair of records yields a replacement:
    equal coordinates, different digests, both digests present. *)
Definition Replaces (a b : Asset) : Prop :=
  artifact a = artifact b /\ sha1 a <> sha1 b /\ sha1 a <> None /\ sha1 b <> None.

#[global] Instance Replaces_dec a b : Decision (Replaces a b).
Proof. unfold Replaces. apply _. Defined.

(** The tuple a replacing pair contributes. *)
Definition replacement (a b : Asset) : option string * option string * option string :=
  (artifact a, sha1 a, sha1 b).

Lemma opt_eqb_true x y : opt_eqb x y = true <-> x = y.
Proof. unfold opt_eqb. apply bool_decide_eq_true. Qed.

Lemma opt_eqb_false x y : opt_eqb x y = false <-> x <> y.
Proof. unfold opt_eqb. apply bool_decide_eq_false. Qed.

Lemma replaces_guard a b :
  opt_eqb (artifact a) (artifact b)
    && negb (opt_eqb (sha1 a) (sha1 b))
    && negb (none_in (sha1 a) (sha1 b)) = true <-> Replaces a b.
Proof.
  unfold Replaces, none_in.
  rewrite !andb_true_iff, !negb_true_iff, orb_false_iff.
  rewrite opt_eqb_true, !opt_eqb_false. tauto.
Qed.

(** The comprehension of [make_replacement_set], pair by pair. *)
Lemma replacement_pairs (la lb : list Asset) t :
  t ∈ (a ← la; b ← lb;
       if opt_eqb (artifact a) (artifact b)
          && negb (opt_eqb (sha1 a) (sha1 b))
          && negb (none_in (sha1 a) (sha1 b))
       then [(artifact a, sha1 a, sha1 b)] else [])
  <-> exists a b, a ∈ la /\ b ∈ lb /\ Replaces a b /\ t = replacement a b.
Proof.
  rewrite list_elem_of_bind. split.
  - intros (a & Hin & Ha). apply list_elem_of_bind in Hin as (b & Hin & Hb).
    exists a, b. destruct (_ && _) eqn:G.
    + apply replaces_guard in G. apply list_elem_of_singleton in Hin. auto.
    + inversion Hin.
  - intros (a & b & Ha & Hb & HR & ->). exists a. split; [|exact Ha].
    apply list_elem_of_bind. exists b. split; [|exact Hb].
    apply replaces_guard in HR. rewrite HR. apply list_elem_of_singleton. reflexivity.
Qed.

(** A comprehension over two lists with a condition, as a selection
    from the pairs of the two lists in the order of the loops. *)
Lemma comprehension_pairs {X Y Z : Type} (f : X -> Y -> bool) (g : X -> Y -> Z)
    (la : list X) (lb : list Y) :
  (a ← la; b ← lb; if f a b then [g a b] else [])
  = map (fun p => g (fst p) (snd p))
        (List.filter (fun p => f (fst p) (snd p)) (list_prod la lb)).
Proof.
  induction la as [|a la IH]; [reflexivity|].
  cbn [mbind list_bind list_prod]. rewrite List.filter_app, map_app, <- IH.
  f_equal. clear IH. induction lb as [|b lb IH]; [reflexivity|].
  cbn [mbind list_bind map List.filter fst snd]. rewrite IH.
  destruct (f a b); reflexivity.
Qed.

(** C1. For a FILE-sourced group [A] and any group [B],
    [make_replacement_set] returns the list that has, pair by pair in the
    order of the two groups, the tuple (coordinate, old digest, new
    digest) of every pair of records with equal coordinates, different
    digests and no absent digest, and nothing for the other pairs. So a
    tuple is in the list exactly when it is the tuple of such a pair, and
    no tuple of the list has an absent digest. *)
Theorem make_replacement_set_pairs (A B : AssetGroup) :
  source_type A = "FILE" ->
  exists rs,
    make_replacement_set A B = Ok rs
    /\ rs = map (fun p => (artifact (fst p), sha1 (fst p), sha1 (snd p)))
               (List.filter (fun p => bool_decide (Replaces (fst p) (snd p)))
                            (list_prod (assets A) (assets B)))
    /\ (forall t, t ∈ rs <->
          exists a b, a ∈ assets A /\ b ∈ assets B
                      /\ artifact a = artifact b /\ sha1 a <> sha1 b
                      /\ sha1 a <> None /\ sha1 b <> None
                      /\ t = (artifact a, sha1 a, sha1 b))
    /\ (forall art old new, (art, old, new) ∈ rs -> old <> None /\ new <> None).
Proof.
  intros HF. unfold make_replacement_set. rewrite HF. simpl.
  eexists. split; [reflexivity|].
  split.
  { rewrite comprehension_pairs. f_equal. apply List.filter_ext. intros [a b]. simpl.
    destruct (bool_decide_reflect (Replaces a b)) as [HR|HR].
    - apply replaces_guard, HR.
    - apply not_true_is_false. intros G. apply HR, replaces_guard, G. }
  assert (Hiff : forall t, t ∈ _ <-> _) by (intros t; apply (replacement_pairs (assets A) (assets B) t)).
  split.
  - intros t. rewrite Hiff. unfold Replaces, replacement.
    split; intros (a & b & H); exists a, b; tauto.
  - intros art old new Hin. apply Hiff in Hin as (a & b & _ & _ & HR & Heq).
    unfold Replaces in HR. inversion Heq; subst. tauto.
Qed.

Definition scenario2_manifest : AssetGroup :=
  mkAssetGroup "FILE" "WORKSPACE"
    [mkAsset (Some "lib") (Some "com.x:lib:1.2.3") None (Some "aaa") None None] None.

Definition scenario2_reference : AssetGroup :=
  mkAssetGroup "REPO" "WANDISCO:"
    [mkAsset (Some "lib") (Some "com.x:lib:1.2.3") None (Some "bbb") None None] None.

Lemma make_replacement_set_pairs_witness :
  exists rs,
    make_replacement_set scenario2_manifest scenario2_reference = Ok rs
    /\ rs = map (fun p => (artifact (fst p), sha1 (fst p), sha1 (snd p)))
               (List.filter (fun p => bool_decide (Replaces (fst p) (snd p)))
                            (list_prod (assets scenario2_manifest)
                                       (assets scenario2_reference)))
    /\ (forall t, t ∈ rs <->
          exists a b, a ∈ assets scenario2_manifest /\ b ∈ assets scenario2_reference
                      /\ artifact a = artifact b /\ sha1 a <> sha1 b
                      /\ sha1 a <> None /\ sha1 b <> None
                      /\ t = (artifact a, sha1 a, sha1 b))
    /\ (forall art old new, (art, old, new) ∈ rs -> old <> None /\ new <> None).
Proof. apply (make_replacement_set_pairs scenario2_manifest scenario2_reference). reflexivity. Defined.

(** Scenario 2 of the specification. *)
Example scenario2_replacement :
  make_replacement_set scenario2_manifest scenario2_reference
  = Ok [(Some "com.x:lib:1.2.3", Some "aaa", Some "bbb")].
Proof. reflexivity. Qed.

(** C3. [make_replacement_set] raises (a [TypeError]) exactly when the
    left-hand group is not FILE-sourced, and returns a list exactly when
    it is. *)
Theorem make_replacement_set_raises (self other : AssetGroup) :
  (make_replacement_set self other = Raise TypeError <-> source_type self <> "FILE")
  /\ ((exists rs, make_replacement_set self other = Ok rs) <-> source_type self = "FILE").
Proof.
  unfold make_replacement_set.
  destruct (String.eqb_spec (source_type self) "FILE") as [E|E]; simpl.
  - split; split; try congruence; eauto.
  - split; split; try congruence; try tauto. intros (rs & H). discriminate.
Qed.

(** ** Validation *)

(** The comprehension of [assets_with_duplicate_shas], pair by pair. *)
Lemma duplicate_pairs (g : AssetGroup) t :
  t ∈ assets_with_duplicate_shas g
  <-> exists a b, a ∈ assets g /\ b ∈ assets g
                  /\ artifact a <> artifact b /\ sha1 a = sha1 b
                  /\ t = (name a, name b, sha1 a).
Proof.
  unfold assets_with_duplicate_shas. rewrite list_elem_of_bind. split.
  - intros (a & Hin & Ha). apply list_elem_of_bind in Hin as (b & Hin & Hb).
    exists a, b. destruct (_ && _) eqn:G; [|inversion Hin].
    apply andb_true_iff in G as [G1 G2].
    apply negb_true_iff, opt_eqb_false in G1. apply opt_eqb_true in G2.
    apply list_elem_of_singleton in Hin. auto.
  - intros (a & b & Ha & Hb & Hne & Heq & ->). exists a. split; [|exact Ha].
    apply list_elem_of_bind. exists b. split; [|exact Hb].
    apply opt_eqb_false in Hne. apply opt_eqb_true in Heq. rewrite Hne, Heq. simpl.
    apply list_elem_of_singleton. reflexivity.
Qed.



(** Two records without a digest and with different coordinates: the
    comparison [None == None] holds, so they are listed as duplicates,
    besides being listed as missing a digest. *)
Example duplicate_of_absent_digests :
  assets_with_duplicate_shas
    (mkAssetGroup "FILE" "WORKSPACE"
       [mkAsset (Some "a") (Some "com.x:a:1.0") None None None None;
        mkAsset (Some "b") (Some "com.x:b:1.0") None None None None] None)
  = [(Some "a", Some "b", None); (Some "b", Some "a", None)].
Proof. reflexivity. Qed.















(** ** Rewriting digests *)

(** C7. Parsing a manifest file and diffing the parsed group against a
    reference group: when the replacement set is empty,
    [replace_shas_in_file] returns with the file system unchanged, so the
    manifest still has the content it had. *)
Theorem replace_shas_in_file_empty (run_sed : list string -> FS -> FS)
    (fs : FS) (filename content : string) (groupA groupB : AssetGroup)
    (enable_shas : bool) :
  fs !! filename = Some content ->
  assets_from_bazel_file fs filename = Ok groupA ->
  make_replacement_set groupA groupB = Ok [] ->
  exists fs',
    replace_shas_in_file run_sed fs groupA groupB enable_shas = Ok fs'
    /\ fs' = fs
    /\ fs' !! filename = Some content.
Proof.
  intros Hfile _ Hempty. exists fs.
  unfold replace_shas_in_file. rewrite Hempty. simpl. auto.
Qed.

(** A manifest used to exercise the rewriting: one record whose digest
    equals the reference digest. *)
Definition quoted (s : string) : string := PyStr.dquote +:+ s +:+ PyStr.dquote.

Definition line (s : string) : string := s +:+ PyStr.newline.

Definition scenario1_text : string :=
  PyStr.writelines
    [ line ("VERSION = " +:+ quoted "1.2.3");
      line "maven_jar(";
      line ("  name = " +:+ quoted "lib" +:+ ",");
      line ("  artifact = " +:+ quoted "com.x:lib:" +:+ " + VERSION,");
      line "  repository = WANDISCO_ASSETS,";
      line ("  sha1 = " +:+ quoted "aaa" +:+ ",");
      line ")" ].

Definition scenario1_group : AssetGroup :=
  mkAssetGroup "FILE" "WORKSPACE"
    [mkAsset (Some "lib") (Some "com.x:lib:1.2.3") (Some "WANDISCO:")
             (Some "aaa") None None]
    (Some [("VERSION", "1.2.3")]).

(** Scenario 1 of the specification: the declared version is substituted
    into the coordinate. *)
Example scenario1_resolution :
  assets_from_bazel_text "WORKSPACE" scenario1_text = Ok scenario1_group.
Proof. vm_compute. reflexivity. Qed.

Lemma replace_shas_in_file_empty_witness :
  exists fs',
    replace_shas_in_file (fun _ _ => ∅) {["WORKSPACE" := scenario1_text]}
      scenario1_group scenario1_group true = Ok fs'
    /\ fs' = {["WORKSPACE" := scenario1_text]}
    /\ fs' !! "WORKSPACE" = Some scenario1_text.
Proof.
  apply (replace_shas_in_file_empty (fun _ _ => ∅) {["WORKSPACE" := scenario1_text]}
           "WORKSPACE" scenario1_text scenario1_group scenario1_group true).
  - apply lookup_singleton_eq.
  - unfold assets_from_bazel_file, read_file. rewrite lookup_singleton_eq.
    simpl. apply scenario1_resolution.
  - reflexivity.
Defined.

(** ** Facts about the string primitives *)

Lemma replace_scan_absent old new s :
  PyStr.occurs old s = false -> PyStr.replace_scan old new 0 s = s.
Proof.
  induction s as [|c s IH]; simpl; [reflexivity|].
  intros H. apply orb_false_iff in H as [Hp Ho].
  simpl in Hp. rewrite Hp. f_equal. apply IH, Ho.
Qed.

Lemma occurs_empty s : PyStr.occurs EmptyString s = true.
Proof. destruct s; reflexivity. Qed.

(** Replacing a pattern that does not occur changes nothing. *)
Lemma replace_absent old new s :
  PyStr.occurs old s = false -> PyStr.replace old new s = s.
Proof.
  intros H. destruct old as [|c old].
  - rewrite occurs_empty in H. discriminate.
  - apply replace_scan_absent, H.
Qed.

Lemma substitute_all_absent (e : Dict.t string string) v :
  (forall l, l ∈ Dict.keys e -> PyStr.occurs l v = false) ->
  substitute_all e v = v.
Proof.
  unfold substitute_all. induction e as [|[l m] e IH]; simpl; [reflexivity|].
  intros H. rewrite replace_absent.
  - apply IH. intros l' Hl'. apply H. unfold Dict.keys. simpl. right. exact Hl'.
  - apply H. unfold Dict.keys. simpl. left.
Qed.

(** ** Facts about dictionaries *)

Section DictFacts.
Context {K V : Type} `{EqDecision K}.
Implicit Types (d : Dict.t K V) (k : K) (v : V).

Lemma dict_get_absent d k : k ∉ Dict.keys d -> Dict.get k d = None.
Proof.
  induction d as [|[k' v'] d IH]; simpl; [reflexivity|].
  intros Hn. unfold Dict.keys in Hn. simpl in Hn.
  apply not_elem_of_cons in Hn as [Hne Hn].
  destruct (decide (k = k')); [contradiction|]. apply IH, Hn.
Qed.

Lemma dict_set_absent d k v : k ∉ Dict.keys d -> Dict.set k v d = d ++ [(k, v)].
Proof.
  induction d as [|[k' v'] d IH]; simpl; [reflexivity|].
  intros Hn. unfold Dict.keys in Hn. simpl in Hn.
  apply not_elem_of_cons in Hn as [Hne Hn].
  destruct (decide (k = k')); [contradiction|]. f_equal. apply IH, Hn.
Qed.

Lemma dict_set_middle d1 d2 k v v' :
  k ∉ Dict.keys d1 ->
  Dict.set k v' (d1 ++ (k, v) :: d2) = d1 ++ (k, v') :: d2.
Proof.
  induction d1 as [|[k1 v1] d1 IH]; simpl.
  - intros _. destruct (decide (k = k)); [reflexivity|contradiction].
  - intros Hn. unfold Dict.keys in Hn. simpl in Hn.
    apply not_elem_of_cons in Hn as [Hne Hn].
    destruct (decide (k = k1)); [contradiction|]. f_equal. apply IH, Hn.
Qed.

Lemma dict_get_set_eq d k v : Dict.get k (Dict.set k v d) = Some v.
Proof.
  induction d as [|[k' v'] d IH]; simpl.
  - destruct (decide (k = k)); [reflexivity|contradiction].
  - destruct (decide (k = k')) as [->|Hne]; simpl.
    + destruct (decide (k' = k')); [reflexivity|contradiction].
    + destruct (decide (k = k')); [contradiction|]. exact IH.
Qed.

Lemma dict_get_set_ne d k k' v : k <> k' -> Dict.get k' (Dict.set k v d) = Dict.get k' d.
Proof.
  intros Hne. induction d as [|[k1 v1] d IH]; simpl.
  - destruct (decide (k' = k)); [congruence|reflexivity].
  - destruct (decide (k = k1)) as [->|Hne1]; simpl.
    + destruct (decide (k' = k1)); [congruence|reflexivity].
    + destruct (decide (k' = k1)); [reflexivity|]. exact IH.
Qed.

(** Rewriting every value of a dictionary keeps its keys. *)
Lemma dict_keys_map (f : K * V -> V) d :
  Dict.keys (map (fun kv => (fst kv, f kv)) d) = Dict.keys d.
Proof.
  unfold Dict.keys. rewrite map_map. simpl. reflexivity.
Qed.

Lemma dict_get_map (f : V -> V) d k :
  Dict.get k (map (fun kv => (fst kv, f (snd kv))) d) = f <$> Dict.get k d.
Proof.
  induction d as [|[k' v'] d IH]; simpl; [reflexivity|].
  destruct (decide (k = k')); [reflexivity|]. exact IH.
Qed.

(** Merging new values for the keys of a dictionary, in its own order,
    yields the new values. *)
Lemma dict_update_map (f : K * V -> V) d1 d2 :
  NoDup (Dict.keys (d1 ++ d2)) ->
  Dict.update (map (fun kv => (fst kv, f kv)) d2)
              (map (fun kv => (fst kv, f kv)) d1 ++ d2)
  = map (fun kv => (fst kv, f kv)) (d1 ++ d2).
Proof.
  revert d1. induction d2 as [|[k v] d2 IH]; intros d1 Hnd.
  - simpl. rewrite !app_nil_r. reflexivity.
  - unfold Dict.update in *. simpl.
    rewrite dict_set_middle.
    + specialize (IH (d1 ++ [(k, v)])).
      rewrite map_app in IH. simpl in IH. rewrite <- !app_assoc in IH. simpl in IH.
      apply IH. exact Hnd.
    + rewrite dict_keys_map. unfold Dict.keys in *. rewrite map_app in Hnd.
      simpl in Hnd. apply NoDup_app in Hnd as (_ & Hdis & _).
      intros Hin. apply (Hdis k Hin). left.
Qed.

End DictFacts.

(** ** Variable resolution *)

(** The value the environment pass gives to a binding with declared
    value [v]: the canonical prefix when [v] names a known repository,
    otherwise [v] with the concatenation tokens dropped and the declared
    names substituted. *)
Definition resolved_value (e : Dict.t string string) (v : string) : string :=
  match Dict.get v known_repos with
  | Some repo => repo
  | None => substitute_all e (PyStr.replace " + " "" v)
  end.

Lemma resolve_env_updates (e : Dict.t string string) l acc :
  NoDup (Dict.keys (acc ++ l)) ->
  fold_left
    (fun (updates : Dict.t string string) kv =>
       let k := fst kv in
       let v := snd kv in
       let updated_val := substitute_all e (PyStr.replace " + " "" v) in
       let updates := Dict.set k updated_val updates in
       if Dict.mem v known_repos
       then match Dict.get v known_repos with
            | Some repo => Dict.set k repo updates
            | None => updates
            end
       else updates)
    l acc
  = acc ++ map (fun kv => (fst kv, resolved_value e (snd kv))) l.
Proof.
  revert acc. induction l as [|[k v] l IH]; intros acc Hnd; cbn [fold_left map fst snd].
  - rewrite app_nil_r. reflexivity.
  - assert (Hk : k ∉ Dict.keys acc).
    { unfold Dict.keys in *. rewrite map_app in Hnd. simpl in Hnd.
      apply NoDup_app in Hnd as (_ & Hdis & _). intros Hin. apply (Hdis k Hin). left. }
    assert (Hnd' : NoDup (Dict.keys ((acc ++ [(k, resolved_value e v)]) ++ l))).
    { unfold Dict.keys in *. rewrite <- app_assoc, map_app. simpl.
      rewrite map_app in Hnd. exact Hnd. }
    rewrite dict_set_absent by exact Hk.
    unfold Dict.mem.
    destruct (Dict.get v known_repos) as [repo|] eqn:G.
    + assert (Hrv : resolved_value e v = repo)
        by (unfold resolved_value; rewrite G; reflexivity).
      rewrite Hrv in *.
      rewrite (dict_set_middle acc [] k _ repo Hk).
      rewrite IH by exact Hnd'. rewrite <- app_assoc. reflexivity.
    + assert (Hrv : resolved_value e v = substitute_all e (PyStr.replace " + " "" v))
        by (unfold resolved_value; rewrite G; reflexivity).
      rewrite Hrv in *.
      rewrite IH by exact Hnd'. rewrite <- app_assoc. reflexivity.
Qed.

(** On a dictionary (no key twice) the environment pass rewrites every
    value in place. *)
Lemma resolve_env_map (e : Dict.t string string) :
  NoDup (Dict.keys e) ->
  resolve_env e = map (fun kv => (fst kv, resolved_value e (snd kv))) e.
Proof.
  intros Hnd. pose proof (resolve_env_updates e e [] Hnd) as Hu.
  unfold resolve_env. cbv zeta in *. rewrite Hu. simpl.
  apply (dict_update_map (fun kv => resolved_value e (snd kv)) [] e). exact Hnd.
Qed.

Lemma resolve_env_keys (e : Dict.t string string) :
  NoDup (Dict.keys e) -> Dict.keys (resolve_env e) = Dict.keys e.
Proof.
  intros Hnd. rewrite resolve_env_map by exact Hnd.
  apply (dict_keys_map (fun kv => resolved_value e (snd kv))).
Qed.

(** An environment whose second resolution differs from the first: the
    declared value contains the declared name, so every pass substitutes
    again. *)
Lemma resolve_env_not_idempotent :
  resolve_env [("GERRIT", "GERRIT:")] = [("GERRIT", "GERRIT::")]
  /\ resolve_env (resolve_env [("GERRIT", "GERRIT:")]) = [("GERRIT", "GERRIT::::")]
  /\ resolve_env (resolve_env [("GERRIT", "GERRIT:")])
     <> resolve_env [("GERRIT", "GERRIT:")].
Proof. repeat split; try reflexivity. discriminate. Qed.

(** C5 (amended). Re-resolving a resolved environment leaves unchanged
    every binding whose resolved value contains no concatenation token
    and no declared variable name and is not the name of a known
    repository. *)
Theorem resolve_env_stable_binding (e : Dict.t string string) (k v : string) :
  NoDup (Dict.keys e) ->
  Dict.get k (resolve_env e) = Some v ->
  PyStr.occurs " + " v = false ->
  (forall l, l ∈ Dict.keys e -> PyStr.occurs l v = false) ->
  Dict.mem v known_repos = false ->
  Dict.get k (resolve_env (resolve_env e)) = Some v.
Proof.
  intros Hnd Hget Hplus Hnames Hrepo.
  assert (Hnd' : NoDup (Dict.keys (resolve_env e)))
    by (rewrite resolve_env_keys; assumption).
  rewrite (resolve_env_map (resolve_env e)) by exact Hnd'.
  rewrite (dict_get_map (resolved_value (resolve_env e))), Hget. simpl.
  f_equal. unfold resolved_value. unfold Dict.mem in Hrepo.
  destruct (Dict.get v known_repos); [discriminate|].
  rewrite replace_absent by exact Hplus.
  apply substitute_all_absent. rewrite resolve_env_keys by exact Hnd. exact Hnames.
Qed.

Lemma resolve_env_stable_binding_witness :
  Dict.get "VERSION" (resolve_env (resolve_env [("VERSION", "1.2.3"); ("REPO", "GERRIT")]))
  = Some "1.2.3".
Proof.
  apply (resolve_env_stable_binding [("VERSION", "1.2.3"); ("REPO", "GERRIT")]
           "VERSION" "1.2.3").
  - unfold Dict.keys. simpl. apply NoDup_cons.
    split; [intros Hin; apply list_elem_of_singleton in Hin; discriminate|].
    apply NoDup_singleton.
  - reflexivity.
  - reflexivity.
  - intros l Hl. unfold Dict.keys in Hl. simpl in Hl.
    apply elem_of_cons in Hl as [->|Hl]; [reflexivity|].
    apply list_elem_of_singleton in Hl as ->. reflexivity.
  - reflexivity.
Defined.

(** When every resolved binding is such, the second pass is the identity. *)
Corollary resolve_env_idempotent_closed (e : Dict.t string string) :
  NoDup (Dict.keys e) ->
  (forall k v, (k, v) ∈ resolve_env e ->
     PyStr.occurs " + " v = false
     /\ (forall l, l ∈ Dict.keys e -> PyStr.occurs l v = false)
     /\ Dict.mem v known_repos = false) ->
  resolve_env (resolve_env e) = resolve_env e.
Proof.
  intros Hnd Hall.
  assert (Hnd' : NoDup (Dict.keys (resolve_env e)))
    by (rewrite resolve_env_keys; assumption).
  rewrite (resolve_env_map (resolve_env e)) by exact Hnd'.
  assert (Hk : Dict.keys (resolve_env e) = Dict.keys e) by (apply resolve_env_keys, Hnd).
  assert (Hid : forall d : Dict.t string string,
             (forall k v, (k, v) ∈ d -> resolved_value (resolve_env e) v = v) ->
             map (fun kv => (fst kv, resolved_value (resolve_env e) (snd kv))) d = d).
  { induction d as [|[k v] d IH]; intros Hd; simpl; [reflexivity|]. f_equal.
    - f_equal. apply (Hd k). apply elem_of_cons. left. reflexivity.
    - apply IH. intros k' v' Hin. apply (Hd k'). apply elem_of_cons. right. exact Hin. }
  apply Hid. intros k v Hin.
  destruct (Hall k v Hin) as (Hplus & Hnames & Hrepo).
  unfold resolved_value. unfold Dict.mem in Hrepo.
  destruct (Dict.get v known_repos); [discriminate|].
  rewrite replace_absent by exact Hplus.
  apply substitute_all_absent. rewrite Hk. exact Hnames.
Qed.

(** A manifest with a chain of declarations, each declared before its
    use: [_VER] refers to [_MID], which refers to [_BASE]. *)
Definition chained_text : string :=
  PyStr.writelines
    [ line ("_BASE = " +:+ quoted "1.0");
      line "_MID = _BASE";
      line "_VER = _MID";
      line "maven_jar(";
      line ("  name = " +:+ quoted "lib" +:+ ",");
      line ("  artifact = " +:+ quoted "com.x:lib:" +:+ " + _VER,");
      line ("  sha1 = " +:+ quoted "aaa" +:+ ",");
      line ")" ].

(** C4. On the chained manifest [assets_from_bazel_file] returns a record
    whose coordinate is [com.x:lib:_BASE]: the name [_BASE], declared in
    the environment with value [1.0], is left unexpanded in the field,
    and the binding of [_VER] itself still holds the name [_BASE]. *)
Theorem chained_reference_unresolved :
  assets_from_bazel_text "WORKSPACE" chained_text
  = Ok (mkAssetGroup "FILE" "WORKSPACE"
          [mkAsset (Some "lib") (Some "com.x:lib:_BASE") None (Some "aaa") None None]
          (Some [("_BASE", "1.0"); ("_MID", "1.0"); ("_VER", "_BASE")]))
  /\ Dict.get "_BASE" [("_BASE", "1.0"); ("_MID", "1.0"); ("_VER", "_BASE")] = Some "1.0"
  /\ PyStr.occurs "_BASE" "com.x:lib:_BASE" = true.
Proof. vm_compute. repeat split. Qed.

(** The same declarations in the opposite order are resolved: whether a
    chain is followed depends on where the declarations stand. *)
Example chained_reference_reversed :
  resolve_env [("_VER", "_MID"); ("_MID", "_BASE"); ("_BASE", "1.0")]
  = [("_VER", "1.0"); ("_MID", "1.0"); ("_BASE", "1.0")].
Proof. reflexivity. Qed.

(** A chain is followed further by a second pass, which therefore is not
    the identity on the result of the first. *)
Example chained_reference_second_pass :
  resolve_env [("_BASE", "1.0"); ("_MID", "_BASE"); ("_VER", "_MID")]
  = [("_BASE", "1.0"); ("_MID", "1.0"); ("_VER", "_BASE")]
  /\ resolve_env (resolve_env [("_BASE", "1.0"); ("_MID", "_BASE"); ("_VER", "_MID")])
     = [("_BASE", "1.0"); ("_MID", "1.0"); ("_VER", "1.0")].
Proof. split; reflexivity. Qed.

(** ** Parsing a property line *)

(** The text before the first [c] (all of [s] when there is none). *)
Fixpoint before (c : ascii) (s : string) : string :=
  match s with
  | EmptyString => EmptyString
  | String x s' => if Ascii.eqb x c then EmptyString else String x (before c s')
  end.

(** The text after the first [c], when there is one. *)
Fixpoint after (c : ascii) (s : string) : option string :=
  match s with
  | EmptyString => None
  | String x s' => if Ascii.eqb x c then Some s' else after c s'
  end.

(** [s] without its occurrences of [c]. *)
Fixpoint remove_char (c : ascii) (s : string) : string :=
  match s with
  | EmptyString => EmptyString
  | String x s' => if Ascii.eqb x c then remove_char c s' else String x (remove_char c s')
  end.


Lemma split_before_after c s :
  PyStr.split c s
  = before c s :: match after c s with Some r => PyStr.split c r | None => [] end.
Proof.
  induction s as [|x s IH]; simpl; [reflexivity|].
  destruct (Ascii.eqb x c); [reflexivity|]. rewrite IH. reflexivity.
Qed.

Lemma after_has_char c s : Re.has_char c s = true -> exists r, after c s = Some r.
Proof.
  induction s as [|x s IH]; simpl; [discriminate|].
  destruct (Ascii.eqb x c); simpl; eauto.
Qed.


Lemma before_no_sep c s : Re.has_char c (before c s) = false.
Proof.
  induction s as [|x s IH]; simpl; [reflexivity|].
  destruct (Ascii.eqb x c) eqn:E; simpl; [reflexivity|]. rewrite E. exact IH.
Qed.



Lemma replace_remove_char c s :
  PyStr.replace (String c EmptyString) EmptyString s = remove_char c s.
Proof.
  unfold PyStr.replace. induction s as [|x s IH]; [reflexivity|].
  cbn [PyStr.replace_scan remove_char String.prefix String.length Nat.sub].
  destruct (ascii_dec c x) as [->|Hne].
  - rewrite Ascii.eqb_refl. destruct s; simpl in *; exact IH.
  - destruct (Ascii.eqb_spec x c) as [->|_]; [contradiction|]. f_equal. exact IH.
Qed.



Lemma remove_char_keeps_absent c c' s :
  Re.has_char c s = false -> Re.has_char c (remove_char c' s) = false.
Proof.
  induction s as [|x s IH]; simpl; [reflexivity|].
  intros H. apply orb_false_iff in H as [Hx Hs].
  destruct (Ascii.eqb x c'); simpl; [apply IH, Hs|]. rewrite Hx. apply IH, Hs.
Qed.

(** *** Joining texts *)

Lemma append_cons x (a b : string) : String x a +:+ b = String x (a +:+ b).
Proof. reflexivity. Qed.

Lemma append_empty_l (b : string) : EmptyString +:+ b = b.
Proof. reflexivity. Qed.

Lemma append_assoc_str (a b c : string) : (a +:+ b) +:+ c = a +:+ b +:+ c.
Proof.
  induction a as [|x a IH]; [reflexivity|].
  change (String x ((a +:+ b) +:+ c) = String x (a +:+ b +:+ c)). f_equal. exact IH.
Qed.


Lemma append_length (a b : string) :
  String.length (a +:+ b) = String.length a + String.length b.
Proof.
  induction a as [|x a IH]; [reflexivity|].
  change (S (String.length (a +:+ b)) = S (String.length a + String.length b)).
  f_equal. exact IH.
Qed.

Lemma has_char_app c a b :
  Re.has_char c (a +:+ b) = Re.has_char c a || Re.has_char c b.
Proof.
  induction a as [|x a IH]; [reflexivity|].
  change (Ascii.eqb x c || Re.has_char c (a +:+ b)
          = Ascii.eqb x c || Re.has_char c a || Re.has_char c b).
  rewrite IH, orb_assoc. reflexivity.
Qed.

(** *** White space *)

Lemma drop_empty k : PyStr.drop k EmptyString = EmptyString.
Proof. destruct k; reflexivity. Qed.

Lemma drop_length k s : String.length (PyStr.drop k s) = String.length s - k.
Proof.
  revert k. induction s as [|x s IH]; intros [|k]; simpl; auto.
Qed.

Lemma drop_app k p q :
  k <= String.length p -> PyStr.drop k (p +:+ q) = PyStr.drop k p +:+ q.
Proof.
  revert k. induction p as [|x p IH]; intros [|k] Hk; simpl in Hk; try reflexivity;
    try lia.
  rewrite append_cons. cbn [PyStr.drop]. apply IH. lia.
Qed.

Lemma lstrip_scan_drop k s : PyStr.lstrip_scan k s = PyStr.lstrip (PyStr.drop k s).
Proof.
  revert k. induction s as [|x s IH]; intros [|k]; try reflexivity.
  cbn [PyStr.lstrip_scan PyStr.drop]. apply IH.
Qed.

(** A text that does not start with white space. *)
Definition no_leading_blank (s : string) : Prop := PyStr.blank_size s = 0.

Lemma lstrip_fixed s : no_leading_blank s -> PyStr.lstrip s = s.
Proof.
  unfold no_leading_blank, PyStr.lstrip. destruct s as [|x s]; [reflexivity|].
  intros H. cbn [PyStr.lstrip_scan]. rewrite H. reflexivity.
Qed.

Lemma lstrip_blank s k :
  PyStr.blank_size s = S k -> PyStr.lstrip s = PyStr.lstrip (PyStr.drop (S k) s).
Proof.
  unfold PyStr.lstrip at 1. destruct s as [|x s]; [discriminate|].
  intros H. cbn [PyStr.lstrip_scan]. rewrite H. cbn [PyStr.drop].
  apply lstrip_scan_drop.
Qed.

Lemma blank_size_space x u : PyStr.isspace x = true -> PyStr.blank_size (String x u) = 1.
Proof. intros H. cbn [PyStr.blank_size]. rewrite H. reflexivity. Qed.

Lemma lstrip_space x u : PyStr.isspace x = true -> PyStr.lstrip (String x u) = PyStr.lstrip u.
Proof. intros H. rewrite (lstrip_blank _ 0) by (apply blank_size_space, H). reflexivity. Qed.

Lemma blank_size_le s : PyStr.blank_size s <= String.length s.
Proof.
  destruct s as [|c [|d [|e s]]]; cbn [PyStr.blank_size String.length];
    repeat match goal with |- context [if ?b then _ else _] => destruct b end; lia.
Qed.

(** The white space a text starts with does not depend on what follows
    it. *)
Lemma blank_size_app p q :
  PyStr.blank_size p <> 0 -> PyStr.blank_size (p +:+ q) = PyStr.blank_size p.
Proof.
  destruct p as [|c [|d [|e p]]]; rewrite ?append_cons, ?append_empty_l;
    cbn [PyStr.blank_size]; intros H.
  - contradiction.
  - destruct (PyStr.isspace c); [reflexivity|contradiction].
  - destruct (PyStr.isspace c); [reflexivity|].
    destruct q as [|e q]; (destruct (PyStr.blank2 c d); [reflexivity|contradiction]).
  - reflexivity.
Qed.

Lemma lstrip_suffix s : exists pre, s = pre +:+ PyStr.lstrip s.
Proof.
  unfold PyStr.lstrip. generalize 0 as k. induction s as [|x s IH]; intros k.
  - exists EmptyString. reflexivity.
  - cbn [PyStr.lstrip_scan]. destruct k as [|k].
    + destruct (PyStr.blank_size (String x s)) as [|k].
      * exists EmptyString. reflexivity.
      * destruct (IH k) as [pre Hpre]. exists (String x pre).
        rewrite append_cons, <- Hpre. reflexivity.
    + destruct (IH k) as [pre Hpre]. exists (String x pre).
      rewrite append_cons, <- Hpre. reflexivity.
Qed.

Lemma lstrip_scan_no_leading_blank k s : no_leading_blank (PyStr.lstrip_scan k s).
Proof.
  unfold no_leading_blank. revert k.
  induction s as [|x s IH]; intros k; [reflexivity|].
  cbn [PyStr.lstrip_scan]. destruct k as [|k]; [|apply IH].
  destruct (PyStr.blank_size (String x s)) as [|k] eqn:E; [exact E|apply IH].
Qed.

Lemma lstrip_no_leading_blank s : no_leading_blank (PyStr.lstrip s).
Proof. apply lstrip_scan_no_leading_blank. Qed.

(** White space in front of a text is stripped with the white space the
    text starts with. *)
Lemma lstrip_app_blank p q :
  PyStr.all_blank p = true -> PyStr.lstrip (p +:+ q) = PyStr.lstrip q.
Proof.
  remember (String.length p) as n eqn:Hn. revert p Hn.
  induction n as [n IH] using lt_wf_ind. intros p Hn Hall.
  destruct p as [|x p]; [reflexivity|].
  unfold PyStr.all_blank in Hall.
  destruct (PyStr.blank_size (String x p)) as [|k] eqn:Hsize.
  - rewrite (lstrip_fixed _ Hsize) in Hall. discriminate.
  - pose proof (blank_size_le (String x p)) as Hle. rewrite Hsize in Hle.
    rewrite (lstrip_blank _ k Hsize) in Hall.
    rewrite (lstrip_blank (String x p +:+ q) k).
    + rewrite drop_app by exact Hle.
      apply (IH (String.length (PyStr.drop (S k) (String x p)))).
      * rewrite drop_length. subst n. simpl. lia.
      * reflexivity.
      * exact Hall.
    + rewrite blank_size_app; [exact Hsize|]. rewrite Hsize. discriminate.
Qed.

Lemma all_blank_empty : PyStr.all_blank EmptyString = true.
Proof. reflexivity. Qed.

Lemma all_blank_app p q :
  PyStr.all_blank p = true -> PyStr.all_blank (p +:+ q) = PyStr.all_blank q.
Proof. intros H. unfold PyStr.all_blank. rewrite (lstrip_app_blank p q H). reflexivity. Qed.

(** What [rstrip] removes is white space. *)
Lemma rstrip_prefix s :
  exists post, s = PyStr.rstrip s +:+ post /\ PyStr.all_blank post = true.
Proof.
  induction s as [|x s IH]; [exists EmptyString; split; reflexivity|].
  cbn [PyStr.rstrip]. destruct (PyStr.all_blank (String x s)) eqn:E.
  - exists (String x s). split; [reflexivity|exact E].
  - destruct IH as (post & Hpost & Hall). exists post.
    split; [|exact Hall]. rewrite append_cons, <- Hpost. reflexivity.
Qed.

Lemma lstrip_keeps_absent c s :
  Re.has_char c s = false -> Re.has_char c (PyStr.lstrip s) = false.
Proof.
  destruct (lstrip_suffix s) as [pre Hpre]. intros H. rewrite Hpre, has_char_app in H.
  apply orb_false_iff in H as [_ H]. exact H.
Qed.

Lemma rstrip_keeps_absent c s :
  Re.has_char c s = false -> Re.has_char c (PyStr.rstrip s) = false.
Proof.
  destruct (rstrip_prefix s) as (post & Hpost & _). intros H.
  rewrite Hpost, has_char_app in H. apply orb_false_iff in H as [H _]. exact H.
Qed.

Lemma strip_keeps_absent c s :
  Re.has_char c s = false -> Re.has_char c (PyStr.strip s) = false.
Proof. intros H. apply rstrip_keeps_absent, lstrip_keeps_absent, H. Qed.

Lemma rstrip_no_leading_blank s : no_leading_blank s -> no_leading_blank (PyStr.rstrip s).
Proof.
  unfold no_leading_blank. intros Hs.
  destruct (rstrip_prefix s) as (post & Hpost & _).
  destruct (PyStr.blank_size (PyStr.rstrip s)) as [|k] eqn:E; [reflexivity|].
  rewrite Hpost, blank_size_app, E in Hs; [discriminate|]. rewrite E. discriminate.
Qed.

(** [rstrip] stops at the first point from which only white space
    follows: before it, something else follows. *)
Lemma rstrip_not_blank x s :
  PyStr.all_blank (String x s) = false ->
  PyStr.all_blank (String x (PyStr.rstrip s)) = false.
Proof.
  intros E. destruct (rstrip_prefix s) as (post & Hpost & Hall).
  destruct (PyStr.all_blank (String x (PyStr.rstrip s))) eqn:E'; [|reflexivity].
  rewrite Hpost, <- append_cons, (all_blank_app _ _ E'), Hall in E. discriminate.
Qed.

Lemma rstrip_idempotent s : PyStr.rstrip (PyStr.rstrip s) = PyStr.rstrip s.
Proof.
  induction s as [|x s IH]; [reflexivity|].
  cbn [PyStr.rstrip]. destruct (PyStr.all_blank (String x s)) eqn:E; [reflexivity|].
  cbn [PyStr.rstrip]. rewrite (rstrip_not_blank x s E), IH. reflexivity.
Qed.

(** An ASCII character is no byte of a white space character outside the
    ASCII range. *)
Lemma ascii_eqb_high c (d : ascii) :
  PyStr.in_range 0 127 c = true -> (128 <=? nat_of_ascii d)%nat = true ->
  Ascii.eqb c d = false.
Proof.
  intros Hc Hd. apply Ascii.eqb_neq. intros ->.
  unfold PyStr.in_range in Hc. apply andb_true_iff in Hc as [_ Hc].
  apply Nat.leb_le in Hc, Hd. lia.
Qed.

Lemma blank2_ascii_first c d : PyStr.in_range 0 127 c = true -> PyStr.blank2 c d = false.
Proof.
  intros Hc. unfold PyStr.blank2. rewrite (ascii_eqb_high c "194" Hc) by reflexivity.
  reflexivity.
Qed.

Lemma blank2_ascii_second c d : PyStr.in_range 0 127 d = true -> PyStr.blank2 c d = false.
Proof.
  intros Hd. unfold PyStr.blank2.
  rewrite (ascii_eqb_high d "133" Hd), (ascii_eqb_high d "160" Hd) by reflexivity.
  apply andb_false_r.
Qed.

Lemma blank3_ascii_first c d e : PyStr.in_range 0 127 c = true -> PyStr.blank3 c d e = false.
Proof.
  intros Hc. unfold PyStr.blank3.
  rewrite (ascii_eqb_high c "225" Hc), (ascii_eqb_high c "226" Hc),
    (ascii_eqb_high c "227" Hc) by reflexivity.
  reflexivity.
Qed.

Lemma blank3_ascii_second c d e : PyStr.in_range 0 127 d = true -> PyStr.blank3 c d e = false.
Proof.
  intros Hd. unfold PyStr.blank3.
  rewrite (ascii_eqb_high d "154" Hd), (ascii_eqb_high d "128" Hd),
    (ascii_eqb_high d "129" Hd) by reflexivity.
  rewrite !andb_false_r. reflexivity.
Qed.

Lemma blank3_ascii_third c d e : PyStr.in_range 0 127 e = true -> PyStr.blank3 c d e = false.
Proof.
  intros He. unfold PyStr.blank3.
  rewrite (ascii_eqb_high e "128" He), (ascii_eqb_high e "168" He),
    (ascii_eqb_high e "169" He), (ascii_eqb_high e "175" He),
    (ascii_eqb_high e "159" He) by reflexivity.
  assert (Hlow : (128 <=? nat_of_ascii e)%nat = false).
  { unfold PyStr.in_range in He. apply andb_true_iff in He as [_ He].
    apply Nat.leb_le in He. apply Nat.leb_gt. lia. }
  rewrite Hlow, !andb_false_r. reflexivity.
Qed.

(** A text that starts with an ASCII character other than white space
    does not start with white space. *)
Lemma blank_size_ascii c r :
  PyStr.in_range 0 127 c = true -> PyStr.isspace c = false ->
  PyStr.blank_size (String c r) = 0.
Proof.
  intros Hc Hs. cbn [PyStr.blank_size]. rewrite Hs.
  destruct r as [|d [|e r]]; rewrite ?(blank2_ascii_first c _ Hc),
    ?(blank3_ascii_first c _ _ Hc); reflexivity.
Qed.

(** The white space character a text starts with ends before the first
    ASCII character that is no white space. *)
Lemma blank_size_before_ascii z c rest :
  PyStr.in_range 0 127 c = true -> PyStr.isspace c = false ->
  PyStr.blank_size (z +:+ String c rest) <= String.length z.
Proof.
  intros Hc Hs. destruct z as [|a [|b [|e z]]];
    rewrite ?append_cons, ?append_empty_l.
  - rewrite (blank_size_ascii c rest Hc Hs). simpl. lia.
  - cbn [PyStr.blank_size String.length]. destruct (PyStr.isspace a); [lia|].
    rewrite (blank2_ascii_second a c Hc).
    destruct rest as [|e rest]; [lia|]. rewrite (blank3_ascii_second a c e Hc). lia.
  - cbn [PyStr.blank_size String.length]. destruct (PyStr.isspace a); [lia|].
    destruct (PyStr.blank2 a b); [lia|]. rewrite (blank3_ascii_third a b c Hc). lia.
  - cbn [PyStr.blank_size String.length]. destruct (PyStr.isspace a); [lia|].
    destruct (PyStr.blank2 a b); [lia|]. destruct (PyStr.blank3 a b e); lia.
Qed.

(** A text that holds an ASCII character other than white space is not
    white space only. *)
Lemma not_all_blank z c rest :
  PyStr.in_range 0 127 c = true -> PyStr.isspace c = false ->
  PyStr.all_blank (z +:+ String c rest) = false.
Proof.
  intros Hc Hs. remember (String.length z) as n eqn:Hn. revert z Hn.
  induction n as [n IH] using lt_wf_ind. intros z Hn.
  pose proof (blank_size_before_ascii z c rest Hc Hs) as Hle.
  unfold PyStr.all_blank.
  destruct (PyStr.blank_size (z +:+ String c rest)) as [|k] eqn:Hsize.
  - rewrite (lstrip_fixed _ Hsize). destruct z; reflexivity.
  - rewrite (lstrip_blank _ k Hsize), drop_app by exact Hle.
    apply (IH (String.length (PyStr.drop (S k) z))); [|reflexivity].
    rewrite drop_length. subst n. lia.
Qed.

(** [rstrip] keeps a text up to its last ASCII character that is no
    white space. *)
Lemma rstrip_keeps z c :
  PyStr.in_range 0 127 c = true -> PyStr.isspace c = false ->
  forall post, PyStr.all_blank post = true ->
  PyStr.rstrip (z +:+ String c post) = z +:+ String c EmptyString.
Proof.
  intros Hc Hs post Hpost. induction z as [|y z IH].
  - rewrite !append_empty_l. cbn [PyStr.rstrip].
    pose proof (not_all_blank EmptyString c post Hc Hs) as Hnot.
    rewrite append_empty_l in Hnot. rewrite Hnot. f_equal.
    destruct post as [|x post]; [reflexivity|]. cbn [PyStr.rstrip]. rewrite Hpost.
    reflexivity.
  - rewrite !append_cons. cbn [PyStr.rstrip].
    rewrite <- append_cons, (not_all_blank (String y z) c post Hc Hs), IH.
    reflexivity.
Qed.

(** Stripping a stripped string changes nothing. *)
Lemma strip_idempotent s : PyStr.strip (PyStr.strip s) = PyStr.strip s.
Proof.
  unfold PyStr.strip.
  rewrite (lstrip_fixed (PyStr.rstrip (PyStr.lstrip s))).
  - apply rstrip_idempotent.
  - apply rstrip_no_leading_blank, lstrip_no_leading_blank.
Qed.



(** *** What stripping removes *)













Lemma before_keeps_absent c c' s :
  Re.has_char c s = false -> Re.has_char c (before c' s) = false.
Proof.
  induction s as [|x s IH]; simpl; [reflexivity|]. intros H.
  apply orb_false_iff in H as [Hx Hs].
  destruct (Ascii.eqb x c'); simpl; [reflexivity|]. rewrite Hx. apply IH, Hs.
Qed.

(** The value recovered from the text [r] that follows the delimiter. *)
Definition property_value (d : ascii) (r : string) : string :=
  remove_char "," (remove_char "034" (PyStr.strip (before "#" (before d r)))).

(** The key recovered from a line. *)
Definition property_key (d : ascii) (s : string) : string :=
  PyStr.strip (remove_char "#" (before d s)).

(** [parse_property] in terms of the text around the first delimiter. *)
Lemma parse_property_eq s d :
  parse_property s d
  = match after d s with
    | Some r => Ok (property_key d s, property_value d r)
    | None => Raise IndexError
    end.
Proof.
  unfold parse_property, property_key, property_value.
  rewrite (split_before_after d s).
  destruct (after d s) as [r|]; [|reflexivity].
  rewrite (split_before_after d r). cbn [index nth_error mbind result_bind].
  rewrite (split_before_after "#" (before d r)).
  cbn [index nth_error mbind result_bind].
  unfold PyStr.dquote. rewrite !replace_remove_char. reflexivity.
Qed.






(** A digest line and its disabled form give the same pair. *)
Example parse_property_disabled_line :
  parse_property ("sha1 = " +:+ quoted "aaa" +:+ ",") "=" = Ok ("sha1", "aaa")
  /\ parse_property ("#sha1 = " +:+ quoted "aaa" +:+ ", # old digest") "="
     = Ok ("sha1", "aaa").
Proof. split; reflexivity. Qed.

(** ** Asset objects *)

Lemma Asset_copy_eq (a : Asset) : Asset_copy a = a.
Proof. destruct a. reflexivity. Qed.

Lemma heap_get_alloc_old (h : heap) a i :
  i < length h -> heap_get (snd (heap_alloc h a)) i = heap_get h i.
Proof.
  intros Hi. unfold heap_get, heap_alloc. simpl.
  rewrite !nth_lookup, lookup_app_l by exact Hi. reflexivity.
Qed.

Lemma heap_get_alloc_new (h : heap) a :
  heap_get (snd (heap_alloc h a)) (fst (heap_alloc h a)) = a.
Proof.
  unfold heap_get, heap_alloc. simpl.
  apply nth_lookup_Some, list_lookup_middle. reflexivity.
Qed.

Lemma heap_get_setattr_ne (h : heap) r key val i :
  i <> r -> heap_get (heap_setattr h r key val) i = heap_get h i.
Proof.
  intros Hne. unfold heap_get, heap_setattr.
  rewrite !nth_lookup, list_lookup_insert_ne by congruence. reflexivity.
Qed.

Lemma heap_get_setattr_eq (h : heap) r key val :
  r < length h ->
  heap_get (heap_setattr h r key val) r = Asset_setitem key val (heap_get h r).
Proof.
  intros Hr. unfold heap_get at 1. unfold heap_setattr.
  apply nth_lookup_Some, list_lookup_insert_eq, Hr.
Qed.

Lemma heap_setattr_length (h : heap) r key val :
  length (heap_setattr h r key val) = length h.
Proof. apply length_insert. Qed.

Lemma heap_alloc_length (h : heap) a : length (snd (heap_alloc h a)) = S (length h).
Proof. unfold heap_alloc. simpl. rewrite length_app. simpl. lia. Qed.

(** A digest comes out of the output loop only through a line that
    starts with [received]. *)
Lemma received_sha_origin lines acc res :
  received_sha acc lines = Ok res ->
  res = acc \/ exists ln, ln ∈ lines /\ PyStr.startswith ln "received" = true.
Proof.
  revert acc. induction lines as [|ln lines IH]; simpl; intros acc H.
  - left. congruence.
  - destruct (PyStr.startswith ln "received") eqn:E.
    + right. exists ln. split; [apply elem_of_cons; left; reflexivity|exact E].
    + destruct (IH acc H) as [->|(ln' & Hin & Hs)]; [left; reflexivity|].
      right. exists ln'. split; [apply elem_of_cons; right; exact Hin|exact Hs].
Qed.

(** The output loop completes when every [received] line has a blank. *)
Lemma received_sha_returns lines acc :
  (forall ln, ln ∈ lines -> PyStr.startswith ln "received" = true ->
              Re.has_char " " ln = true) ->
  exists res, received_sha acc lines = Ok res.
Proof.
  revert acc. induction lines as [|ln lines IH]; simpl; intros acc H; [eauto|].
  assert (Hrest : forall ln', ln' ∈ lines -> PyStr.startswith ln' "received" = true ->
                              Re.has_char " " ln' = true).
  { intros ln' Hin. apply H. apply elem_of_cons. right. exact Hin. }
  destruct (PyStr.startswith ln "received") eqn:E; [|apply IH, Hrest].
  destruct (after_has_char " " ln) as [r Hr].
  { apply H; [apply elem_of_cons; left; reflexivity|exact E]. }
  rewrite (split_before_after " " ln), Hr, (split_before_after " " r).
  cbn [index nth_error mbind result_bind]. apply IH, Hrest.
Qed.

(** An output the loop over the lines completes on: text in which every
    line starting with [received] has a second field. *)
Definition readable (output : captured) : Prop :=
  exists s, output = Text s
            /\ forall ln, ln ∈ PyStr.split "010" s ->
                          PyStr.startswith ln "received" = true ->
                          Re.has_char " " ln = true.

Section AssetFromRepo.
Variables (tempdir pid : string) (download_file : list string -> option captured).

(** C10. [asset_from_repo] leaves every object of the store as it was,
    the input asset included, also when it raises. The reference it
    returns names a new object whose members equal those of the input
    except possibly [sha1]; [sha1] differs only when the failed command
    printed a line starting with [received], and without such a line the
    new object equals the input member for member. The call returns when
    the coordinate has three parts and the output of a failed command is
    readable. *)
Theorem asset_from_repo_frame (h : heap) (asset : nat) (repo_name : option string)
    (r : result nat) (h' : heap) :
  asset < length h ->
  asset_from_repo tempdir pid download_file h asset repo_name = (r, h') ->
  (forall i, i < length h -> heap_get h' i = heap_get h i)
  /\ (forall new, r = Ok new ->
        new = length h /\ new <> asset /\ length h' = S (length h)
        /\ name (heap_get h' new) = name (heap_get h asset)
        /\ artifact (heap_get h' new) = artifact (heap_get h asset)
        /\ repository (heap_get h' new) = repository (heap_get h asset)
        /\ src_sha1 (heap_get h' new) = src_sha1 (heap_get h asset)
        /\ old_version (heap_get h' new) = old_version (heap_get h asset)
        /\ (sha1 (heap_get h' new) <> sha1 (heap_get h asset) ->
            exists cmd output ln,
              download_file cmd = Some (Text output)
              /\ ln ∈ PyStr.split "010" output
              /\ PyStr.startswith ln "received" = true)
        /\ ((forall cmd output ln,
               download_file cmd = Some (Text output) ->
               ln ∈ PyStr.split "010" output ->
               PyStr.startswith ln "received" = false) ->
            heap_get h' new = heap_get h asset))
  /\ (forall art vendor nm version,
        artifact (heap_get h asset) = Some art ->
        PyStr.split ":" art = [vendor; nm; version] ->
        (forall cmd output, download_file cmd = Some output -> readable output) ->
        exists new, r = Ok new).
Proof.
  intros Hlive Hcall. unfold asset_from_repo in Hcall.
  destruct (artifact (heap_get h asset)) as [art|] eqn:Hart.
  2:{ inversion Hcall; subst. split; [reflexivity|]. split; discriminate. }
  destruct (PyStr.split ":" art) as [|vendor [|nm [|version [|x rest]]]] eqn:Hsplit;
    try (inversion Hcall; subst; split; [reflexivity|]; split; [discriminate|];
         intros art' ? ? ? Heq Hs _; inversion Heq; subst; congruence).
  unfold heap_copy in Hcall. rewrite Asset_copy_eq in Hcall.
  set (a := heap_get h asset) in *.
  assert (Hold : forall i, i < length h -> heap_get (snd (heap_alloc h a)) i = heap_get h i)
    by (intros i Hi; apply heap_get_alloc_old, Hi).
  assert (Hnew : heap_get (snd (heap_alloc h a)) (length h) = a)
    by (apply (heap_get_alloc_new h a)).
  assert (Hlen : length (snd (heap_alloc h a)) = S (length h))
    by (apply heap_alloc_length).
  simpl in Hcall, Hold, Hnew, Hlen.
  match type of Hcall with context [download_file ?c] => set (cmd := c) in * end.
  destruct (download_file cmd) as [[output|output]|] eqn:Hdl;
    cbn [output_lines mbind result_bind] in Hcall.
  - destruct (received_sha None (PyStr.split "010" output)) as [new_sha|e] eqn:Hrec.
    + destruct (PyStr.truthy new_sha) eqn:Htruthy; inversion Hcall; subst; clear Hcall.
      * assert (Hset : heap_get (heap_setattr (h ++ [a]) (length h) "sha1" new_sha)
                         (length h) = Asset_setitem "sha1" new_sha a).
        { rewrite heap_get_setattr_eq by lia. rewrite Hnew. reflexivity. }
        split; [|split].
        -- intros i Hi. rewrite heap_get_setattr_ne by lia. apply Hold, Hi.
        -- intros new Hok. inversion Hok; subst new. rewrite Hset.
           rewrite heap_setattr_length, Hlen.
           change (Asset_setitem "sha1" new_sha a)
             with (mkAsset (name a) (artifact a) (repository a) new_sha
                           (src_sha1 a) (old_version a)).
           cbn [name artifact repository sha1 src_sha1 old_version].
           do 8 (split; [first [reflexivity | lia | exact Hart]|]). split.
           ++ intros _. destruct (received_sha_origin _ _ _ Hrec) as [->|(ln & Hin & Hs)];
                [discriminate|]. exists cmd, output, ln. auto.
           ++ intros Hnone.
              destruct (received_sha_origin _ _ _ Hrec) as [->|(ln & Hin & Hs)];
                [discriminate|]. rewrite (Hnone cmd output ln Hdl Hin) in Hs. discriminate.
        -- eauto.
      * split; [|split].
        -- exact Hold.
        -- intros new Hok. inversion Hok; subst new. rewrite Hnew, Hlen.
           do 8 (split; [first [reflexivity | lia | exact Hart]|]).
           split; [congruence|reflexivity].
        -- eauto.
    + inversion Hcall; subst; clear Hcall. split; [exact Hold|]. split; [discriminate|].
      intros art' vendor' nm' version' Hart' _ Hwf.
      destruct (Hwf cmd (Text output) Hdl) as (output' & Heq & Hlines).
      inversion Heq; subst output'.
      destruct (received_sha_returns (PyStr.split "010" output) None) as [res Hres].
      { exact Hlines. }
      congruence.
  - inversion Hcall; subst; clear Hcall. split; [exact Hold|]. split; [discriminate|].
    intros art' vendor' nm' version' Hart' _ Hwf.
    destruct (Hwf cmd (Bytes output) Hdl) as (output' & Heq & _). discriminate.
  - inversion Hcall; subst; clear Hcall. split; [|split].
    + exact Hold.
    + intros new Hok. inversion Hok; subst new. rewrite Hnew, Hlen.
      do 8 (split; [first [reflexivity | lia | exact Hart]|]).
      split; [congruence|reflexivity].
    + eauto.
Qed.

End AssetFromRepo.

Lemma heap_setattr_last (h : heap) a key val :
  heap_setattr (h ++ [a]) (length h) key val = h ++ [Asset_setitem key val a].
Proof.
  unfold heap_setattr.
  assert (Hget : heap_get (h ++ [a]) (length h) = a)
    by (apply (heap_get_alloc_new h a)).
  rewrite Hget, insert_app_r_alt by lia. rewrite Nat.sub_diag. reflexivity.
Qed.


(** A lookup that fails and reports the digest found in the repository. *)
Definition reporting_download (cmd : list string) : option captured :=
  Some (Text (line "expected xxxxxxxxxxx" +:+ line "received abcdef")).

(** The same lookup with the output as the call captures it. *)
Definition failing_download (cmd : list string) : option captured :=
  Some (Bytes (line "expected xxxxxxxxxxx" +:+ line "received abcdef")).

Definition scenario_asset : Asset :=
  mkAsset (Some "lib") (Some "com.x:lib:1.0") (Some "WANDISCO:") (Some "aaa") None None.

Lemma asset_from_repo_frame_witness :
  heap_get [scenario_asset;
            mkAsset (Some "lib") (Some "com.x:lib:1.0") (Some "WANDISCO:")
                    (Some "abcdef") None None] 0
  = heap_get [scenario_asset] 0.
Proof.
  refine (proj1 (asset_from_repo_frame "/tmp" "42" reporting_download
                   [scenario_asset] 0 (Some "WANDISCO:") (Ok 1) _ _ _) 0 _).
  - simpl. lia.
  - reflexivity.
  - simpl. lia.
Defined.

(** On captured bytes the split of the output raises: the copy has been
    made, its digest is not replaced, and the input is as it was. Other
    calls of [check_output] in the script decode the bytes first. *)
Example asset_from_repo_bytes :
  asset_from_repo "/tmp" "42" failing_download [scenario_asset] 0 (Some "WANDISCO:")
  = (Raise TypeError, [scenario_asset; scenario_asset]).
Proof. reflexivity. Qed.

(** ** Reconciling versions *)

Lemma split_no_sep c s : Re.has_char c s = false -> PyStr.split c s = [s].
Proof.
  induction s as [|x s IH]; simpl; [reflexivity|].
  intros H. apply orb_false_iff in H as [Hx Hs]. rewrite Hx, (IH Hs). reflexivity.
Qed.

Lemma split_cons_no_sep c p s :
  Re.has_char c p = false -> PyStr.split c (p +:+ String c s) = p :: PyStr.split c s.
Proof.
  induction p as [|x p IH]; simpl.
  - intros _. rewrite Ascii.eqb_refl. reflexivity.
  - intros H. apply orb_false_iff in H as [Hx Hp]. rewrite Hx, (IH Hp). reflexivity.
Qed.

(** No part of a split contains the separator. *)
Lemma split_parts_no_sep c s p : p ∈ PyStr.split c s -> Re.has_char c p = false.
Proof.
  revert p. induction s as [|x s IH]; simpl; intros p Hin.
  - apply list_elem_of_singleton in Hin as ->. reflexivity.
  - destruct (Ascii.eqb x c) eqn:E.
    + apply elem_of_cons in Hin as [->|Hin]; [reflexivity|apply IH, Hin].
    + destruct (PyStr.split c s) as [|h t].
      * apply list_elem_of_singleton in Hin as ->. simpl. rewrite E. reflexivity.
      * apply elem_of_cons in Hin as [->|Hin].
        -- simpl. rewrite E. apply IH. apply elem_of_cons. left. reflexivity.
        -- apply IH. apply elem_of_cons. right. exact Hin.
Qed.






Section ProcessAssets.
Variables (tempdir pid : string) (download_file : list string -> option captured).

(** The key of an asset in the authoritative table. *)
Definition property_key_of (group_id artifact_id : string) : string :=
  (if String.eqb artifact_id jgit_artifact_id then artifact_id
   else group_id +:+ "." +:+ artifact_id) +:+ ".version".


End ProcessAssets.



(** An asset whose version differs from the table's is selected for
    update with the digest the repository reports. *)
Example process_assets_update :
  process_assets "/tmp" "42" reporting_download [("com.x.lib.version", "2.0")]
    [mkAssetGroup "FILE" "WORKSPACE" [scenario_asset] None]
  = Ok (mkProcess
          [mkAsset (Some "lib") (Some "com.x:lib:2.0") (Some "WANDISCO:")
                   (Some "aaa") None (Some "1.0");
           mkAsset (Some "lib") (Some "com.x:lib:2.0") (Some "WANDISCO:")
                   (Some "abcdef") None (Some "1.0")]
          [(Some "lib", 1)] []).
Proof. reflexivity. Qed.

(** With the output as the call captures it, the lookup for an asset
    whose version differs raises as well. *)
Example process_assets_bytes :
  process_assets "/tmp" "42" failing_download [("com.x.lib.version", "2.0")]
    [mkAssetGroup "FILE" "WORKSPACE" [scenario_asset] None]
  = Raise TypeError.
Proof. reflexivity. Qed.

(** ** Updating a bazel file *)

Lemma nth_error_lookup {A : Type} (l : list A) i : nth_error l i = l !! i.
Proof. revert i. induction l as [|x l IH]; intros [|i]; simpl; auto. Qed.

Lemma index_lookup {A : Type} (l : list A) i x : l !! i = Some x -> index l i = Ok x.
Proof. intros H. unfold index. rewrite nth_error_lookup, H. reflexivity. Qed.

(** Case analysis on the tests and bindings of a computation that is
    known to return. *)
Ltac run_cases H :=
  repeat (cbn [mbind result_bind] in H;
          match type of H with
          | context [@mbind result _ _ _ _ ?r] => destruct r eqn:?
          | context [match ?x with _ => _ end] => destruct x eqn:?
          | context [if ?b then _ else _] => destruct b eqn:?
          end);
  cbn [mbind result_bind] in H; try discriminate.

(** No variable is recorded as declared on line [c]. *)
Definition not_declared_at (c : nat) (st : update_state) : Prop :=
  forall k, Dict.get k (upd_env_line st) <> Some c.

Lemma update_variable_frame st new_asset v st' c :
  update_variable st new_asset v = Ok st' ->
  upd_env_line st' = upd_env_line st
  /\ upd_current st' = upd_current st
  /\ length (upd_data st') = length (upd_data st)
  /\ (not_declared_at c st -> upd_data st' !! c = upd_data st !! c).
Proof.
  unfold update_variable, Dict.item. intros H. run_cases H;
    inversion H; subst; clear H; simpl;
    repeat split; auto using length_insert.
  intros Hnd. apply list_lookup_insert_ne. intros ->.
  match goal with
  | G : match Dict.get ?k (upd_env_line st) with _ => _ end = Ok c |- _ =>
      destruct (Dict.get k (upd_env_line st)) eqn:Hget; [|discriminate];
      inversion G; subst; exact (Hnd _ Hget)
  end.
Qed.

(** A step of the loop keeps the number of lines, and leaves alone every
    line other than its own on which no variable is declared. *)
Lemma update_line_frame oa to_update st count st' :
  update_line oa to_update st count = Ok st' ->
  length (upd_data st') = length (upd_data st)
  /\ (forall c, c <> count -> not_declared_at c st ->
                not_declared_at c st' /\ upd_data st' !! c = upd_data st !! c).
Proof.
  unfold update_line. intros H.
  destruct (index (upd_data st) count) as [original_line|] eqn:Hidx;
    cbn [mbind result_bind] in H; [|discriminate].
  destruct (Re.match_maven_jar _); [inversion H; subst; simpl; auto|].
  destruct (_ && _); [inversion H; subst; simpl; auto|].
  destruct (Re.match_assign _); [|inversion H; subst; simpl; auto].
  destruct (parse_property _ _) as [[k v]|]; cbn [mbind result_bind] in H; [|discriminate].
  destruct (upd_current st) as [cur|].
  - cbn [upd_env upd_env_line updated_assets upd_current upd_data] in H.
    destruct (Dict.get _ to_update) as [new_asset|].
    + destruct (_ && _).
      * destruct (update_variable _ _ _) as [st1|] eqn:Huv;
          cbn [mbind result_bind] in H; [|discriminate].
        inversion H; subst; clear H; simpl.
        split.
        -- rewrite length_insert.
           destruct (update_variable_frame _ _ _ _ 0 Huv) as (_ & _ & Hlen & _). exact Hlen.
        -- intros c Hc Hnd.
           destruct (update_variable_frame _ _ _ _ c Huv) as (Hel & _ & _ & Hdata).
           split.
           ++ unfold not_declared_at in *. simpl. rewrite Hel. exact Hnd.
           ++ rewrite list_lookup_insert_ne by congruence. apply Hdata. exact Hnd.
      * destruct (update_field _ _ _ _ _ _) as [[new_line updated]|];
          cbn [mbind result_bind] in H; [|discriminate].
        inversion H; subst; clear H; simpl. split; [apply length_insert|].
        intros c Hc Hnd. split; [exact Hnd|].
        apply list_lookup_insert_ne. congruence.
    + inversion H; subst; clear H; simpl. split; [apply length_insert|].
      intros c Hc Hnd. split; [exact Hnd|].
      apply list_lookup_insert_ne. congruence.
  - inversion H; subst; clear H; simpl. split; [reflexivity|].
    intros c Hc Hnd. split; [|reflexivity].
    unfold not_declared_at in *. simpl. intros k'.
    destruct (decide (k = k')) as [->|Hk].
    + rewrite dict_get_set_eq. congruence.
    + rewrite dict_get_set_ne by exact Hk. apply Hnd.
Qed.

Lemma update_lines_frame oa to_update counts st st' c :
  update_lines oa to_update st counts = Ok st' ->
  length (upd_data st') = length (upd_data st)
  /\ (c ∉ counts -> not_declared_at c st ->
      not_declared_at c st' /\ upd_data st' !! c = upd_data st !! c).
Proof.
  revert st. induction counts as [|count counts IH]; simpl; intros st H.
  - inversion H; subst. auto.
  - destruct (update_line oa to_update st count) as [st1|] eqn:Hstep;
      cbn [mbind result_bind] in H; [|discriminate].
    destruct (update_line_frame _ _ _ _ _ Hstep) as [Hlen1 Hother].
    destruct (IH st1 H) as [Hlen Hrest]. split; [congruence|].
    intros Hnotin Hnd. apply not_elem_of_cons in Hnotin as [Hne Hnotin].
    destruct (Hother c Hne Hnd) as [Hnd1 Hdata1].
    destruct (Hrest Hnotin Hnd1) as [Hnd' Hdata']. split; [exact Hnd'|congruence].
Qed.

Lemma update_lines_app oa to_update l1 l2 st :
  update_lines oa to_update st (l1 ++ l2)
  = st1 ← update_lines oa to_update st l1; update_lines oa to_update st1 l2.
Proof.
  revert st. induction l1 as [|count l1 IH]; simpl; intros st; [reflexivity|].
  destruct (update_line oa to_update st count); cbn [mbind result_bind]; [apply IH|reflexivity].
Qed.

(** A line read as the field [sha1] neither opens nor closes a record. *)
Lemma sha1_line_not_marker ln v :
  parse_property ln "=" = Ok ("sha1", v) ->
  Re.match_maven_jar ln = false /\ Re.match_close ln = false.
Proof.
  intros Hparse. split.
  - unfold Re.match_maven_jar, PyStr.startswith.
    destruct (String.prefix "maven_jar(" ln) eqn:Hp; [|reflexivity]. exfalso.
    destruct ln as [|c ln']; [discriminate|]. cbn [String.prefix] in Hp.
    destruct (ascii_dec "m" c) as [<-|]; [|discriminate].
    rewrite parse_property_eq in Hparse.
    destruct (after "=" (String "m" ln')); [|discriminate].
    unfold property_key, PyStr.strip in Hparse.
    cbn [before remove_char Ascii.eqb Bool.eqb] in Hparse.
    set (u := remove_char "#" (before "=" ln')) in Hparse.
    assert (Hm : no_leading_blank (String "m" u))
      by (destruct u as [|d [|e u']]; reflexivity).
    rewrite (lstrip_fixed _ Hm) in Hparse. cbn [PyStr.rstrip] in Hparse.
    unfold PyStr.all_blank in Hparse. rewrite (lstrip_fixed _ Hm) in Hparse.
    discriminate.
  - unfold Re.match_close.
    destruct (String.eqb_spec ln ")") as [->|_]; [discriminate|].
    destruct (String.eqb_spec ln (String ")" (String "010" EmptyString))) as [->|_];
      [discriminate|reflexivity].
Qed.

(** The digest line written for a snapshot build. *)
Definition disabled_sha1_line (nv : string) : string :=
  "    #sha1 = " +:+ PyStr.dquote +:+ nv +:+ PyStr.dquote +:+ "," +:+ PyStr.newline.

(** The step of the loop on the digest line of a record selected for
    update, when the new coordinate is a snapshot. *)
Lemma update_line_snapshot oa to_update st count original_line cur v new_asset nv art :
  upd_data st !! count = Some original_line ->
  Re.match_assign (PyStr.strip original_line) = true ->
  parse_property (PyStr.strip original_line) "=" = Ok ("sha1", v) ->
  upd_current st = Some cur ->
  Dict.get (name cur) to_update = Some new_asset ->
  sha1 new_asset = Some nv -> v <> nv ->
  artifact new_asset = Some art -> PyStr.occurs "SNAPSHOT" art = true ->
  update_line oa to_update st count
  = Ok (mkUpdate (upd_env st) (upd_env_line st) (updated_assets st)
          (Some (Asset_setitem "sha1" (Some v) cur))
          (<[count := disabled_sha1_line nv]> (upd_data st))).
Proof.
  intros Hline Hassign Hparse Hcur Hsel Hsha Hne Hart Hsnap.
  destruct (sha1_line_not_marker _ _ Hparse) as [Hopen Hclose].
  unfold update_line. rewrite (index_lookup _ _ _ Hline).
  cbn [mbind result_bind]. rewrite Hopen, Hclose, andb_false_r, Hassign, Hparse.
  cbn [mbind result_bind]. rewrite Hcur.
  cbn [upd_env upd_env_line updated_assets upd_current upd_data].
  change (name (Asset_setitem "sha1" (Some v) cur)) with (name cur). rewrite Hsel.
  change (String.eqb "sha1" "artifact") with false. cbn [andb].
  unfold update_field. change (Asset_member "sha1" new_asset) with (Some (sha1 new_asset)).
  rewrite Hsha.
  assert (Hneq : opt_eqb (Some v) (Some nv) = false) by (apply opt_eqb_false; congruence).
  rewrite Hneq. change (String.eqb "sha1" "sha1") with true.
  rewrite Hart. unfold contains. rewrite Hsnap. cbn [mbind result_bind].
  reflexivity.
Qed.

(** C8 (amended). When the loop of [update_bazel_file] reaches a line
    read as the field [sha1] inside a record whose name, as read so far,
    selects it for update, the value of the field differs from the digest
    of the new record, and the coordinate of the new record contains
    [SNAPSHOT], the step writes the digest line in its disabled form with
    the new value, and that line is what the rewritten file holds at this
    position. *)
Theorem update_bazel_file_snapshot_digest (oa : attributes) (fs : FS)
    (filename content : string) (to_update : Dict.t (option string) Asset) (count : nat) (st : update_state)
    (original_line v nv art : string) (cur new_asset : Asset) :
  read_file fs filename = Ok content ->
  update_lines oa to_update (mkUpdate [] [] [] None (PyStr.readlines content))
    (seq 0 count) = Ok st ->
  upd_data st !! count = Some original_line ->
  Re.match_assign (PyStr.strip original_line) = true ->
  parse_property (PyStr.strip original_line) "=" = Ok ("sha1", v) ->
  upd_current st = Some cur ->
  Dict.get (name cur) to_update = Some new_asset ->
  sha1 new_asset = Some nv -> v <> nv ->
  artifact new_asset = Some art -> PyStr.occurs "SNAPSHOT" art = true ->
  (exists st',
      update_line oa to_update st count = Ok st'
      /\ upd_data st' !! count = Some (disabled_sha1_line nv))
  /\ (forall fs' updated,
        update_bazel_file oa fs filename to_update = Ok (fs', updated) ->
        exists data',
          fs' !! filename = Some (PyStr.writelines data')
          /\ length data' = length (PyStr.readlines content)
          /\ data' !! count = Some (disabled_sha1_line nv)).
Proof.
  intros Hfile Hprefix Hline Hassign Hparse Hcur Hsel Hsha Hne Hart Hsnap.
  pose proof (update_line_snapshot oa to_update st count original_line cur v new_asset
                nv art Hline Hassign Hparse Hcur Hsel Hsha Hne Hart Hsnap) as Hstep.
  set (data := PyStr.readlines content) in *.
  destruct (update_lines_frame oa to_update (seq 0 count) _ st count Hprefix)
    as [Hlen Hbefore].
  simpl in Hlen.
  assert (Hcount : count < length data).
  { rewrite <- Hlen. apply lookup_lt_Some in Hline. exact Hline. }
  assert (Hnd : not_declared_at count st).
  { apply Hbefore.
    - rewrite list_elem_of_In, in_seq. lia.
    - intros k. simpl. discriminate. }
  split.
  - eexists. split; [exact Hstep|]. simpl.
    apply list_lookup_insert_eq. rewrite Hlen. exact Hcount.
  - intros fs' updated Hrun. unfold update_bazel_file in Hrun.
    rewrite Hfile in Hrun. cbn [mbind result_bind] in Hrun. fold data in Hrun.
    assert (Hseq : seq 0 (length data)
                   = seq 0 count ++ count :: seq (S count) (length data - S count)).
    { replace (length data) with (count + S (length data - S count)) at 1 by lia.
      rewrite seq_app. reflexivity. }
    rewrite Hseq, update_lines_app, Hprefix in Hrun.
    cbn [mbind result_bind update_lines] in Hrun. rewrite Hstep in Hrun.
    cbn [mbind result_bind] in Hrun.
    match type of Hrun with
    | context [update_lines oa to_update ?s ?l] =>
        destruct (update_lines oa to_update s l) as [final|] eqn:Hrest
    end; cbn [mbind result_bind] in Hrun; [|discriminate].
    inversion Hrun; subst; clear Hrun.
    destruct (update_lines_frame oa to_update _ _ final count Hrest) as [Hlen' Hafter].
    simpl in Hlen', Hafter. rewrite length_insert in Hlen'.
    destruct Hafter as [_ Hdata].
    + rewrite list_elem_of_In, in_seq. lia.
    + exact Hnd.
    + exists (upd_data final). split; [apply lookup_insert_eq|].
      split; [congruence|]. rewrite Hdata.
      apply list_lookup_insert_eq. rewrite Hlen. exact Hcount.
Qed.

(** No example names a field after an attribute of the object other
    than its members, so any table serves them; this one holds the two
    attributes whose text is the same in every run: the class has no
    documentation string, and the script runs as the main module. *)
Definition scenario_attributes : attributes :=
  fun _ _ k =>
    if String.eqb k "__doc__" then Some (ObjectAttribute "None")
    else if String.eqb k "__module__" then Some (StrAttribute "__main__")
    else None.

(** Scenario 3 of the specification: the new record is a snapshot build. *)
Definition scenario3_text : string :=
  PyStr.writelines
    [ line "maven_jar(";
      line ("  name = " +:+ quoted "lib" +:+ ",");
      line ("  artifact = " +:+ quoted "com.x:lib:1.0" +:+ ",");
      line ("  sha1 = " +:+ quoted "aaa" +:+ ",");
      line ")" ].

Definition scenario3_update : Dict.t (option string) Asset :=
  [(Some "lib",
    mkAsset (Some "lib") (Some "com.x:lib:2.0-SNAPSHOT") None (Some "bbb") None
            (Some "1.0"))].

Definition scenario3_rewritten : string :=
  PyStr.writelines
    [ line "maven_jar(";
      line ("  name = " +:+ quoted "lib" +:+ ",");
      line ("        artifact = " +:+ quoted "com.x:lib:2.0-SNAPSHOT" +:+ ",");
      line ("    #sha1 = " +:+ quoted "bbb" +:+ ",");
      line ")" ].

(** On scenario 3 the coordinate line is rewritten and the digest line is
    written in its disabled form. *)
Example scenario3_rewrite :
  update_bazel_file scenario_attributes {["WORKSPACE" := scenario3_text]} "WORKSPACE"
    scenario3_update
  = Ok (<["WORKSPACE" := scenario3_rewritten]> {["WORKSPACE" := scenario3_text]},
        scenario3_update).
Proof.
  unfold update_bazel_file.
  rewrite (read_file_plain _ _ scenario3_text)
    by first [apply lookup_singleton_eq | vm_compute; reflexivity].
  cbn [mbind result_bind].
  match goal with
  | |- context [update_lines ?o ?u ?s ?l] =>
      let r := eval vm_compute in (update_lines o u s l) in
      change (update_lines o u s l) with r
  end.
  cbn [mbind result_bind]. reflexivity.
Qed.

Lemma update_bazel_file_snapshot_digest_witness :
  exists data',
    (<["WORKSPACE" := scenario3_rewritten]> {["WORKSPACE" := scenario3_text]} : FS)
      !! "WORKSPACE" = Some (PyStr.writelines data')
    /\ length data' = length (PyStr.readlines scenario3_text)
    /\ data' !! 3 = Some (disabled_sha1_line "bbb").
Proof.
  cut (forall fs' updated,
          update_bazel_file scenario_attributes {["WORKSPACE" := scenario3_text]} "WORKSPACE"
            scenario3_update = Ok (fs', updated) ->
          exists data',
            fs' !! "WORKSPACE" = Some (PyStr.writelines data')
            /\ length data' = length (PyStr.readlines scenario3_text)
            /\ data' !! 3 = Some (disabled_sha1_line "bbb")).
  { intros Hfile. exact (Hfile _ _ scenario3_rewrite). }
  eapply proj2.
  eapply (update_bazel_file_snapshot_digest scenario_attributes
            {["WORKSPACE" := scenario3_text]} "WORKSPACE" scenario3_text scenario3_update 3 _ _ "aaa" "bbb"
            "com.x:lib:2.0-SNAPSHOT").
  - apply read_file_plain; [apply lookup_singleton_eq|reflexivity|reflexivity].
  - vm_compute. reflexivity.
  - reflexivity.
  - reflexivity.
  - reflexivity.
  - reflexivity.
  - reflexivity.
  - reflexivity.
  - discriminate.
  - reflexivity.
  - reflexivity.
Defined.

(** A record whose digest field stands before its name field. *)
Definition digest_first_text : string :=
  PyStr.writelines
    [ line "maven_jar(";
      line ("  sha1 = " +:+ quoted "aaa" +:+ ",");
      line ("  name = " +:+ quoted "lib" +:+ ",");
      line ("  artifact = " +:+ quoted "com.x:lib:1.0" +:+ ",");
      line ")" ].

Definition digest_first_rewritten : string :=
  PyStr.writelines
    [ line "maven_jar(";
      line ("  sha1 = " +:+ quoted "aaa" +:+ ",");
      line ("  name = " +:+ quoted "lib" +:+ ",");
      line ("        artifact = " +:+ quoted "com.x:lib:2.0-SNAPSHOT" +:+ ",");
      line ")" ].

(** The record [lib] is selected for update, its digest changes and the
    new coordinate is a snapshot, but when the digest line is reached the
    name has not been read yet: the test on the name fails and the digest
    line is copied as it is, active and with the old value. *)
Lemma digest_before_name_unchanged :
  assets_from_bazel_text "WORKSPACE" digest_first_text
  = Ok (mkAssetGroup "FILE" "WORKSPACE"
          [mkAsset (Some "lib") (Some "com.x:lib:1.0") None (Some "aaa") None None]
          (Some []))
  /\ Dict.get (Some "lib") scenario3_update
     = Some (mkAsset (Some "lib") (Some "com.x:lib:2.0-SNAPSHOT") None (Some "bbb")
                     None (Some "1.0"))
  /\ update_bazel_file scenario_attributes {["WORKSPACE" := digest_first_text]} "WORKSPACE"
       scenario3_update
     = Ok (<["WORKSPACE" := digest_first_rewritten]> {["WORKSPACE" := digest_first_text]},
           scenario3_update)
  /\ PyStr.readlines digest_first_rewritten !! 1
     = Some (line ("  sha1 = " +:+ quoted "aaa" +:+ ","))
  /\ PyStr.readlines digest_first_rewritten !! 1 <> Some (disabled_sha1_line "bbb").
Proof.
  split; [vm_compute; reflexivity|]. split; [reflexivity|]. split.
  - unfold update_bazel_file.
    rewrite (read_file_plain _ _ digest_first_text)
      by first [apply lookup_singleton_eq | vm_compute; reflexivity].
    cbn [mbind result_bind].
    match goal with
    | |- context [update_lines ?o ?u ?s ?l] =>
        let r := eval vm_compute in (update_lines o u s l) in
        change (update_lines o u s l) with r
    end.
    cbn [mbind result_bind]. reflexivity.
  - split; [vm_compute; reflexivity|]. vm_compute. discriminate.
Qed.

(** * Further properties of the procedures above *)

(** ** Scanning never raises *)

Lemma skip_non_eq_has_eq s x r :
  Re.skip_non_eq s = String x r -> Re.has_char "=" s = true.
Proof.
  induction s as [|c s IH]; simpl; [discriminate|].
  destruct (Ascii.eqb c "="); simpl; [reflexivity|exact IH].
Qed.

(** A line of the assignment shape contains the delimiter. *)
Lemma match_assign_has_eq ln : Re.match_assign ln = true -> Re.has_char "=" ln = true.
Proof.
  unfold Re.match_assign. destruct ln as [|c ln]; [discriminate|].
  destruct (Ascii.eqb c "=") eqn:E; [discriminate|].
  destruct (Re.skip_non_eq (String c ln)) as [|x r] eqn:Hs; [discriminate|].
  intros _. apply (skip_non_eq_has_eq _ _ _ Hs).
Qed.

(** So [parse_property] returns on every line the scanners pass to it. *)
Lemma parse_property_assign ln :
  Re.match_assign ln = true -> exists k v, parse_property ln "=" = Ok (k, v).
Proof.
  intros H. destruct (after_has_char "=" ln (match_assign_has_eq ln H)) as [r Hr].
  rewrite parse_property_eq, Hr. eauto.
Qed.

Lemma scan_line_returns st raw : exists st', scan_line st raw = Ok st'.
Proof.
  unfold scan_line.
  destruct (Re.match_assign (PyStr.strip raw)) eqn:Ha; [|eauto].
  destruct (parse_property_assign _ Ha) as (k & v & ->). cbn [mbind result_bind].
  match goal with |- context [scan_current ?s] => destruct (scan_current s) end; eauto.
Qed.

Lemma scan_lines_returns lines st : exists st', scan_lines st lines = Ok st'.
Proof.
  revert st. induction lines as [|raw lines IH]; intros st; simpl; [eauto|].
  destruct (scan_line_returns st raw) as [st1 ->]. cbn [mbind result_bind]. apply IH.
Qed.

Lemma assets_from_bazel_text_returns (filename text : string) :
  exists g,
    assets_from_bazel_text filename text = Ok g
    /\ source_type g = "FILE" /\ source g = filename /\ is_Some (env g).
Proof.
  unfold assets_from_bazel_text.
  destruct (scan_lines_returns (PyStr.readlines text) (mkScan None [] [])) as [st ->].
  cbn [mbind result_bind]. eexists. split; [reflexivity|]. simpl. eauto.
Qed.

(** X1. [assets_from_bazel_file] on a file system of readable files: it
    raises [FileNotFoundError] exactly when the file is missing and
    [UnicodeDecodeError] exactly when its bytes are not well-formed
    UTF-8, and it raises nothing else. On every file that decodes, it
    returns the group parsed from the decoded text with line ends
    translated; the group is FILE-sourced, named after the file and
    carries an environment, so that [make_replacement_set] never raises
    on a parsed manifest. *)
Theorem assets_from_bazel_file_returns (fs : FS) (filename : string) :
  (fs !! filename = None
   /\ assets_from_bazel_file fs filename = Raise FileNotFoundError)
  \/ (exists content,
        fs !! filename = Some content /\ PyStr.valid_utf8 content = false
        /\ assets_from_bazel_file fs filename = Raise UnicodeDecodeError)
  \/ (exists content g,
        fs !! filename = Some content /\ PyStr.valid_utf8 content = true
        /\ assets_from_bazel_file fs filename = Ok g
        /\ assets_from_bazel_text filename (PyStr.universal_newlines content) = Ok g
        /\ source_type g = "FILE" /\ source g = filename /\ is_Some (env g)
        /\ forall other, exists rs, make_replacement_set g other = Ok rs).
Proof.
  unfold assets_from_bazel_file.
  destruct (read_file_cases fs filename)
    as [[Hfile ->]|[(content & Hfile & Hvalid & ->)|(content & Hfile & Hvalid & ->)]].
  - left. auto.
  - right. left. exists content. auto.
  - right. right. cbn [mbind result_bind].
    destruct (assets_from_bazel_text_returns filename (PyStr.universal_newlines content))
      as (g & Hg & Htype & Hsource & Henv).
    exists content, g. repeat (split; [assumption|]).
    intros other. unfold make_replacement_set. rewrite Htype. simpl. eauto.
Qed.

(** ** Records need an opening and a closing line *)

(** The lines of a text that open, or close, a record. *)
Definition opening_lines (content : string) : list string :=
  List.filter (fun raw => Re.match_maven_jar (PyStr.strip raw)) (PyStr.readlines content).

Definition closing_lines (content : string) : list string :=
  List.filter (fun raw => Re.match_close (PyStr.strip raw)) (PyStr.readlines content).

(** One for a record in progress. *)
Definition in_progress (st : scan_state) : nat :=
  match scan_current st with Some _ => 1 | None => 0 end.

Lemma scan_line_counts st raw st' :
  scan_line st raw = Ok st' ->
  length (scan_assets st') + in_progress st'
  <= length (scan_assets st) + in_progress st
     + (if Re.match_maven_jar (PyStr.strip raw) then 1 else 0)
  /\ length (scan_assets st')
     <= length (scan_assets st) + (if Re.match_close (PyStr.strip raw) then 1 else 0).
Proof.
  unfold scan_line, in_progress. intros H.
  destruct st as [cur assets env0].
  cbn [scan_current scan_assets scan_env] in *.
  destruct (Re.match_maven_jar (PyStr.strip raw));
    destruct (Re.match_close (PyStr.strip raw));
    destruct cur as [cur|];
    cbn [scan_current scan_assets scan_env] in H;
    destruct (Re.match_assign (PyStr.strip raw));
    try (destruct (parse_property (PyStr.strip raw) "=") as [[k v]|];
         cbn [mbind result_bind] in H; [|discriminate]);
    inversion H; subst; clear H; cbn [scan_current scan_assets scan_env];
    rewrite ?length_app; simpl; lia.
Qed.

Lemma scan_lines_counts lines st st' :
  scan_lines st lines = Ok st' ->
  length (scan_assets st') + in_progress st'
  <= length (scan_assets st) + in_progress st
     + length (List.filter (fun raw => Re.match_maven_jar (PyStr.strip raw)) lines)
  /\ length (scan_assets st')
     <= length (scan_assets st)
        + length (List.filter (fun raw => Re.match_close (PyStr.strip raw)) lines).
Proof.
  revert st. induction lines as [|raw lines IH]; intros st H; simpl in *.
  - inversion H; subst. lia.
  - destruct (scan_line st raw) as [st1|] eqn:Hstep;
      cbn [mbind result_bind] in H; [|discriminate].
    destruct (scan_line_counts _ _ _ Hstep) as [H1 H2].
    destruct (IH _ H) as [H3 H4].
    destruct (Re.match_maven_jar (PyStr.strip raw));
      destruct (Re.match_close (PyStr.strip raw)); simpl; lia.
Qed.

(** X2. The group parsed from a text has at most as many records as the
    text has opening lines, and at most as many as it has closing lines:
    a record that is never closed, or is reopened before it is closed,
    is dropped. *)
Theorem assets_from_bazel_text_count (filename content : string) :
  exists g,
    assets_from_bazel_text filename content = Ok g
    /\ length (assets g) <= length (opening_lines content)
    /\ length (assets g) <= length (closing_lines content).
Proof.
  unfold assets_from_bazel_text.
  destruct (scan_lines (mkScan None [] []) (PyStr.readlines content)) as [st|] eqn:Hscan.
  - cbn [mbind result_bind]. eexists. split; [reflexivity|]. simpl.
    rewrite length_map. destruct (scan_lines_counts _ _ _ Hscan) as [H1 H2].
    unfold opening_lines, closing_lines, in_progress in *. simpl in *. lia.
  - destruct (scan_lines_returns (PyStr.readlines content) (mkScan None [] [])) as [st Hst].
    congruence.
Qed.

(** A record without its closing line, and one reopened before closing. *)
Example unterminated_record_dropped :
  assets_from_bazel_text "WORKSPACE"
    (PyStr.writelines [ line "maven_jar("; line ("  name = " +:+ quoted "lib" +:+ ",") ])
  = Ok (mkAssetGroup "FILE" "WORKSPACE" [] (Some []))
  /\ assets_from_bazel_text "WORKSPACE"
       (PyStr.writelines [ line "maven_jar("; line ("  name = " +:+ quoted "a" +:+ ",");
                           line "maven_jar("; line ("  name = " +:+ quoted "b" +:+ ",");
                           line ")" ])
     = Ok (mkAssetGroup "FILE" "WORKSPACE"
             [mkAsset (Some "b") None None None None None] (Some [])).
Proof. split; vm_compute; reflexivity. Qed.

(** ** Members of an asset *)

Ltac split_keys :=
  repeat match goal with
         | |- context [String.eqb ?x ?y] => destruct (String.eqb_spec x y)
         end.

(** X3. [Asset.__setitem__] is a map-style setter over the six members:
    a key that is no member leaves the asset as it is, a member key
    afterwards reads the value set, and every other member is kept. *)
Theorem Asset_setitem_member (key : string) (val : option string) (a : Asset) :
  (key ∉ Asset_keys -> Asset_setitem key val a = a)
  /\ (key ∈ Asset_keys -> Asset_member key (Asset_setitem key val a) = Some val)
  /\ (forall key', key' <> key ->
        Asset_member key' (Asset_setitem key val a) = Asset_member key' a)
  /\ (Asset_member key a = None <-> key ∉ Asset_keys).
Proof.
  assert (Hkeys : key ∈ Asset_keys <->
                  key = "name" \/ key = "artifact" \/ key = "repository"
                  \/ key = "sha1" \/ key = "src_sha1" \/ key = "old_version").
  { unfold Asset_keys. rewrite !elem_of_cons, elem_of_nil. tauto. }
  split; [|split; [|split]].
  - intros Hn. unfold Asset_setitem. split_keys; try reflexivity;
      exfalso; apply Hn, Hkeys; tauto.
  - intros Hin. apply Hkeys in Hin.
    destruct Hin as [ -> | [ -> | [ -> | [ -> | [ -> | -> ] ] ] ] ]; reflexivity.
  - intros key' Hne. unfold Asset_setitem.
    destruct (String.eqb_spec key "name") as [->|?];
      [|destruct (String.eqb_spec key "artifact") as [->|?];
        [|destruct (String.eqb_spec key "repository") as [->|?];
          [|destruct (String.eqb_spec key "sha1") as [->|?];
            [|destruct (String.eqb_spec key "src_sha1") as [->|?];
              [|destruct (String.eqb_spec key "old_version") as [->|?];
                [|reflexivity]]]]]];
      unfold Asset_member; split_keys; subst; try reflexivity; congruence.
  - rewrite Hkeys. unfold Asset_member. split.
    + split_keys; try discriminate. intros _ Hor.
      destruct Hor as [?|[?|[?|[?|[?|?]]]]]; contradiction.
    + intros Hn. split_keys; try reflexivity; exfalso; apply Hn; tauto.
Qed.

(** ** The validation summary as an exit status *)

Lemma bind_empty {X Y : Type} (f : X -> list Y) (l : list X) :
  l ≫= f = [] <-> forall x, x ∈ l -> f x = [].
Proof.
  induction l as [|x l IH]; cbn [mbind list_bind].
  - split; [intros _ x Hx; inversion Hx|reflexivity].
  - split.
    + intros H. apply app_eq_nil in H as [H1 H2]. intros y Hy.
      apply elem_of_cons in Hy as [->|Hy]; [exact H1|]. apply IH; assumption.
    + intros H. rewrite (H x) by (apply elem_of_cons; left; reflexivity).
      simpl. apply IH. intros y Hy. apply H. apply elem_of_cons. right. exact Hy.
Qed.

(** X4. [print_validation_summary] returns 0 exactly when every asset of
    the group has a digest and no two assets with different coordinates
    have the same digest. *)
Theorem print_validation_summary_clean (g : AssetGroup) :
  snd (print_validation_summary g) = 0
  <-> (forall a, a ∈ assets g -> sha1 a <> None)
      /\ (forall a b, a ∈ assets g -> b ∈ assets g ->
                      artifact a <> artifact b -> sha1 a <> sha1 b).
Proof.
  unfold print_validation_summary. cbn [snd].
  rewrite Nat.eq_add_0, !length_zero_iff_nil.
  assert (Hand : forall P Q R S : Prop, (P <-> R) -> (Q <-> S) -> (P /\ Q <-> R /\ S))
    by tauto.
  apply Hand; clear Hand.
  - unfold assets_missing_shas. rewrite bind_empty. split.
    + intros H a Ha Hnone. specialize (H a Ha).
      apply opt_eqb_true in Hnone. rewrite Hnone in H. discriminate.
    + intros H a Ha. destruct (opt_eqb (sha1 a) None) eqn:E; [|reflexivity].
      apply opt_eqb_true in E. exfalso. exact (H a Ha E).
  - split.
    + intros Hnil a b Ha Hb Hne Heq.
      assert (Hin : (name a, name b, sha1 a) ∈ assets_with_duplicate_shas g).
      { apply duplicate_pairs. exists a, b. auto. }
      rewrite Hnil in Hin. inversion Hin.
    + intros H. destruct (assets_with_duplicate_shas g) as [|t l] eqn:E; [reflexivity|].
      assert (Hin : t ∈ assets_with_duplicate_shas g)
        by (rewrite E; apply elem_of_cons; left; reflexivity).
      apply duplicate_pairs in Hin as (a & b & Ha & Hb & Hne & Heq & _).
      exfalso. exact (H a b Ha Hb Hne Heq).
Qed.

(** ** Rewriting with nothing to update *)

Lemma concat_empty_cons x l :
  String.concat EmptyString (x :: l) = x +:+ String.concat EmptyString l.
Proof.
  destruct l as [|y l]; simpl; [|reflexivity].
  induction x as [|c x IH]; [reflexivity|].
  change (String c x = String c (x +:+ EmptyString)). f_equal. exact IH.
Qed.

(** Writing the lines of a text gives the text back. *)
Lemma writelines_readlines s : PyStr.writelines (PyStr.readlines s) = s.
Proof.
  unfold PyStr.writelines. induction s as [|c s IH]; [reflexivity|].
  cbn [PyStr.readlines]. destruct (Ascii.eqb c "010").
  - rewrite concat_empty_cons, IH. reflexivity.
  - destruct (PyStr.readlines s) as [|l ls].
    + simpl in IH. subst s. reflexivity.
    + rewrite concat_empty_cons in *. rewrite <- IH. reflexivity.
Qed.

Lemma update_line_nothing oa st count :
  count < length (upd_data st) ->
  exists st',
    update_line oa [] st count = Ok st'
    /\ upd_data st' = upd_data st /\ updated_assets st' = updated_assets st.
Proof.
  intros Hc. destruct (lookup_lt_is_Some_2 _ _ Hc) as [original_line Hline].
  unfold update_line. rewrite (index_lookup _ _ _ Hline). cbn [mbind result_bind].
  destruct (Re.match_maven_jar _); [eauto|].
  destruct (_ && _); [eauto|].
  destruct (Re.match_assign _) eqn:Ha; [|eauto].
  destruct (parse_property_assign _ Ha) as (k & v & ->). cbn [mbind result_bind].
  destruct (upd_current st) as [cur|]; [|eauto].
  cbn [Dict.get upd_env upd_env_line updated_assets upd_current upd_data].
  eexists. split; [reflexivity|]. simpl. split; [|reflexivity].
  apply list_insert_id, Hline.
Qed.

Lemma update_lines_nothing oa counts st :
  Forall (fun count => count < length (upd_data st)) counts ->
  exists st',
    update_lines oa [] st counts = Ok st'
    /\ upd_data st' = upd_data st /\ updated_assets st' = updated_assets st.
Proof.
  revert st. induction counts as [|count counts IH]; intros st Hall; simpl; [eauto|].
  apply Forall_cons in Hall as [Hc Hall].
  destruct (update_line_nothing oa st count Hc) as (st1 & -> & Hd & Hu).
  cbn [mbind result_bind].
  destruct (IH st1) as (st' & -> & Hd' & Hu'); [rewrite Hd; exact Hall|].
  eexists. split; [reflexivity|]. split; congruence.
Qed.

(** X5. With no asset to update, on a file that decodes,
    [update_bazel_file] does not raise, reports no updated asset and
    writes the file back as the text it read: the content with every
    carriage return, and the line feed after it if there is one, turned
    into a line feed. A file without carriage returns keeps its content
    byte for byte. *)
Theorem update_bazel_file_nothing (oa : attributes) (fs : FS) (filename content : string) :
  fs !! filename = Some content ->
  PyStr.valid_utf8 content = true ->
  update_bazel_file oa fs filename []
  = Ok (<[filename := PyStr.universal_newlines content]> fs, [])
  /\ (Re.has_char "013" content = false ->
      update_bazel_file oa fs filename [] = Ok (fs, [])).
Proof.
  intros Hfile Hvalid.
  assert (Hrun : update_bazel_file oa fs filename []
                 = Ok (<[filename := PyStr.universal_newlines content]> fs, [])).
  { unfold update_bazel_file, read_file, read_text. rewrite Hfile, Hvalid.
    cbn [mbind result_bind]. set (text := PyStr.universal_newlines content).
    destruct (update_lines_nothing oa (seq 0 (length (PyStr.readlines text)))
                (mkUpdate [] [] [] None (PyStr.readlines text)))
      as (st & -> & Hd & Hu).
    { apply Forall_forall. intros count Hin.
      apply list_elem_of_In, in_seq in Hin. simpl. lia. }
    cbn [mbind result_bind]. simpl in Hd, Hu. rewrite Hd, Hu, writelines_readlines.
    reflexivity. }
  split; [exact Hrun|]. intros Hplain. rewrite Hrun.
  rewrite (universal_newlines_plain _ Hplain), insert_id by exact Hfile. reflexivity.
Qed.

Lemma update_bazel_file_nothing_witness :
  update_bazel_file scenario_attributes {["WORKSPACE" := scenario3_text]} "WORKSPACE" []
  = Ok ({["WORKSPACE" := scenario3_text]}, []).
Proof.
  apply (update_bazel_file_nothing scenario_attributes
           {["WORKSPACE" := scenario3_text]} "WORKSPACE" scenario3_text).
  - apply lookup_singleton_eq.
  - reflexivity.
  - reflexivity.
Defined.

(** ** The assets reported as updated *)

Lemma dict_get_set_cases {K V : Type} `{EqDecision K} (d : Dict.t K V) k k0 v a :
  Dict.get k (Dict.set k0 v d) = Some a ->
  (k = k0 /\ a = v) \/ Dict.get k d = Some a.
Proof.
  destruct (decide (k0 = k)) as [->|Hne].
  - rewrite dict_get_set_eq. intros H. inversion H. auto.
  - rewrite dict_get_set_ne by exact Hne. auto.
Qed.

(** Every entry of [updated_assets] is an asset to update under its own
    name. *)
Definition reported (to_update upd : Dict.t (option string) Asset) : Prop :=
  forall k a, Dict.get k upd = Some a ->
              k = name a /\ exists k', Dict.get k' to_update = Some a.

Lemma update_variable_reported to_update st new_asset v st' k' :
  Dict.get k' to_update = Some new_asset ->
  reported to_update (updated_assets st) ->
  update_variable st new_asset v = Ok st' ->
  reported to_update (updated_assets st').
Proof.
  unfold update_variable, Dict.item. intros Hsel Hrep H. run_cases H;
    inversion H; subst; clear H; simpl; try exact Hrep.
  intros key entry Hget. apply dict_get_set_cases in Hget as [[-> ->]|Hget]; eauto.
Qed.

Lemma update_line_reported oa to_update st count st' :
  reported to_update (updated_assets st) ->
  update_line oa to_update st count = Ok st' ->
  reported to_update (updated_assets st').
Proof.
  unfold update_line. intros Hrep H.
  destruct (index (upd_data st) count) as [original_line|];
    cbn [mbind result_bind] in H; [|discriminate].
  destruct (Re.match_maven_jar _); [inversion H; subst; exact Hrep|].
  destruct (_ && _); [inversion H; subst; exact Hrep|].
  destruct (Re.match_assign _); [|inversion H; subst; exact Hrep].
  destruct (parse_property _ _) as [[k v]|]; cbn [mbind result_bind] in H; [|discriminate].
  destruct (upd_current st) as [cur|]; [|inversion H; subst; exact Hrep].
  cbn [upd_env upd_env_line updated_assets upd_current upd_data] in H.
  destruct (Dict.get _ to_update) as [new_asset|] eqn:Hsel;
    [|inversion H; subst; exact Hrep].
  destruct (_ && _).
  - destruct (update_variable _ _ _) as [st1|] eqn:Huv;
      cbn [mbind result_bind] in H; [|discriminate].
    inversion H; subst; clear H; simpl.
    eapply update_variable_reported; [exact Hsel| |exact Huv]. exact Hrep.
  - destruct (update_field _ _ _ _ _ _) as [[new_line updated]|];
      cbn [mbind result_bind] in H; [|discriminate].
    inversion H; subst; clear H; simpl. destruct updated; [|exact Hrep].
    intros k0 a Hget. apply dict_get_set_cases in Hget as [[-> ->]|Hget]; eauto.
Qed.

Lemma update_lines_reported oa to_update counts st st' :
  reported to_update (updated_assets st) ->
  update_lines oa to_update st counts = Ok st' ->
  reported to_update (updated_assets st').
Proof.
  revert st. induction counts as [|count counts IH]; simpl; intros st Hrep H.
  - inversion H; subst. exact Hrep.
  - destruct (update_line oa to_update st count) as [st1|] eqn:Hstep;
      cbn [mbind result_bind] in H; [|discriminate].
    eapply IH; [|exact H]. eapply update_line_reported; eauto.
Qed.

(** A line that is not read as an assignment leaves the lines and the
    record of declarations as they are. *)
Lemma update_line_not_assign oa to_update st count line st' :
  upd_data st !! count = Some line ->
  Re.match_assign (PyStr.strip line) = false ->
  update_line oa to_update st count = Ok st' ->
  upd_data st' = upd_data st /\ upd_env_line st' = upd_env_line st.
Proof.
  intros Hline Hno. unfold update_line. rewrite (index_lookup _ _ _ Hline).
  cbn [mbind result_bind]. rewrite Hno.
  destruct (Re.match_maven_jar _); [intros H; inversion H; subst; auto|].
  destruct (_ && _); intros H; inversion H; subst; auto.
Qed.

(** The lines the loop has not reached, and the lines read that are no
    assignments, are as they were read, and no variable is recorded as
    declared on them. *)
Definition untouched (orig : list string) (c : nat) (st : update_state) : Prop :=
  forall i,
    (c <= i \/ exists line, orig !! i = Some line
                            /\ Re.match_assign (PyStr.strip line) = false) ->
    not_declared_at i st /\ upd_data st !! i = orig !! i.

Lemma update_line_untouched oa to_update orig st count st' :
  untouched orig count st ->
  update_line oa to_update st count = Ok st' ->
  untouched orig (S count) st'.
Proof.
  intros Hinv Hstep i Hi.
  destruct (update_line_frame _ _ _ _ _ Hstep) as [_ Hother].
  destruct (decide (i = count)) as [->|Hne].
  - destruct Hi as [Hi|(line & Horig & Hno)]; [lia|].
    destruct (Hinv count) as [Hnd Hdata]; [left; lia|].
    rewrite Horig in Hdata.
    destruct (update_line_not_assign _ _ _ _ _ _ Hdata Hno Hstep) as [Hsame Henv].
    split.
    + unfold not_declared_at in *. rewrite Henv. exact Hnd.
    + rewrite Hsame, Hdata. symmetry. exact Horig.
  - destruct (Hinv i) as [Hnd Hdata].
    { destruct Hi as [Hi|Hi]; [left; lia|right; exact Hi]. }
    destruct (Hother i Hne Hnd) as [Hnd' Hdata']. split; [exact Hnd'|congruence].
Qed.

Lemma update_lines_untouched oa to_update orig m c st st' :
  untouched orig c st ->
  update_lines oa to_update st (seq c m) = Ok st' ->
  untouched orig (c + m) st'.
Proof.
  revert c st. induction m as [|m IH]; simpl; intros c st Hinv H.
  - inversion H; subst. rewrite Nat.add_0_r. exact Hinv.
  - destruct (update_line oa to_update st c) as [st1|] eqn:Hstep;
      cbn [mbind result_bind] in H; [|discriminate].
    replace (c + S m) with (S c + m) by lia.
    apply (IH (S c) st1); [|exact H].
    eapply update_line_untouched; eauto.
Qed.

(** X6. Whatever [update_bazel_file] returns as updated assets, every
    entry is one of the assets to update, stored under that asset's own
    name. The file is written from the list [data] as the loop leaves
    it: one entry for each line of the text read, and every line read
    that is no assignment still in its place as it was read. An entry
    written for an assignment may hold a line break of its own, when the
    new value does, so nothing is said of the number of lines of the
    file written. *)
Theorem update_bazel_file_reported (oa : attributes) (fs fs' : FS) (filename : string)
    (to_update updated : Dict.t (option string) Asset) :
  update_bazel_file oa fs filename to_update = Ok (fs', updated) ->
  (forall k a, Dict.get k updated = Some a ->
               k = name a /\ exists k', Dict.get k' to_update = Some a)
  /\ exists text st,
       read_file fs filename = Ok text
       /\ update_lines oa to_update (mkUpdate [] [] [] None (PyStr.readlines text))
            (seq 0 (length (PyStr.readlines text))) = Ok st
       /\ updated = updated_assets st
       /\ fs' = <[filename := PyStr.writelines (upd_data st)]> fs
       /\ length (upd_data st) = length (PyStr.readlines text)
       /\ forall i line,
            PyStr.readlines text !! i = Some line ->
            Re.match_assign (PyStr.strip line) = false ->
            upd_data st !! i = Some line.
Proof.
  unfold update_bazel_file. intros H.
  destruct (read_file fs filename) as [text|]; cbn [mbind result_bind] in H; [|discriminate].
  destruct (update_lines _ _ _ _) as [st|] eqn:Hrun; cbn [mbind result_bind] in H;
    [|discriminate].
  inversion H; subst; clear H. split.
  - eapply (update_lines_reported oa to_update _ _ st); [|exact Hrun].
    intros k a Hget. discriminate.
  - exists text, st. split; [reflexivity|]. split; [exact Hrun|].
    split; [reflexivity|]. split; [reflexivity|]. split.
    + destruct (update_lines_frame oa to_update _ _ st 0 Hrun) as [Hlen _]. exact Hlen.
    + intros i line Horig Hno.
      assert (Hstart : untouched (PyStr.readlines text) 0
                         (mkUpdate [] [] [] None (PyStr.readlines text))).
      { intros j _. split; [|reflexivity]. intros k. simpl. discriminate. }
      destruct (update_lines_untouched _ _ _ _ _ _ _ Hstart Hrun i) as [_ Hdata].
      { right. exists line. auto. }
      rewrite Hdata. exact Horig.
Qed.

Lemma update_bazel_file_reported_witness :
  (forall k a, Dict.get k scenario3_update = Some a ->
               k = name a /\ exists k', Dict.get k' scenario3_update = Some a)
  /\ exists text st,
       read_file {["WORKSPACE" := scenario3_text]} "WORKSPACE" = Ok text
       /\ update_lines scenario_attributes scenario3_update
            (mkUpdate [] [] [] None (PyStr.readlines text))
            (seq 0 (length (PyStr.readlines text))) = Ok st
       /\ scenario3_update = updated_assets st
       /\ (<["WORKSPACE" := scenario3_rewritten]> {["WORKSPACE" := scenario3_text]} : FS)
          = <["WORKSPACE" := PyStr.writelines (upd_data st)]>
              {["WORKSPACE" := scenario3_text]}
       /\ length (upd_data st) = length (PyStr.readlines text)
       /\ forall i line,
            PyStr.readlines text !! i = Some line ->
            Re.match_assign (PyStr.strip line) = false ->
            upd_data st !! i = Some line.
Proof.
  exact (update_bazel_file_reported _ _ _ _ _ _ scenario3_rewrite).
Defined.

(** A new value that holds a line break: the entry written for the
    coordinate holds two lines, and the file written has one line more
    than the file read. *)
Definition line_break_update : Dict.t (option string) Asset :=
  [(Some "lib",
    mkAsset (Some "lib") (Some ("com.x:lib:2.0" +:+ PyStr.newline +:+ "x")) None
            (Some "aaa") None (Some "1.0"))].

Example line_break_adds_line :
  exists fs' updated,
    update_bazel_file scenario_attributes {["WORKSPACE" := scenario3_text]} "WORKSPACE"
      line_break_update = Ok (fs', updated)
    /\ length (PyStr.readlines scenario3_text) = 5
    /\ (text ← read_file fs' "WORKSPACE"; Ok (length (PyStr.readlines text))) = Ok 6.
Proof.
  eexists _, _. split; [|split].
  - unfold update_bazel_file.
    rewrite (read_file_plain _ _ scenario3_text)
      by first [apply lookup_singleton_eq | vm_compute; reflexivity].
    cbn [mbind result_bind].
    match goal with
    | |- context [update_lines ?o ?u ?s ?l] =>
        let r := eval vm_compute in (update_lines o u s l) in
        change (update_lines o u s l) with r
    end.
    cbn [mbind result_bind]. reflexivity.
  - vm_compute. reflexivity.
  - unfold read_file. rewrite lookup_insert_eq. vm_compute. reflexivity.
Qed.

(** * Further procedures of the script *)

(** ** More string primitives *)

Module PyText.

(** [s.endswith(suffix)]. *)
Fixpoint endswith (s suffix : string) : bool :=
  match s with
  | EmptyString => String.eqb suffix EmptyString
  | String _ s' => String.eqb s suffix || endswith s' suffix
  end.

(** [c.lower()] on the ASCII range. Outside it a byte is left as it is,
    where [str.lower] may change the character: never into a character
    of [-snapshot], the one text the script looks for in a lowered
    text. *)
Definition lower_char (c : ascii) : ascii :=
  let n := nat_of_ascii c in
  if ((65 <=? n)%nat && (n <=? 90)%nat)%bool then ascii_of_nat (n + 32) else c.

(** [s.lower()]. *)
Fixpoint lower (s : string) : string :=
  match s with
  | EmptyString => EmptyString
  | String c s' => String (lower_char c) (lower s')
  end.

(** [s.rstrip(c)] for a one-character set. *)
Fixpoint rstrip_char (c : ascii) (s : string) : string :=
  match s with
  | EmptyString => EmptyString
  | String x s' =>
      match rstrip_char c s' with
      | EmptyString => if Ascii.eqb x c then EmptyString else String x EmptyString
      | r => String x r
      end
  end.

(** [s.strip(c)] for a one-character set. *)
Definition strip_char (c : ascii) (s : string) : string :=
  rstrip_char c (PyStr.lstrip_char c s).

(** [s.split(sep)[0]] for a non-empty separator: the text before the
    first occurrence of [sep]. *)
Fixpoint before_sub (sep s : string) : string :=
  match s with
  | EmptyString => EmptyString
  | String c s' =>
      if String.prefix sep s then EmptyString else String c (before_sub sep s')
  end.

(** [s.split(c)[-1]]. *)
Definition last_part (c : ascii) (s : string) : string :=
  List.last (PyStr.split c s) EmptyString.

End PyText.

(** ** More regular expressions *)

Module ReMore.

(** The rest of a string after its longest prefix free of [c]. *)
Fixpoint skip_non (c : ascii) (s : string) : string :=
  match s with
  | EmptyString => EmptyString
  | String x s' => if Ascii.eqb x c then s else skip_non c s'
  end.

(** [re.match("[^c]+c[^c]+", line)], used with [c] a colon. *)
Definition match_pair (c : ascii) (line : string) : bool :=
  match line with
  | EmptyString => false
  | String x _ =>
      if Ascii.eqb x c then false
      else match skip_non c line with
           | String _ (String d _) => negb (Ascii.eqb d c)
           | _ => false
           end
  end.

(** The text after the last [c] of a string, when there is one. *)
Fixpoint after_last (c : ascii) (s : string) : option string :=
  match s with
  | EmptyString => None
  | String x s' =>
      match after_last c s' with
      | Some r => Some r
      | None => if Ascii.eqb x c then Some s' else None
      end
  end.

(** What [.*=] removes from one line: everything up to its last ['=']. *)
Definition drop_through_last (c : ascii) (seg : string) : string :=
  match after_last c seg with
  | Some r => r
  | None => seg
  end.

(** [re.sub('.*=', '', s)]: the dot does not match a newline, so the
    substitution works line by line. *)
Definition sub_dotstar_eq (s : string) : string :=
  PyStr.join PyStr.newline (map (drop_through_last "=") (PyStr.split "010" s)).

(** [re.match(default_filter, s)] for
    [default_filter = '.*(com\.wandisco|org\.eclipse\.jgit).*']. *)
Definition match_default_filter (s : string) : bool :=
  PyStr.occurs "com.wandisco" (Re.first_line s)
  || PyStr.occurs "org.eclipse.jgit" (Re.first_line s).

End ReMore.

(** ** Filtering and flattening *)

(** [asset.artifact or asset.name]. *)
Definition artifact_or_name (a : Asset) : option string :=
  if PyStr.truthy (artifact a) then artifact a else name a.

(** The condition of the comprehension of [filter_assets]; [matcher]
    tells whether [re.match] finds a match. *)
Definition filter_keeps (matcher : string -> bool) (a : Asset) : bool :=
  match artifact_or_name a with
  | Some s => PyStr.truthy (Some s) && matcher s
  | None => false
  end.

(** [AssetGroup.filter_assets(matcher)]: the group after the call. *)
Definition filter_assets (matcher : string -> bool) (self : AssetGroup) : AssetGroup :=
  mkAssetGroup (source_type self) (source self)
    (List.filter (filter_keeps matcher) (assets self)) (env self).

(** [all_assets_flattened(groups)]. *)
Definition all_assets_flattened (groups : list AssetGroup) : list Asset :=
  let all_assets := map assets groups in
  group_assets ← all_assets; asset ← group_assets; [asset].

(** The loop of [check_for_snapshot_assets] over the assets of the
    groups: the coordinates printed so far and the count. *)
Fixpoint snapshot_loop (printed : list string) (num_of_snapshots : nat)
    (l : list Asset) : result (list string * nat) :=
  match l with
  | [] => Ok (printed, num_of_snapshots)
  | asset :: rest =>
      match artifact asset with
      | None => Raise AttributeError
      | Some art =>
          if PyStr.occurs "-snapshot" (PyText.lower art)
          then snapshot_loop (printed ++ [art]) (S num_of_snapshots) rest
          else snapshot_loop printed num_of_snapshots rest
      end
  end.

(** [check_for_snapshot_assets(build_file_assets)]: the lines printed and
    the number returned. *)
Definition check_for_snapshot_assets (build_file_assets : list AssetGroup)
  : result (list string * nat) :=
  snapshot_loop [] 0 (asset_group ← build_file_assets; assets asset_group).

(** ** Groups built from a repository *)

(** A group whose assets are objects of the store, as
    [assets_from_repository] and [assets_from_default_repository] build
    it; [env] stays [None]. *)
Record RefGroup : Type := mkRefGroup {
  ref_source_type : string;
  ref_source : string;
  ref_assets : list nat
}.

(** The group of a [RefGroup], read off the store. *)
Definition group_value (h : heap) (g : RefGroup) : AssetGroup :=
  mkAssetGroup (ref_source_type g) (ref_source g) (map (heap_get h) (ref_assets g)) None.

Section Repository.

Variables (tempdir pid : string) (download_file : list string -> option captured).

(** [for asset in reference_assets:
       assets.append(asset_from_repo(asset, repo_name))]. *)
Fixpoint repository_loop (h : heap) (repo_name : option string)
    (reference_assets assets : list nat) : result (list nat) * heap :=
  match reference_assets with
  | [] => (Ok assets, h)
  | asset :: rest =>
      match asset_from_repo tempdir pid download_file h asset repo_name with
      | (Ok new_asset, h1) => repository_loop h1 repo_name rest (assets ++ [new_asset])
      | (Raise e, h1) => (Raise e, h1)
      end
  end.

(** [assets_from_repository(repo_name, reference_assets)]. *)
Definition assets_from_repository (h : heap) (repo_name : string)
    (reference_assets : list nat) : result RefGroup * heap :=
  let resolved :=
    if PyText.endswith repo_name ":" then Some repo_name
    else Dict.get repo_name known_repos in
  match resolved with
  | None => (Raise ValueError, h)
  | Some resolved_name =>
      match repository_loop h (Some resolved_name) reference_assets [] with
      | (Ok assets, h') => (Ok (mkRefGroup "REPO" repo_name assets), h')
      | (Raise e, h') => (Raise e, h')
      end
  end.

(** The loop of [assets_from_default_repository]: an asset that names no
    repository is skipped. *)
Fixpoint default_repository_loop (h : heap) (reference_assets assets : list nat)
  : result (list nat) * heap :=
  match reference_assets with
  | [] => (Ok assets, h)
  | asset :: rest =>
      if negb (PyStr.truthy (repository (heap_get h asset)))
      then default_repository_loop h rest assets
      else
        match asset_from_repo tempdir pid download_file h asset
                (repository (heap_get h asset)) with
        | (Ok new_asset, h1) => default_repository_loop h1 rest (assets ++ [new_asset])
        | (Raise e, h1) => (Raise e, h1)
        end
  end.

(** [assets_from_default_repository(reference_assets)]. *)
Definition assets_from_default_repository (h : heap) (reference_assets : list nat)
  : result RefGroup * heap :=
  match default_repository_loop h reference_assets [] with
  | (Ok assets, h') => (Ok (mkRefGroup "REPO" "(Repository from Asset)" assets), h')
  | (Raise e, h') => (Raise e, h')
  end.

End Repository.

(** ** The version properties of the jgit manifest *)

Module ReWD.

(** [s[n:]]. *)
Fixpoint drop (n : nat) (s : string) : string :=
  match n, s with
  | O, _ => s
  | S k, String _ s' => drop k s'
  | S _, EmptyString => EmptyString
  end.

(** The text after the last occurrence of a non-empty [sep] in [s],
    when it occurs. *)
Fixpoint after_last_sub (sep s : string) : option string :=
  match s with
  | EmptyString => None
  | String _ s' =>
      match after_last_sub sep s' with
      | Some r => Some r
      | None => if String.prefix sep s then Some (drop (String.length sep) s) else None
      end
  end.

(** [re.sub('-WD.*', '', s)]: the dot does not match a newline, so every
    line is cut at its first [-WD]. *)
Definition sub_tail (s : string) : string :=
  PyStr.join PyStr.newline (map (PyText.before_sub "-WD") (PyStr.split "010" s)).

(** What [.*-WD] followed by the replacement leaves of one line: the
    greedy star runs to the last [-WD] of the line. *)
Definition from_last (seg : string) : string :=
  match after_last_sub "-WD" seg with
  | Some r => "-WD" +:+ r
  | None => seg
  end.

(** [re.sub('.*-WD', '-WD', s)]. *)
Definition sub_head (s : string) : string :=
  PyStr.join PyStr.newline (map from_last (PyStr.split "010" s)).

End ReWD.

(** [check_and_update_version(line, line_updated, property_name,
    new_version)]. *)
Definition check_and_update_version (line : string) (line_updated : bool)
    (property_name new_version : string) : bool * string :=
  let current_version := PyStr.strip (ReMore.sub_dotstar_eq line) in
  if negb (String.eqb current_version new_version)
  then (true, property_name +:+ " = " +:+ PyStr.dquote +:+ new_version
                +:+ PyStr.dquote +:+ PyStr.newline)
  else (line_updated, line).

Definition vanilla_property_name : string := "_JGIT_VANILLA_VERS".
Definition postfix_property_name : string := "_POSTFIX_WD".

(** The body of the loop of [update_jgit_bazel_file] on one line:
    [re.match] of a name without special characters is a prefix test. *)
Definition jgit_line (new_vanilla_version new_postfix_version : string)
    (file_changed : bool) (original_line : string) : bool * string :=
  if PyStr.startswith original_line vanilla_property_name
  then check_and_update_version original_line file_changed
         vanilla_property_name new_vanilla_version
  else if PyStr.startswith original_line postfix_property_name
  then check_and_update_version original_line file_changed
         postfix_property_name new_postfix_version
  else (file_changed, original_line).

(** [for count, original_line in enumerate(data): ...; data[count] = line]. *)
Fixpoint jgit_lines (new_vanilla_version new_postfix_version : string)
    (file_changed : bool) (data : list string) : bool * list string :=
  match data with
  | [] => (file_changed, [])
  | original_line :: rest =>
      let '(file_changed, line) :=
        jgit_line new_vanilla_version new_postfix_version file_changed original_line in
      let '(file_changed, rest) :=
        jgit_lines new_vanilla_version new_postfix_version file_changed rest in
      (file_changed, line :: rest)
  end.

(** [update_jgit_bazel_file(filename, assets_to_update, updated_assets)]:
    the file system and the value returned, [None] for the bare
    [return]. *)
Definition update_jgit_bazel_file (fs : FS) (filename : string)
    (assets_to_update updated_assets : Dict.t (option string) Asset)
  : result (FS * option (Dict.t (option string) Asset)) :=
  match Dict.get (Some jgit_artifact_id) assets_to_update with
  | None => Ok (fs, None)
  | Some jgit_asset =>
      if negb (PyStr.truthy (artifact jgit_asset)) then Ok (fs, None)
      else
        part ← index (PyStr.split ":" (PyStr.str (artifact jgit_asset))) 2;
        let full_version := PyStr.strip part in
        let new_vanilla_version := ReWD.sub_tail full_version in
        let new_postfix_version := ReWD.sub_head full_version in
        content ← read_file fs filename;
        let data := PyStr.readlines content in
        let '(file_changed, data) :=
          jgit_lines new_vanilla_version new_postfix_version false data in
        if file_changed : bool
        then Ok (<[filename := PyStr.writelines data]> fs,
                 Some (Dict.set (Some jgit_artifact_id) jgit_asset updated_assets))
        else Ok (fs, Some updated_assets)
  end.

(** ** The properties of the bill of materials *)

(** The body of [for line in f] in [read_bom_properties]; [matcher]
    tells whether [re.match] finds a match. *)
Definition bom_line (matcher : string -> bool) (properties : Dict.t string string)
    (line : string) : result (Dict.t string string) :=
  let l := PyStr.strip line in
  if PyStr.truthy (Some l) && negb (PyStr.startswith l "#") then
    let key_value := PyStr.split "=" l in
    first ← index key_value 0;
    let key := PyStr.strip first in
    if matcher key then
      let value := PyText.strip_char "034"
                     (PyStr.strip (PyStr.join "=" (tl key_value))) in
      Ok (Dict.set key value properties)
    else Ok properties
  else Ok properties.

Fixpoint bom_lines (matcher : string -> bool) (properties : Dict.t string string)
    (lines : list string) : result (Dict.t string string) :=
  match lines with
  | [] => Ok properties
  | line :: rest =>
      properties ← bom_line matcher properties line;
      bom_lines matcher properties rest
  end.

(** The reading loop of [read_bom_properties] on the bytes of the
    properties file, which the procedure has found to exist: the file
    is opened in text mode and read line by line. *)
Definition read_properties (matcher : string -> bool) (content : string)
  : result (Dict.t string string) :=
  text ← read_text content;
  bom_lines matcher [] (PyStr.readlines text).

(** ** Assets from jar files *)

(** The variables of the manifest loop of [asset_from_jar]. *)
Record manifest_vars : Type := mkManifest {
  man_vendor : option string;
  man_version : option string
}.

(** The body of [for line in manifest.split('\n')]. *)
Definition manifest_line (st : manifest_vars) (line : string) : result manifest_vars :=
  if negb (ReMore.match_pair ":" line) then Ok st
  else
    kv ← parse_property line ":";
    let k := fst kv in
    let v := snd kv in
    let vendor := if String.eqb k "Implementation-Vendor-Id" then Some v
                  else man_vendor st in
    let version := if String.eqb k "Implementation-Version" then Some v
                   else man_version st in
    let version := if String.eqb k "Specification-Version"
                      && negb (PyStr.truthy version)
                   then Some v else version in
    Ok (mkManifest vendor version).

Fixpoint manifest_lines (st : manifest_vars) (lines : list string)
  : result manifest_vars :=
  match lines with
  | [] => Ok st
  | line :: rest => st ← manifest_line st line; manifest_lines st rest
  end.

Section Jar.

(** [sha1sum(filename)], the digest of the file's content. *)
Variable sha1sum : string -> string.

(** [subprocess.check_output(["unzip", "-p", filename,
    "META-INF/MANIFEST.MF"]).decode('utf-8')]: [None] when the command
    or the decoding fails, which the [except] clause catches. *)
Variable unzip_manifest : string -> option string.

(** [os.walk(pathname)]: the triples of directory, subdirectories and
    file names. *)
Variable walk : string -> list (string * list string * list string).

(** [asset_from_jar(filename)]. Any exception raised inside the [try]
    block leaves the asset with the file's base name and digest. *)
Definition asset_from_jar (filename : string) : Asset :=
  let asset := mkAsset (Some (PyText.last_part "/" filename)) None None
                       (Some (sha1sum filename)) None None in
  match unzip_manifest filename with
  | None => asset
  | Some manifest =>
      match manifest_lines (mkManifest None None) (PyStr.split "010" manifest) with
      | Raise _ => asset
      | Ok st =>
          let vendor := man_vendor st in
          let version := man_version st in
          let name :=
            if PyStr.truthy version
            then Some (PyText.last_part "/"
                         (PyText.before_sub ("-" +:+ PyStr.str version) filename))
            else None in
          if PyStr.truthy name && PyStr.truthy vendor && PyStr.truthy version
          then mkAsset name
                 (Some (PyStr.str vendor +:+ ":" +:+ PyStr.str name +:+ ":"
                          +:+ PyStr.str version))
                 None (Some (sha1sum filename)) None None
          else asset
      end
  end.

(** [file_walk(pathname, matcher)]; [matcher] tells whether the compiled
    expression matches. *)
Definition file_walk (pathname : string) (matcher : string -> bool) : list string :=
  let filenames :=
    entry ← walk pathname; f ← snd entry; [path_join (fst (fst entry)) f] in
  List.filter matcher filenames.

(** [assets_from_directory_walk(pathname, matcher)]. *)
Definition assets_from_directory_walk (pathname : string) (matcher : string -> bool)
  : AssetGroup :=
  mkAssetGroup "DIR" pathname (map asset_from_jar (file_walk pathname matcher)) None.

End Jar.

(** ** The dependency report *)

(** How a procedure that may call [exit] ends. *)
Inductive outcome : Type :=
| Returns
| Exits (status : nat).

(** The line printed for an updated or not updated asset. The operands
    of the concatenation are evaluated from left to right. *)
Definition report_entry (asset : Asset) : result string :=
  art ← match artifact asset with
        | Some art => Ok art
        | None => Raise AttributeError
        end;
  let split_artifact := PyStr.split ":" art in
  p0 ← index split_artifact 0;
  p1 ← index split_artifact 1;
  old ← match old_version asset with
        | Some old => Ok old
        | None => Raise TypeError
        end;
  p2 ← index split_artifact 2;
  Ok ("    " +:+ p0 +:+ ":" +:+ p1 +:+ " " +:+ old +:+ " -> " +:+ p2).

(** The line printed for a skipped asset. *)
Definition skipped_entry (asset : Asset) : result string :=
  match artifact asset with
  | Some art => Ok ("    " +:+ art)
  | None => Raise TypeError
  end.

(** A loop that prints one line per element. *)
Fixpoint for_each {A : Type} (f : A -> result string) (l : list A)
  : result (list string) :=
  match l with
  | [] => Ok []
  | x :: rest => line ← f x; lines ← for_each f rest; Ok (line :: lines)
  end.

(** [if d:] for a dictionary. *)
Definition nonempty {A : Type} (l : list A) : bool :=
  match l with
  | [] => false
  | _ => true
  end.

Section Report.

(** The order in which a [set] built from a list of keys is iterated. *)
Variable set_order : list (option string) -> list (option string).

(** [print_dependency_management_report(updated_assets, assets_to_update,
    skipped_assets, checking_only)]: the lines printed on the standard
    output and how the call ends. *)
Definition print_dependency_management_report
    (updated_assets assets_to_update skipped_assets : Dict.t (option string) Asset)
    (checking_only : bool) : result (list string * outcome) :=
  out1 ← (if nonempty updated_assets
          then lines ← for_each report_entry (map snd updated_assets);
               Ok ("Updated Assets:" :: lines)
          else Ok []);
  let not_updated_assets :=
    set_order
      (if nonempty updated_assets
       then List.filter (fun k => negb (Dict.mem k updated_assets))
                        (Dict.keys assets_to_update)
       else Dict.keys assets_to_update) in
  out2 ← (if nonempty not_updated_assets
          then lines ← for_each
                         (fun name =>
                            match Dict.get name assets_to_update with
                            | Some asset => report_entry asset
                            | None => Raise AttributeError
                            end)
                         not_updated_assets;
               Ok ("Assets Not Updated:" :: lines)
          else Ok []);
  out3 ← (if nonempty skipped_assets
          then lines ← for_each skipped_entry (map snd skipped_assets);
               Ok ("Skipped Assets: (Already same version as the bom)" :: lines)
          else Ok []);
  let out := out1 ++ out2 ++ out3 in
  if checking_only && (0 <? length assets_to_update)%nat then Ok (out, Exits 1)
  else if negb checking_only && (0 <? length not_updated_assets)%nat
       then Ok (out, Exits 1)
       else Ok (out, Returns).

End Report.

(** The dictionary [assets_to_update] of [process_assets] as a reader of
    the objects sees it. *)
Definition selected_assets (st : process_state) : Dict.t (option string) Asset :=
  map (fun kv => (fst kv, heap_get (proc_heap st) (snd kv))) (assets_to_update st).

(** * Properties of the further procedures *)

(** ** Filtering *)

Lemma filter_keeps_spec matcher a :
  filter_keeps matcher a = true
  <-> exists s, artifact_or_name a = Some s /\ s <> EmptyString /\ matcher s = true.
Proof.
  unfold filter_keeps. destruct (artifact_or_name a) as [s|].
  - rewrite andb_true_iff. split.
    + intros [Ht Hm]. exists s. repeat split; auto. intros ->. discriminate.
    + intros (s' & Heq & Hne & Hm). inversion Heq; subst s'. split; [|exact Hm].
      destruct s; [contradiction|reflexivity].
  - split; [discriminate|]. intros (s & Heq & _). discriminate.
Qed.

Lemma filter_keeps_sublist matcher (l : list Asset) :
  sublist (List.filter (filter_keeps matcher) l) l.
Proof.
  induction l as [|a l IH]; simpl; [constructor|].
  destruct (filter_keeps matcher a); [apply sublist_skip|apply sublist_cons]; exact IH.
Qed.

(** X7. [filter_assets] only removes records and keeps the order of the
    others; a record stays exactly when its coordinate, or its name when
    the coordinate is absent or empty, is a non-empty text the matcher
    accepts (so a record with neither is dropped whatever the matcher);
    filtering twice is filtering once; source, source type and
    environment are untouched. *)
Theorem filter_assets_narrows (matcher : string -> bool) (g : AssetGroup) :
  sublist (assets (filter_assets matcher g)) (assets g)
  /\ (forall a, a ∈ assets (filter_assets matcher g) <->
                a ∈ assets g
                /\ exists s, artifact_or_name a = Some s /\ s <> EmptyString
                             /\ matcher s = true)
  /\ filter_assets matcher (filter_assets matcher g) = filter_assets matcher g
  /\ source_type (filter_assets matcher g) = source_type g
  /\ source (filter_assets matcher g) = source g
  /\ env (filter_assets matcher g) = env g.
Proof.
  unfold filter_assets. cbn [assets source_type source env].
  split; [|split; [|split]].
  - apply filter_keeps_sublist.
  - intros a. rewrite list_elem_of_In, filter_In, <- list_elem_of_In, filter_keeps_spec.
    reflexivity.
  - f_equal. induction (assets g) as [|a l IH]; simpl; [reflexivity|].
    destruct (filter_keeps matcher a) eqn:E; simpl; [rewrite E; f_equal|]; exact IH.
  - auto.
Qed.

(** X8. Filtering both groups can only remove replacements: every tuple
    of the replacement set of the filtered groups is a tuple of the
    replacement set of the groups as they were, and the filtered
    manifest group can still be diffed. *)
Theorem filter_assets_replacements (matcher : string -> bool) (A B : AssetGroup) :
  match make_replacement_set A B with
  | Raise e =>
      make_replacement_set (filter_assets matcher A) (filter_assets matcher B) = Raise e
  | Ok rs =>
      exists rs',
        make_replacement_set (filter_assets matcher A) (filter_assets matcher B) = Ok rs'
        /\ (forall t, t ∈ rs' -> t ∈ rs)
        /\ length rs' <= length rs
  end.
Proof.
  unfold make_replacement_set. cbn [source_type assets filter_assets].
  destruct (negb (String.eqb (source_type A) "FILE")); [reflexivity|].
  eexists. split; [reflexivity|]. split.
  - intros t Ht. apply replacement_pairs in Ht as (a & b & Ha & Hb & HR & ->).
    apply replacement_pairs. exists a, b.
    apply list_elem_of_In, filter_In in Ha as [Ha _].
    apply list_elem_of_In, filter_In in Hb as [Hb _].
    rewrite !list_elem_of_In. auto.
  - rewrite !comprehension_pairs, !length_map.
    generalize (fun p : Asset * Asset =>
                  opt_eqb (artifact (fst p)) (artifact (snd p))
                  && negb (opt_eqb (sha1 (fst p)) (sha1 (snd p)))
                  && negb (none_in (sha1 (fst p)) (sha1 (snd p)))) as f.
    intros f. generalize (assets B) as lb. induction (assets A) as [|a la IH]; intros lb.
    + simpl. lia.
    + cbn [List.filter]. destruct (filter_keeps matcher a).
      * cbn [list_prod]. rewrite !List.filter_app, !length_app.
        specialize (IH lb).
        assert (length (List.filter f (map (fun y => (a, y)) (List.filter (filter_keeps matcher) lb)))
                <= length (List.filter f (map (fun y => (a, y)) lb))).
        { clear. induction lb as [|b lb IH]; simpl; [lia|].
          destruct (filter_keeps matcher b); simpl; destruct (f (a, b)); simpl; lia. }
        lia.
      * cbn [list_prod]. rewrite List.filter_app, length_app. specialize (IH lb). lia.
Qed.

Lemma bind_length_sublist {X Y : Type} (f : X -> list Y) (l1 l2 : list X) :
  sublist l1 l2 -> length (l1 ≫= f) <= length (l2 ≫= f).
Proof.
  induction 1 as [|x l1 l2 _ IH|x l1 l2 _ IH]; cbn [mbind list_bind];
    rewrite ?length_app; simpl; lia.
Qed.

Lemma bind_length_pointwise {X Y : Type} (f f' : X -> list Y) (l : list X) :
  (forall x, length (f x) <= length (f' x)) -> length (l ≫= f) <= length (l ≫= f').
Proof.
  intros H. induction l as [|x l IH]; cbn [mbind list_bind]; [simpl; lia|].
  rewrite !length_app. specialize (H x). lia.
Qed.

(** X9. Narrowing a group never adds validation issues: the count
    [print_validation_summary] returns for the filtered group is at most
    the count for the group as it was. *)
Theorem filter_assets_validation (matcher : string -> bool) (g : AssetGroup) :
  snd (print_validation_summary (filter_assets matcher g))
  <= snd (print_validation_summary g).
Proof.
  pose proof (filter_keeps_sublist matcher (assets g)) as Hsub.
  change (List.filter (filter_keeps matcher) (assets g))
    with (assets (filter_assets matcher g)) in Hsub.
  unfold print_validation_summary, assets_missing_shas, assets_with_duplicate_shas.
  cbn [snd]. remember (assets (filter_assets matcher g)) as l1.
  remember (assets g) as l2. clear Heql1 Heql2.
  pose proof (bind_length_sublist
                (fun a => if opt_eqb (sha1 a) None then [name a] else []) l1 l2 Hsub).
  assert (length (asset ← l1; other ← l1;
                  if negb (opt_eqb (artifact asset) (artifact other))
                     && opt_eqb (sha1 asset) (sha1 other)
                  then [(name asset, name other, sha1 asset)] else [])
          <= length (asset ← l2; other ← l2;
                     if negb (opt_eqb (artifact asset) (artifact other))
                        && opt_eqb (sha1 asset) (sha1 other)
                     then [(name asset, name other, sha1 asset)] else [])).
  { etransitivity.
    - apply bind_length_pointwise. intros asset.
      apply (bind_length_sublist _ l1 l2 Hsub).
    - apply (bind_length_sublist _ l1 l2 Hsub). }
  lia.
Qed.

(** ** Snapshot check *)

Lemma prefix_lower p s :
  String.prefix p s = true -> String.prefix (PyText.lower p) (PyText.lower s) = true.
Proof.
  revert p. induction s as [|c s IH]; intros [|d p]; simpl; auto; try discriminate.
  destruct (ascii_dec d c) as [->|]; [|discriminate]. intros H.
  destruct (ascii_dec (PyText.lower_char c) (PyText.lower_char c)); [|contradiction].
  apply IH, H.
Qed.

(** Lowering the case keeps occurrences. *)
Lemma occurs_lower p s :
  PyStr.occurs p s = true -> PyStr.occurs (PyText.lower p) (PyText.lower s) = true.
Proof.
  induction s as [|c s IH]; simpl.
  - intros H. apply (prefix_lower p EmptyString H).
  - intros H. apply orb_true_iff in H as [H|H]; apply orb_true_iff.
    + left. apply (prefix_lower p (String c s) H).
    + right. apply IH, H.
Qed.

(** The coordinates [check_for_snapshot_assets] counts. *)
Definition snapshot_coordinates (l : list Asset) : list string :=
  a ← l; match artifact a with
         | Some art => if PyStr.occurs "-snapshot" (PyText.lower art) then [art] else []
         | None => []
         end.

Lemma snapshot_coordinates_cons a l :
  snapshot_coordinates (a :: l)
  = match artifact a with
    | Some art => if PyStr.occurs "-snapshot" (PyText.lower art) then [art] else []
    | None => []
    end ++ snapshot_coordinates l.
Proof. reflexivity. Qed.

Lemma snapshot_loop_spec l printed n :
  match snapshot_loop printed n l with
  | Raise e => e = AttributeError /\ exists a, a ∈ l /\ artifact a = None
  | Ok (printed', n') =>
      (forall a, a ∈ l -> artifact a <> None)
      /\ printed' = printed ++ snapshot_coordinates l
      /\ n' = n + length (snapshot_coordinates l)
  end.
Proof.
  revert printed n. induction l as [|a l IH]; intros printed n.
  - cbn [snapshot_loop]. split; [intros a Ha; inversion Ha|].
    change (snapshot_coordinates []) with (@nil string).
    rewrite app_nil_r. split; [reflexivity|simpl; lia].
  - cbn [snapshot_loop]. rewrite snapshot_coordinates_cons.
    destruct (artifact a) as [art|] eqn:Hart.
    + destruct (PyStr.occurs "-snapshot" (PyText.lower art)).
      * specialize (IH (printed ++ [art]) (S n)).
        destruct (snapshot_loop (printed ++ [art]) (S n) l) as [[p' n']|e].
        -- destruct IH as (Hall & -> & ->). split.
           ++ intros b Hb. apply elem_of_cons in Hb as [->|Hb]; [congruence|auto].
           ++ rewrite <- app_assoc. split; [reflexivity|].
              rewrite length_app. simpl. lia.
        -- destruct IH as (-> & b & Hb & Hnone). split; [reflexivity|].
           exists b. split; [apply elem_of_cons; right; exact Hb|exact Hnone].
      * specialize (IH printed n).
        destruct (snapshot_loop printed n l) as [[p' n']|e].
        -- destruct IH as (Hall & -> & ->). split.
           ++ intros b Hb. apply elem_of_cons in Hb as [->|Hb]; [congruence|auto].
           ++ split; reflexivity.
        -- destruct IH as (-> & b & Hb & Hnone). split; [reflexivity|].
           exists b. split; [apply elem_of_cons; right; exact Hb|exact Hnone].
    + split; [reflexivity|]. exists a. split; [apply elem_of_cons; left; reflexivity|].
      exact Hart.
Qed.

(** X10. [check_for_snapshot_assets] raises, and then [AttributeError],
    exactly when some asset has no coordinate. Otherwise the number it
    returns is the number of coordinates it printed, is at most the
    number of assets, and counts every coordinate that contains
    [-SNAPSHOT] written in any mix of upper and lower case as that of
    [-snapshot]. *)
Theorem check_for_snapshot_assets_counts (groups : list AssetGroup) :
  match check_for_snapshot_assets groups with
  | Raise e =>
      e = AttributeError
      /\ exists a, a ∈ all_assets_flattened groups /\ artifact a = None
  | Ok (printed, n) =>
      (forall a, a ∈ all_assets_flattened groups -> artifact a <> None)
      /\ n = length printed
      /\ n <= length (all_assets_flattened groups)
      /\ (forall a art marker,
            a ∈ all_assets_flattened groups -> artifact a = Some art ->
            PyText.lower marker = "-snapshot" -> PyStr.occurs marker art = true ->
            art ∈ printed)
  end.
Proof.
  assert (Hflat : all_assets_flattened groups = (g ← groups; assets g)).
  { unfold all_assets_flattened. cbv zeta.
    induction groups as [|g groups IH]; [reflexivity|].
    cbn [map mbind list_bind]. rewrite IH. f_equal.
    induction (assets g) as [|a l IHl]; [reflexivity|].
    cbn [mbind list_bind]. simpl. f_equal. exact IHl. }
  rewrite Hflat. unfold check_for_snapshot_assets.
  pose proof (snapshot_loop_spec (g ← groups; assets g) [] 0) as H.
  destruct (snapshot_loop [] 0 (g ← groups; assets g)) as [[printed n]|e]; [|exact H].
  destruct H as (Hall & -> & ->). simpl. split; [exact Hall|]. split; [reflexivity|].
  split.
  - unfold snapshot_coordinates. generalize (g ← groups; assets g) as l.
    induction l as [|a l IH]; cbn [mbind list_bind]; [simpl; lia|].
    rewrite length_app. destruct (artifact a) as [art|]; simpl;
      [destruct (PyStr.occurs _ _); simpl|]; lia.
  - intros a art marker Ha Hart Hm Hocc. unfold snapshot_coordinates.
    apply list_elem_of_bind. exists a. split; [|exact Ha]. rewrite Hart.
    apply occurs_lower in Hocc. rewrite Hm in Hocc. rewrite Hocc.
    apply list_elem_of_singleton. reflexivity.
Qed.

(** ** Groups built from a repository *)

Section RepositoryFacts.

Variables (tempdir pid : string) (download_file : list string -> option captured).

(** What a call of [asset_from_repo] leaves in the store: nothing, or one
    more object at the end, the input with some digest. *)
Lemma asset_from_repo_shape (h : heap) (asset : nat) (repo_name : option string)
    (r : result nat) (h' : heap) :
  asset_from_repo tempdir pid download_file h asset repo_name = (r, h') ->
  match r with
  | Ok new => new = length h
              /\ exists sha, h' = h ++ [Asset_setitem "sha1" sha (heap_get h asset)]
  | Raise _ => h' = h \/ h' = h ++ [heap_get h asset]
  end.
Proof.
  unfold asset_from_repo.
  destruct (artifact (heap_get h asset)) as [art|]; [|intros [= <- <-]; left; reflexivity].
  destruct (PyStr.split ":" art) as [|vendor [|nm [|version [|x rest]]]];
    try (intros [= <- <-]; left; reflexivity).
  unfold heap_copy, heap_alloc. rewrite Asset_copy_eq.
  set (a := heap_get h asset).
  assert (Hsame : Asset_setitem "sha1" (sha1 a) a = a) by (destruct a; reflexivity).
  match goal with |- context [download_file ?c] => destruct (download_file c) as [output|] end.
  - destruct (output_lines output) as [lines|e]; cbn [mbind result_bind].
    + destruct (received_sha None lines) as [new_sha|e].
      * destruct (PyStr.truthy new_sha); intros [= <- <-]; (split; [reflexivity|]).
        -- exists new_sha. apply heap_setattr_last.
        -- exists (sha1 a). rewrite Hsame. reflexivity.
      * intros [= <- <-]. right. reflexivity.
    + intros [= <- <-]. right. reflexivity.
  - intros [= <- <-]. split; [reflexivity|]. exists (sha1 a). rewrite Hsame. reflexivity.
Qed.

Lemma heap_get_app_old (h t : heap) i : i < length h -> heap_get (h ++ t) i = heap_get h i.
Proof.
  intros Hi. unfold heap_get. rewrite !nth_lookup, lookup_app_l by exact Hi. reflexivity.
Qed.

(** The new object of a reference: the input with some digest. *)
Definition looked_up (h : heap) (asset : nat) (new : Asset) : Prop :=
  exists sha, new = Asset_setitem "sha1" sha (heap_get h asset).

Lemma repository_loop_spec (h0 : heap) (repo_name : option string) :
  forall reference_assets t acc r h',
    Forall (fun asset => asset < length h0) reference_assets ->
    repository_loop tempdir pid download_file (h0 ++ t) repo_name reference_assets acc
    = (r, h') ->
    exists t', h' = h0 ++ t ++ t'
      /\ length t' <= length reference_assets
      /\ forall l, r = Ok l ->
           l = acc ++ seq (length h0 + length t) (length t')
           /\ Forall2 (looked_up h0) reference_assets t'.
Proof.
  induction reference_assets as [|asset rest IH]; intros t acc r h' Hlive Hrun.
  - cbn [repository_loop] in Hrun. injection Hrun as <- <-. exists [].
    rewrite !app_nil_r. split; [reflexivity|]. split; [simpl; lia|].
    intros l [= <-]. simpl. split; [reflexivity|constructor].
  - cbn [repository_loop] in Hrun. inversion Hlive as [|? ? Hasset Hrest]; subst.
    destruct (asset_from_repo tempdir pid download_file (h0 ++ t) asset repo_name)
      as [[new|e] h1] eqn:Hcall; apply asset_from_repo_shape in Hcall.
    + destruct Hcall as (-> & sha & ->).
      rewrite heap_get_app_old in Hrun by exact Hasset.
      rewrite <- app_assoc in Hrun.
      destruct (IH _ _ _ _ Hrest Hrun) as (t' & -> & Hlen & Hok).
      exists (Asset_setitem "sha1" sha (heap_get h0 asset) :: t').
      split; [rewrite <- !app_assoc; reflexivity|]. split; [simpl; lia|].
      intros l Hl. destruct (Hok l Hl) as (-> & Hall). split.
      * rewrite <- app_assoc, !length_app. cbn [length seq app].
        repeat f_equal; lia.
      * constructor; [exists sha; reflexivity|exact Hall].
    + injection Hrun as <- <-. destruct Hcall as [->| ->].
      * exists []. rewrite !app_nil_r. split; [reflexivity|]. split; [simpl; lia|].
        discriminate.
      * exists [heap_get (h0 ++ t) asset]. rewrite <- app_assoc.
        split; [reflexivity|]. split; [simpl; lia|]. discriminate.
Qed.

Lemma repository_run_spec (h : heap) (resolved : option string) (repo_name : string)
    (reference_assets : list nat) (r : result RefGroup) (h' : heap) :
  Forall (fun asset => asset < length h) reference_assets ->
  match repository_loop tempdir pid download_file h resolved reference_assets [] with
  | (Ok assets, h1) => (Ok (mkRefGroup "REPO" repo_name assets), h1)
  | (Raise e, h1) => (Raise e, h1)
  end = (r, h') ->
  (forall i, i < length h -> heap_get h' i = heap_get h i)
  /\ forall g, r = Ok g ->
       ref_source_type g = "REPO" /\ ref_source g = repo_name
       /\ ref_assets g = seq (length h) (length reference_assets)
       /\ length h' = length h + length reference_assets
       /\ forall k asset, reference_assets !! k = Some asset ->
            exists sha, heap_get h' (length h + k)
                        = Asset_setitem "sha1" sha (heap_get h asset).
Proof.
  intros Hlive Hrun.
  destruct (repository_loop tempdir pid download_file h resolved reference_assets [])
    as [res h1] eqn:Hloop.
  pose proof (repository_loop_spec h resolved reference_assets [] [] res h1 Hlive) as Hspec.
  rewrite app_nil_r in Hspec. destruct (Hspec Hloop) as (t' & Ht' & Hlen & Hok).
  clear Hspec. simpl in Ht'. subst h1. split.
  - destruct res; injection Hrun as <- <-; intros i Hi; apply heap_get_app_old, Hi.
  - destruct res as [l|e]; [|injection Hrun as <- <-; discriminate].
    injection Hrun as <- <-. intros g [= <-].
    destruct (Hok l eq_refl) as (-> & Hall).
    pose proof (Forall2_length _ _ _ Hall) as Hlen2.
    cbn [ref_source_type ref_source ref_assets app length].
    rewrite Nat.add_0_r, length_app, <- Hlen2.
    do 4 (split; [reflexivity|]).
    intros k asset Hk.
    destruct (Forall2_lookup_l _ _ _ _ _ Hall Hk) as (new & Hnew & sha & ->).
    exists sha. unfold heap_get at 1.
    apply nth_lookup_Some. rewrite lookup_app_r by lia.
    replace (length h + k - length h) with k by lia. exact Hnew.
Qed.

(** X11. [assets_from_repository] on references to objects of the
    store: no existing object is changed, also when the call raises; a
    name that neither ends with a colon nor is in [known_repos] raises
    [ValueError] before anything is looked up; and when the call returns,
    the group is REPO-sourced, keeps the repository name as it was
    given, and holds one new object per reference asset, in order, each
    equal to its reference asset except possibly for [sha1]. *)
Theorem assets_from_repository_returns (h : heap) (repo_name : string)
    (reference_assets : list nat) (r : result RefGroup) (h' : heap) :
  Forall (fun asset => asset < length h) reference_assets ->
  assets_from_repository tempdir pid download_file h repo_name reference_assets
  = (r, h') ->
  (forall i, i < length h -> heap_get h' i = heap_get h i)
  /\ (PyText.endswith repo_name ":" = false ->
      Dict.get repo_name known_repos = None ->
      r = Raise ValueError /\ h' = h)
  /\ forall g, r = Ok g ->
       ref_source_type g = "REPO" /\ ref_source g = repo_name
       /\ ref_assets g = seq (length h) (length reference_assets)
       /\ length h' = length h + length reference_assets
       /\ forall k asset, reference_assets !! k = Some asset ->
            exists sha, heap_get h' (length h + k)
                        = Asset_setitem "sha1" sha (heap_get h asset).
Proof.
  intros Hlive Hrun. unfold assets_from_repository in Hrun. cbv zeta in Hrun.
  destruct (PyText.endswith repo_name ":") eqn:Hends;
    [|destruct (Dict.get repo_name known_repos) as [known|] eqn:Hknown].
  - destruct (repository_run_spec _ _ _ _ _ _ Hlive Hrun) as [Hframe Hok].
    split; [exact Hframe|]. split; [discriminate|exact Hok].
  - destruct (repository_run_spec _ _ _ _ _ _ Hlive Hrun) as [Hframe Hok].
    split; [exact Hframe|]. split; [discriminate|exact Hok].
  - injection Hrun as <- <-. split; [reflexivity|]. split; [auto|discriminate].
Qed.

(** The reference assets [assets_from_default_repository] looks up. *)
Definition names_repository (h : heap) (asset : nat) : bool :=
  PyStr.truthy (repository (heap_get h asset)).

Lemma default_repository_loop_spec (h0 : heap) :
  forall reference_assets t acc r h',
    Forall (fun asset => asset < length h0) reference_assets ->
    default_repository_loop tempdir pid download_file (h0 ++ t) reference_assets acc
    = (r, h') ->
    exists t', h' = h0 ++ t ++ t'
      /\ forall l, r = Ok l ->
           l = acc ++ seq (length h0 + length t) (length t')
           /\ Forall2 (looked_up h0)
                (List.filter (names_repository h0) reference_assets) t'.
Proof.
  induction reference_assets as [|asset rest IH]; intros t acc r h' Hlive Hrun.
  - cbn [default_repository_loop] in Hrun. injection Hrun as <- <-. exists [].
    rewrite !app_nil_r. split; [reflexivity|].
    intros l [= <-]. simpl. split; [reflexivity|constructor].
  - cbn [default_repository_loop] in Hrun. inversion Hlive as [|? ? Hasset Hrest]; subst.
    rewrite heap_get_app_old in Hrun by exact Hasset.
    cbn [List.filter]. unfold names_repository at 1.
    destruct (PyStr.truthy (repository (heap_get h0 asset))); cbn [negb] in Hrun.
    2:{ apply (IH _ _ _ _ Hrest Hrun). }
    destruct (asset_from_repo tempdir pid download_file (h0 ++ t) asset
                (repository (heap_get h0 asset)))
      as [[new|e] h1] eqn:Hcall; apply asset_from_repo_shape in Hcall.
    + destruct Hcall as (-> & sha & ->).
      rewrite heap_get_app_old in Hrun by exact Hasset.
      rewrite <- app_assoc in Hrun.
      destruct (IH _ _ _ _ Hrest Hrun) as (t' & -> & Hok).
      exists (Asset_setitem "sha1" sha (heap_get h0 asset) :: t').
      split; [rewrite <- !app_assoc; reflexivity|].
      intros l Hl. destruct (Hok l Hl) as (-> & Hall). split.
      * rewrite <- app_assoc, !length_app. cbn [length seq app].
        repeat f_equal; lia.
      * constructor; [exists sha; reflexivity|exact Hall].
    + injection Hrun as <- <-. destruct Hcall as [->| ->].
      * exists []. rewrite !app_nil_r. split; [reflexivity|]. discriminate.
      * exists [heap_get (h0 ++ t) asset]. rewrite <- app_assoc.
        split; [reflexivity|]. discriminate.
Qed.

(** X12. [assets_from_default_repository] on references to objects of
    the store: no existing object is changed, also when the call
    raises; when it returns, the group is REPO-sourced and holds one new
    object for each reference asset that names a repository, in order,
    equal to that asset except possibly for [sha1]; a reference asset
    whose repository is absent or empty gets none, so every asset of the
    group names a repository. *)
Theorem assets_from_default_repository_returns (h : heap)
    (reference_assets : list nat) (r : result RefGroup) (h' : heap) :
  Forall (fun asset => asset < length h) reference_assets ->
  assets_from_default_repository tempdir pid download_file h reference_assets
  = (r, h') ->
  (forall i, i < length h -> heap_get h' i = heap_get h i)
  /\ forall g, r = Ok g ->
       let looked := List.filter (names_repository h) reference_assets in
       ref_source_type g = "REPO" /\ ref_source g = "(Repository from Asset)"
       /\ ref_assets g = seq (length h) (length looked)
       /\ length h' = length h + length looked
       /\ (forall k asset, looked !! k = Some asset ->
             exists sha, heap_get h' (length h + k)
                         = Asset_setitem "sha1" sha (heap_get h asset))
       /\ forall a, a ∈ assets (group_value h' g) ->
             PyStr.truthy (repository a) = true.
Proof.
  intros Hlive Hrun. unfold assets_from_default_repository in Hrun.
  destruct (default_repository_loop tempdir pid download_file h reference_assets [])
    as [res h1] eqn:Hloop.
  pose proof (default_repository_loop_spec h reference_assets [] [] res h1 Hlive) as Hspec.
  rewrite app_nil_r in Hspec. destruct (Hspec Hloop) as (t' & Ht' & Hok).
  clear Hspec. simpl in Ht'. subst h1. split.
  - destruct res; injection Hrun as <- <-; intros i Hi; apply heap_get_app_old, Hi.
  - destruct res as [l|e]; [|injection Hrun as <- <-; discriminate].
    injection Hrun as <- <-. intros g [= <-]. cbv zeta.
    destruct (Hok l eq_refl) as (-> & Hall).
    pose proof (Forall2_length _ _ _ Hall) as Hlen2.
    cbn [ref_source_type ref_source ref_assets app length group_value assets].
    rewrite Nat.add_0_r, length_app, <- Hlen2.
    do 4 (split; [reflexivity|]).
    assert (Hnew : forall k asset,
               List.filter (names_repository h) reference_assets !! k = Some asset ->
               exists sha, heap_get (h ++ t') (length h + k)
                           = Asset_setitem "sha1" sha (heap_get h asset)).
    { intros k asset Hk.
      destruct (Forall2_lookup_l _ _ _ _ _ Hall Hk) as (new & Hnew & sha & ->).
      exists sha. unfold heap_get at 1.
      apply nth_lookup_Some. rewrite lookup_app_r by lia.
      replace (length h + k - length h) with k by lia. exact Hnew. }
    split; [exact Hnew|].
    intros a Ha. apply list_elem_of_fmap in Ha as (i & -> & Hi).
    apply list_elem_of_In, in_seq in Hi.
    destruct (lookup_lt_is_Some_2 (List.filter (names_repository h) reference_assets)
                (i - length h)) as [asset Hk]; [lia|].
    destruct (Hnew _ _ Hk) as (sha & Heq).
    replace (length h + (i - length h)) with i in Heq by lia. rewrite Heq.
    apply list_elem_of_lookup_2, list_elem_of_In, filter_In in Hk as [_ Hk].
    exact Hk.
Qed.

End RepositoryFacts.

Lemma assets_from_repository_returns_witness :
  length [scenario_asset; Asset_setitem "sha1" (Some "abcdef") scenario_asset]
  = length [scenario_asset] + length [0].
Proof.
  assert (Hlive : Forall (fun asset => asset < length [scenario_asset]) [0])
    by (repeat constructor).
  destruct (assets_from_repository_returns "/tmp" "42" reporting_download
              [scenario_asset] "WANDISCO_ASSETS" [0] _ _ Hlive eq_refl)
    as (_ & _ & Hok).
  destruct (Hok _ eq_refl) as (_ & _ & _ & Hlen & _). exact Hlen.
Defined.

(** A reference asset that names no repository. *)
Definition unplaced_asset : Asset :=
  mkAsset (Some "other") (Some "com.x:other:2.0") None (Some "bbb") None None.

Lemma assets_from_default_repository_returns_witness :
  ref_assets (mkRefGroup "REPO" "(Repository from Asset)" [2]) = seq 2 1.
Proof.
  assert (Hlive : Forall (fun asset => asset < length [unplaced_asset; scenario_asset])
                    [0; 1])
    by (repeat constructor).
  destruct (assets_from_default_repository_returns "/tmp" "42" reporting_download
              [unplaced_asset; scenario_asset] [0; 1] _ _ Hlive eq_refl)
    as (_ & Hok).
  destruct (Hok _ eq_refl) as (_ & _ & Hassets & _). exact Hassets.
Defined.

(** ** The version properties of the jgit manifest *)

Lemma check_and_update_version_flag line b p v :
  let '(b', line') := check_and_update_version line b p v in
  (b = true -> b' = true) /\ (b' = false -> line' = line).
Proof.
  unfold check_and_update_version. cbv zeta.
  destruct (negb _); split; auto; discriminate.
Qed.

Lemma jgit_line_spec v p b line :
  let '(b', line') := jgit_line v p b line in
  (b = true -> b' = true) /\ (b' = false -> line' = line)
  /\ (PyStr.startswith line vanilla_property_name = false ->
      PyStr.startswith line postfix_property_name = false -> line' = line).
Proof.
  unfold jgit_line.
  destruct (PyStr.startswith line vanilla_property_name).
  - pose proof (check_and_update_version_flag line b vanilla_property_name v) as H.
    destruct (check_and_update_version line b vanilla_property_name v) as [b' line'].
    destruct H as [H1 H2]. repeat split; auto; discriminate.
  - destruct (PyStr.startswith line postfix_property_name).
    + pose proof (check_and_update_version_flag line b postfix_property_name p) as H.
      destruct (check_and_update_version line b postfix_property_name p) as [b' line'].
      destruct H as [H1 H2]. repeat split; auto; discriminate.
    + repeat split; auto.
Qed.

Lemma jgit_lines_spec v p data : forall b,
  let '(b', data') := jgit_lines v p b data in
  length data' = length data
  /\ (b = true -> b' = true)
  /\ (b' = false -> data' = data)
  /\ (forall i line, data !! i = Some line ->
        PyStr.startswith line vanilla_property_name = false ->
        PyStr.startswith line postfix_property_name = false ->
        data' !! i = Some line).
Proof.
  induction data as [|line rest IH]; intros b; cbn [jgit_lines].
  - repeat split; auto.
  - pose proof (jgit_line_spec v p b line) as Hline.
    destruct (jgit_line v p b line) as [b1 line1].
    specialize (IH b1). destruct (jgit_lines v p b1 rest) as [b2 rest'].
    destruct Hline as (Hm1 & Hs1 & Hk1). destruct IH as (Hlen & Hm2 & Hs2 & Hk2).
    split; [simpl; lia|]. split; [auto|]. split.
    + intros Hb2. assert (Hb1 : b1 = false).
      { destruct b1; [|reflexivity]. rewrite Hm2 in Hb2 by reflexivity. discriminate. }
      rewrite Hs1, Hs2 by assumption. reflexivity.
    + intros [|i] ln Hi Hv Hp; simpl in Hi |- *.
      * injection Hi as ->. rewrite Hk1 by assumption. reflexivity.
      * apply (Hk2 i ln Hi Hv Hp).
Qed.

(** X13. [update_jgit_bazel_file]: without a jgit entry, or with one
    whose coordinate is absent or empty, it returns [None] and does not
    even open the file. It raises [IndexError] for a coordinate with
    fewer than three parts, and otherwise [FileNotFoundError] for a file
    that is not there or [UnicodeDecodeError] for one that does not
    decode, and nothing else. Otherwise the file decodes, and the loop
    runs over the lines of the text read, with the two versions cut from
    the third part of the coordinate: it leaves a list with one entry
    for each line read, in which every line that starts with neither
    property name is as it was read. If no line was changed the
    dictionary given is returned and the file is not written; if one
    was, the jgit asset is recorded under [org.eclipse.jgit] and the
    file is written from that list. *)
Theorem update_jgit_bazel_file_returns (fs : FS) (filename : string)
    (assets_to_update updated_assets : Dict.t (option string) Asset) :
  match update_jgit_bazel_file fs filename assets_to_update updated_assets with
  | Ok (fs', None) =>
      fs' = fs
      /\ (Dict.get (Some jgit_artifact_id) assets_to_update = None
          \/ exists jgit_asset,
               Dict.get (Some jgit_artifact_id) assets_to_update = Some jgit_asset
               /\ PyStr.truthy (artifact jgit_asset) = false)
  | Ok (fs', Some updated) =>
      exists jgit_asset art part content,
        Dict.get (Some jgit_artifact_id) assets_to_update = Some jgit_asset
        /\ PyStr.truthy (artifact jgit_asset) = true
        /\ artifact jgit_asset = Some art
        /\ nth_error (PyStr.split ":" art) 2 = Some part
        /\ fs !! filename = Some content
        /\ PyStr.valid_utf8 content = true
        /\ let text := PyStr.universal_newlines content in
           let full_version := PyStr.strip part in
           let '(file_changed, data) :=
             jgit_lines (ReWD.sub_tail full_version) (ReWD.sub_head full_version)
               false (PyStr.readlines text) in
           length data = length (PyStr.readlines text)
           /\ (forall i line,
                 PyStr.readlines text !! i = Some line ->
                 PyStr.startswith line vanilla_property_name = false ->
                 PyStr.startswith line postfix_property_name = false ->
                 data !! i = Some line)
           /\ (if file_changed : bool
               then updated = Dict.set (Some jgit_artifact_id) jgit_asset updated_assets
                    /\ fs' = <[filename := PyStr.writelines data]> fs
               else updated = updated_assets /\ fs' = fs
                    /\ data = PyStr.readlines text)
  | Raise e =>
      exists jgit_asset art,
        Dict.get (Some jgit_artifact_id) assets_to_update = Some jgit_asset
        /\ artifact jgit_asset = Some art /\ art <> EmptyString
        /\ ((e = IndexError /\ length (PyStr.split ":" art) < 3)
            \/ (3 <= length (PyStr.split ":" art)
                /\ e = FileNotFoundError /\ fs !! filename = None)
            \/ (3 <= length (PyStr.split ":" art)
                /\ e = UnicodeDecodeError
                /\ exists content,
                     fs !! filename = Some content
                     /\ PyStr.valid_utf8 content = false))
  end.
Proof.
  unfold update_jgit_bazel_file.
  destruct (Dict.get (Some jgit_artifact_id) assets_to_update) as [jgit_asset|];
    [|split; [reflexivity|left; reflexivity]].
  destruct (PyStr.truthy (artifact jgit_asset)) eqn:Htruthy; cbn [negb].
  2:{ split; [reflexivity|]. right. exists jgit_asset. auto. }
  destruct (artifact jgit_asset) as [art|] eqn:Hart; [|discriminate].
  assert (Hne : art <> EmptyString) by (intros ->; discriminate).
  cbn [PyStr.str]. unfold index.
  destruct (nth_error (PyStr.split ":" art) 2) as [part|] eqn:Hpart;
    cbn [mbind result_bind].
  2:{ exists jgit_asset, art. split; [reflexivity|]. split; [exact Hart|].
      split; [exact Hne|]. left.
      split; [reflexivity|]. apply nth_error_None in Hpart. lia. }
  assert (Hparts : 3 <= length (PyStr.split ":" art)).
  { assert (Hlt : 2 < length (PyStr.split ":" art))
      by (apply nth_error_Some; rewrite Hpart; discriminate).
    lia. }
  destruct (read_file_cases fs filename)
    as [[Hfile ->]|[(content & Hfile & Hvalid & ->)|(content & Hfile & Hvalid & ->)]];
    cbn [mbind result_bind].
  { exists jgit_asset, art. split; [reflexivity|]. split; [exact Hart|].
    split; [exact Hne|]. right. left. auto. }
  { exists jgit_asset, art. split; [reflexivity|]. split; [exact Hart|].
    split; [exact Hne|]. right. right. eauto. }
  cbv zeta.
  pose proof (jgit_lines_spec (ReWD.sub_tail (PyStr.strip part))
                (ReWD.sub_head (PyStr.strip part))
                (PyStr.readlines (PyStr.universal_newlines content)) false)
    as Hspec.
  destruct (jgit_lines _ _ false (PyStr.readlines (PyStr.universal_newlines content)))
    as [changed data] eqn:Hloop.
  destruct Hspec as (Hlen & _ & Hsame & Hkept).
  destruct changed; exists jgit_asset, art, part, content;
    (split; [reflexivity|]); (split; [rewrite Hart; exact Htruthy|]);
    (split; [exact Hart|]); (split; [exact Hpart|]); (split; [exact Hfile|]);
    (split; [exact Hvalid|]); rewrite Hloop;
    (split; [exact Hlen|]); (split; [exact Hkept|]).
  - split; reflexivity.
  - split; [reflexivity|]. split; [reflexivity|]. apply Hsame. reflexivity.
Qed.

Lemma after_last_none c s : Re.has_char c s = false -> ReMore.after_last c s = None.
Proof.
  induction s as [|x s IH]; simpl; [reflexivity|]. intros H.
  apply orb_false_iff in H as [Hx Hs]. rewrite (IH Hs), Hx. reflexivity.
Qed.

Lemma after_last_found c a r :
  Re.has_char c r = false -> ReMore.after_last c (a +:+ String c r) = Some r.
Proof.
  intros Hr. induction a as [|x a IH]; simpl.
  - rewrite (after_last_none c r Hr), Ascii.eqb_refl. reflexivity.
  - rewrite IH. reflexivity.
Qed.

Lemma split_line_end x :
  Re.has_char "010" x = false ->
  PyStr.split "010" (x +:+ PyStr.newline) = [x; EmptyString].
Proof. intros H. unfold PyStr.newline. rewrite split_cons_no_sep by exact H. reflexivity. Qed.

(** X14. The line [check_and_update_version] writes holds the version in
    double quotes, and the comparison keeps them: a line that already
    has exactly the written form for the new version is flagged as
    updated again and written back as it was. *)
Theorem check_and_update_version_quoted (property_name new_version : string)
    (line_updated : bool) :
  Re.has_char "010" property_name = false ->
  Re.has_char "010" new_version = false ->
  Re.has_char "=" new_version = false ->
  let written := property_name +:+ " = " +:+ PyStr.dquote +:+ new_version
                   +:+ PyStr.dquote +:+ PyStr.newline in
  check_and_update_version written line_updated property_name new_version
  = (true, written).
Proof.
  intros Hp Hv He. cbv zeta. unfold check_and_update_version. cbv zeta.
  set (q := PyStr.dquote +:+ new_version +:+ PyStr.dquote).
  assert (Hq : forall c, Re.has_char c new_version = false ->
                         Ascii.eqb "034" c = false -> Re.has_char c q = false).
  { intros c Hc Hd. unfold q. rewrite !has_char_app, Hc.
    change (Re.has_char c PyStr.dquote) with (Ascii.eqb "034" c || false).
    rewrite Hd. reflexivity. }
  assert (Hline : property_name +:+ " = " +:+ PyStr.dquote +:+ new_version
                    +:+ PyStr.dquote +:+ PyStr.newline
                  = (property_name +:+ String " " (String "=" (String " " q)))
                      +:+ PyStr.newline).
  { unfold q. rewrite (append_assoc_str property_name). f_equal.
    change (" = " +:+ PyStr.dquote +:+ new_version +:+ PyStr.dquote +:+ PyStr.newline
            = String " " (String "=" (String " " (String "034"
                ((new_version +:+ PyStr.dquote) +:+ PyStr.newline))))).
    rewrite append_assoc_str. reflexivity. }
  assert (Hsub : ReMore.sub_dotstar_eq
                   (property_name +:+ " = " +:+ PyStr.dquote +:+ new_version
                      +:+ PyStr.dquote +:+ PyStr.newline)
                 = String " " q +:+ PyStr.newline).
  { rewrite Hline. unfold ReMore.sub_dotstar_eq. rewrite split_line_end.
    - cbn [map]. unfold ReMore.drop_through_last.
      change (property_name +:+ String " " (String "=" (String " " q)))
        with (property_name +:+ String " " EmptyString +:+ String "=" (String " " q)).
      rewrite <- (append_assoc_str property_name (String " " EmptyString)
                    (String "=" (String " " q))).
      rewrite after_last_found.
      + reflexivity.
      + change (Re.has_char "=" q = false). apply Hq; [exact He|reflexivity].
    - rewrite has_char_app, Hp. change (Re.has_char "010" q = false).
      apply Hq; [exact Hv|reflexivity]. }
  rewrite Hsub.
  assert (Hstrip : PyStr.strip (String " " q +:+ PyStr.newline) = q).
  { unfold PyStr.strip. rewrite append_cons, lstrip_space by reflexivity.
    unfold q, PyStr.dquote. rewrite !append_cons, append_empty_l.
    rewrite lstrip_fixed by (apply blank_size_ascii; reflexivity).
    rewrite append_assoc_str.
    change (String "034" (new_version +:+ String "034" EmptyString +:+ PyStr.newline))
      with (String "034" new_version +:+ String "034" PyStr.newline).
    rewrite rstrip_keeps by reflexivity. reflexivity. }
  rewrite Hstrip.
  assert (Hne : String.eqb q new_version = false).
  { apply String.eqb_neq. intros Heq. apply (f_equal String.length) in Heq.
    unfold q, PyStr.dquote in Heq. rewrite !append_length in Heq. simpl in Heq. lia. }
  rewrite Hne. reflexivity.
Qed.

Lemma check_and_update_version_quoted_witness :
  check_and_update_version
    ("_POSTFIX_WD" +:+ " = " +:+ PyStr.dquote +:+ "-WD-1" +:+ PyStr.dquote
       +:+ PyStr.newline) false "_POSTFIX_WD" "-WD-1"
  = (true, "_POSTFIX_WD" +:+ " = " +:+ PyStr.dquote +:+ "-WD-1" +:+ PyStr.dquote
             +:+ PyStr.newline).
Proof.
  apply (check_and_update_version_quoted "_POSTFIX_WD" "-WD-1" false); reflexivity.
Defined.

Lemma after_last_sub_none sep s :
  PyStr.occurs sep s = false -> ReWD.after_last_sub sep s = None.
Proof.
  induction s as [|x s IH]; [reflexivity|]. intros H.
  change (String.prefix sep (String x s) || PyStr.occurs sep s = false) in H.
  apply orb_false_iff in H as [Hx Hs].
  change (match ReWD.after_last_sub sep s with
          | Some r => Some r
          | None => if String.prefix sep (String x s)
                    then Some (ReWD.drop (String.length sep) (String x s)) else None
          end = None).
  rewrite (IH Hs), Hx. reflexivity.
Qed.

Lemma prefix_empty s : String.prefix EmptyString s = true.
Proof. destruct s; reflexivity. Qed.

Lemma after_last_sub_found a b :
  PyStr.occurs "-WD" b = false ->
  ReWD.after_last_sub "-WD" (a +:+ "-WD" +:+ b) = Some b.
Proof.
  intros Hb. induction a as [|x a IH].
  - change (ReWD.after_last_sub "-WD" (String "-" (String "W" (String "D" b))) = Some b).
    cbn [ReWD.after_last_sub]. rewrite (after_last_sub_none _ _ Hb).
    destruct b; reflexivity.
  - rewrite append_cons. cbn [ReWD.after_last_sub]. rewrite IH. reflexivity.
Qed.

Lemma before_sub_none sep s :
  PyStr.occurs sep s = false -> PyText.before_sub sep s = s.
Proof.
  induction s as [|x s IH]; [reflexivity|]. intros H.
  change (String.prefix sep (String x s) || PyStr.occurs sep s = false) in H.
  apply orb_false_iff in H as [Hx Hs].
  change ((if String.prefix sep (String x s) then EmptyString
           else String x (PyText.before_sub sep s)) = String x s).
  rewrite Hx, (IH Hs). reflexivity.
Qed.

(** An occurrence of [-WD] that starts in [a] followed by [-WD] ends
    within [a] followed by [-W]. *)
Lemma prefix_marker_early x a b :
  String.prefix "-WD" (String x a +:+ "-W") = false ->
  String.prefix "-WD" (String x a +:+ "-WD" +:+ b) = false.
Proof.
  destruct a as [|y [|z a]]; rewrite ?append_cons, ?append_empty_l;
    change ("-W" : string) with (String "-" (String "W" EmptyString));
    change ("-WD" +:+ b) with (String "-" (String "W" (String "D" b)));
    cbn [String.prefix];
    repeat (destruct (ascii_dec _ _); try reflexivity; try discriminate);
    rewrite ?prefix_empty; try discriminate; try reflexivity.
Qed.

Lemma before_sub_found a b :
  PyStr.occurs "-WD" (a +:+ "-W") = false ->
  PyText.before_sub "-WD" (a +:+ "-WD" +:+ b) = a.
Proof.
  induction a as [|x a IH].
  - intros _. change (PyText.before_sub "-WD" (String "-" (String "W" (String "D" b)))
                      = EmptyString).
    cbn [PyText.before_sub]. destruct b; reflexivity.
  - intros H. rewrite append_cons in H. cbn [PyStr.occurs] in H.
    apply orb_false_iff in H as [Hx Hs].
    rewrite append_cons. cbn [PyText.before_sub].
    rewrite <- append_cons, (prefix_marker_early x a b Hx), (IH Hs). reflexivity.
Qed.

(** X15. The two versions [update_jgit_bazel_file] derives from a
    one-line full version: without a [-WD] marker both the vanilla and
    the postfix version are the full version; with the marker once, the
    vanilla version is the text before it and the postfix version is the
    marker with the text after it, so that the two put together give the
    full version back. *)
Theorem jgit_version_parts (full_version : string) :
  Re.has_char "010" full_version = false ->
  (PyStr.occurs "-WD" full_version = false ->
   ReWD.sub_tail full_version = full_version
   /\ ReWD.sub_head full_version = full_version)
  /\ (forall a b,
        full_version = a +:+ "-WD" +:+ b ->
        PyStr.occurs "-WD" (a +:+ "-W") = false ->
        PyStr.occurs "-WD" b = false ->
        ReWD.sub_tail full_version = a
        /\ ReWD.sub_head full_version = "-WD" +:+ b
        /\ ReWD.sub_tail full_version +:+ ReWD.sub_head full_version = full_version).
Proof.
  intros Hline. unfold ReWD.sub_tail, ReWD.sub_head, ReWD.from_last.
  rewrite (split_no_sep _ _ Hline). cbn [map]. unfold PyStr.join. cbn [String.concat].
  split.
  - intros Hnone. rewrite (before_sub_none _ _ Hnone), (after_last_sub_none _ _ Hnone).
    split; reflexivity.
  - intros a b -> Ha Hb.
    rewrite (before_sub_found a b Ha), (after_last_sub_found a b Hb).
    repeat split; reflexivity.
Qed.

Lemma jgit_version_parts_witness :
  ReWD.sub_tail "5.1.3-r-WD-2.0" = "5.1.3-r"
  /\ ReWD.sub_head "5.1.3-r-WD-2.0" = "-WD-2.0"
  /\ ReWD.sub_tail "5.1.3-r-WD-2.0" +:+ ReWD.sub_head "5.1.3-r-WD-2.0" = "5.1.3-r-WD-2.0".
Proof.
  apply (proj2 (jgit_version_parts "5.1.3-r-WD-2.0" eq_refl) "5.1.3-r" "-2.0");
    reflexivity.
Defined.

(** ** The properties of the bill of materials *)

(** Joining the parts of a split with the separator gives the text
    back. *)
Lemma join_split c s : PyStr.join (String c EmptyString) (PyStr.split c s) = s.
Proof.
  unfold PyStr.join. induction s as [|x s IH]; [reflexivity|].
  cbn [PyStr.split]. destruct (PyStr.split c s) as [|h t] eqn:Hsplit.
  - destruct s; simpl in Hsplit; [discriminate|].
    destruct (Ascii.eqb _ _); [discriminate|]. destruct (PyStr.split c s); discriminate.
  - destruct (Ascii.eqb x c) eqn:Hx.
    + apply Ascii.eqb_eq in Hx. subst x.
      change (String.concat (String c EmptyString) (EmptyString :: h :: t))
        with (String c (String.concat (String c EmptyString) (h :: t))).
      rewrite IH. reflexivity.
    + destruct t as [|h' t].
      * simpl in IH |- *. rewrite IH. reflexivity.
      * change (String.concat (String c EmptyString) (String x h :: h' :: t))
          with (String x (String.concat (String c EmptyString) (h :: h' :: t))).
        rewrite IH. reflexivity.
Qed.

(** The text after the first [c], empty when there is none. *)
Definition rest_after (c : ascii) (s : string) : string :=
  match after c s with Some r => r | None => EmptyString end.

Lemma join_tail_split c s :
  PyStr.join (String c EmptyString) (tl (PyStr.split c s)) = rest_after c s.
Proof.
  rewrite split_before_after. cbn [tl]. unfold rest_after.
  destruct (after c s) as [r|]; [apply join_split|reflexivity].
Qed.

Lemma rstrip_char_end c s :
  PyText.endswith (PyText.rstrip_char c s) (String c EmptyString) = false.
Proof.
  induction s as [|x s IH]; [reflexivity|]. cbn [PyText.rstrip_char].
  destruct (PyText.rstrip_char c s) as [|y r].
  - destruct (Ascii.eqb x c) eqn:Hx; [reflexivity|].
    cbn [PyText.endswith]. cbn [String.eqb]. rewrite Hx. reflexivity.
  - change (PyText.endswith (String x (String y r)) (String c EmptyString))
      with (String.eqb (String x (String y r)) (String c EmptyString)
            || PyText.endswith (String y r) (String c EmptyString)).
    rewrite IH. cbn [String.eqb]. destruct (Ascii.eqb x c); reflexivity.
Qed.

Lemma lstrip_char_start c s :
  PyStr.startswith (PyStr.lstrip_char c s) (String c EmptyString) = false.
Proof.
  induction s as [|x s IH]; [reflexivity|]. cbn [PyStr.lstrip_char].
  destruct (Ascii.eqb x c) eqn:Hx; [exact IH|].
  unfold PyStr.startswith. cbn [String.prefix].
  destruct (ascii_dec c x) as [->|]; [|reflexivity].
  rewrite Ascii.eqb_refl in Hx. discriminate.
Qed.

Lemma rstrip_char_start c s :
  PyStr.startswith s (String c EmptyString) = false ->
  PyStr.startswith (PyText.rstrip_char c s) (String c EmptyString) = false.
Proof.
  destruct s as [|x s]; [reflexivity|]. unfold PyStr.startswith.
  cbn [String.prefix PyText.rstrip_char].
  destruct (ascii_dec c x) as [->|Hne].
  - rewrite prefix_empty. discriminate.
  - intros _. destruct (PyText.rstrip_char c s).
    + destruct (Ascii.eqb x c); [reflexivity|]. cbn [String.prefix].
      destruct (ascii_dec c x); [contradiction|reflexivity].
    + cbn [String.prefix]. destruct (ascii_dec c x); [contradiction|reflexivity].
Qed.

(** What a line of the properties file contributes. *)
Definition bom_entry (line key value : string) : Prop :=
  let l := PyStr.strip line in
  l <> EmptyString /\ PyStr.startswith l "#" = false
  /\ key = PyStr.strip (before "=" l)
  /\ value = PyText.strip_char "034" (PyStr.strip (rest_after "=" l)).

Lemma bom_line_spec matcher properties line :
  exists properties',
    bom_line matcher properties line = Ok properties'
    /\ forall key value,
         Dict.get key properties' = Some value ->
         Dict.get key properties = Some value
         \/ (matcher key = true /\ bom_entry line key value).
Proof.
  unfold bom_line. cbv zeta.
  destruct (PyStr.truthy (Some (PyStr.strip line))) eqn:Htruthy; cbn [andb];
    [|eauto].
  destruct (PyStr.startswith (PyStr.strip line) "#") eqn:Hstart; cbn [negb]; [eauto|].
  rewrite join_tail_split. rewrite split_before_after.
  cbn [index nth_error mbind result_bind].
  destruct (matcher (PyStr.strip (before "=" (PyStr.strip line)))) eqn:Hmatch; [|eauto].
  eexists. split; [reflexivity|]. intros key value Hget.
  apply dict_get_set_cases in Hget as [[-> ->]|Hget]; [|left; exact Hget].
  right. split; [exact Hmatch|]. unfold bom_entry. cbv zeta.
  split; [|auto]. intros Hl. rewrite Hl in Htruthy. discriminate.
Qed.

Lemma bom_lines_spec matcher lines : forall properties,
  exists properties',
    bom_lines matcher properties lines = Ok properties'
    /\ forall key value,
         Dict.get key properties' = Some value ->
         Dict.get key properties = Some value
         \/ (matcher key = true
             /\ exists line, line ∈ lines /\ bom_entry line key value).
Proof.
  induction lines as [|line rest IH]; intros properties; cbn [bom_lines].
  - exists properties. split; [reflexivity|]. auto.
  - destruct (bom_line_spec matcher properties line) as (p1 & -> & H1).
    cbn [mbind result_bind].
    destruct (IH p1) as (p2 & -> & H2). exists p2. split; [reflexivity|].
    intros key value Hget. destruct (H2 key value Hget) as [Hold|(Hm & ln & Hin & He)].
    + destruct (H1 key value Hold) as [Hold'|(Hm & He)]; [left; exact Hold'|].
      right. split; [exact Hm|]. exists line.
      split; [apply elem_of_cons; left; reflexivity|exact He].
    + right. split; [exact Hm|]. exists ln.
      split; [apply elem_of_cons; right; exact Hin|exact He].
Qed.

(** X16. The reading loop of [read_bom_properties] raises exactly when
    the bytes of the file are no UTF-8, and then [UnicodeDecodeError].
    Otherwise every entry of the table it builds comes from a line of
    the text read that is neither blank nor a comment: the key is the
    stripped text before the first equals sign and passes the filter,
    the value is the stripped text after the first equals sign, further
    equals signs included, without the double quotes at its ends. So a
    key has no equals sign and no blank at either end, and a value
    neither starts nor ends with a double quote. *)
Theorem read_properties_table (matcher : string -> bool) (content : string) :
  (PyStr.valid_utf8 content = false
   /\ read_properties matcher content = Raise UnicodeDecodeError)
  \/ (PyStr.valid_utf8 content = true
      /\ exists properties,
           read_properties matcher content = Ok properties
           /\ forall key value,
                Dict.get key properties = Some value ->
                matcher key = true
                /\ (exists line,
                      line ∈ PyStr.readlines (PyStr.universal_newlines content)
                      /\ bom_entry line key value)
                /\ Re.has_char "=" key = false
                /\ PyStr.strip key = key
                /\ PyStr.startswith value PyStr.dquote = false
                /\ PyText.endswith value PyStr.dquote = false).
Proof.
  unfold read_properties, read_text.
  destruct (PyStr.valid_utf8 content); [right|left; auto].
  split; [reflexivity|]. cbn [mbind result_bind].
  destruct (bom_lines_spec matcher (PyStr.readlines (PyStr.universal_newlines content)) [])
    as (properties & -> & H).
  exists properties. split; [reflexivity|]. intros key value Hget.
  destruct (H key value Hget) as [Hnone|(Hm & line & Hin & He)]; [discriminate|].
  split; [exact Hm|]. split; [exists line; auto|].
  destruct He as (_ & _ & -> & ->). split; [|split; [|split]].
  - apply strip_keeps_absent, before_no_sep.
  - apply strip_idempotent.
  - unfold PyText.strip_char. apply rstrip_char_start, lstrip_char_start.
  - apply rstrip_char_end.
Qed.

(** ** Assets from jar files *)

Lemma property_value_no_delim d r : Re.has_char d (property_value d r) = false.
Proof.
  unfold property_value.
  apply remove_char_keeps_absent, remove_char_keeps_absent, strip_keeps_absent,
    before_keeps_absent, before_no_sep.
Qed.

Lemma last_part_no_sep c s : Re.has_char c (PyText.last_part c s) = false.
Proof.
  apply (split_parts_no_sep c s). unfold PyText.last_part.
  assert (Hne : PyStr.split c s <> []).
  { rewrite split_before_after. discriminate. }
  induction (PyStr.split c s) as [|h [|h' t] IH]; [contradiction| |].
  - apply elem_of_cons. left. reflexivity.
  - apply elem_of_cons. right. apply IH. discriminate.
Qed.

(** A manifest value: absent, or free of colons. *)
Definition colon_free (o : option string) : Prop :=
  match o with
  | Some s => Re.has_char ":" s = false
  | None => True
  end.

Lemma manifest_line_colon_free st line st' :
  colon_free (man_vendor st) -> colon_free (man_version st) ->
  manifest_line st line = Ok st' ->
  colon_free (man_vendor st') /\ colon_free (man_version st').
Proof.
  intros Hvendor Hversion. unfold manifest_line.
  destruct (negb (ReMore.match_pair ":" line)); [intros [= <-]; auto|].
  rewrite parse_property_eq. destruct (after ":" line) as [r|]; [|discriminate].
  cbn [mbind result_bind fst snd]. cbv zeta. intros [= <-].
  cbn [man_vendor man_version].
  pose proof (property_value_no_delim ":" r) as Hv.
  split.
  - destruct (String.eqb _ "Implementation-Vendor-Id"); [exact Hv|exact Hvendor].
  - destruct (String.eqb _ "Specification-Version" && _); [exact Hv|].
    destruct (String.eqb _ "Implementation-Version"); [exact Hv|exact Hversion].
Qed.

Lemma manifest_lines_colon_free lines : forall st st',
  colon_free (man_vendor st) -> colon_free (man_version st) ->
  manifest_lines st lines = Ok st' ->
  colon_free (man_vendor st') /\ colon_free (man_version st').
Proof.
  induction lines as [|line rest IH]; intros st st' Hvendor Hversion; cbn [manifest_lines].
  - intros [= <-]. auto.
  - destruct (manifest_line st line) as [st1|e] eqn:Hline; [|discriminate].
    cbn [mbind result_bind]. intros Hrest.
    destruct (manifest_line_colon_free _ _ _ Hvendor Hversion Hline) as [H1 H2].
    apply (IH st1 st' H1 H2 Hrest).
Qed.

Section JarFacts.

Variables (sha1sum : string -> string) (unzip_manifest : string -> option string)
  (walk : string -> list (string * list string * list string)).

(** The asset of a jar without usable manifest: base name and digest. *)
Definition plain_asset (filename : string) : Asset :=
  mkAsset (Some (PyText.last_part "/" filename)) None None
          (Some (sha1sum filename)) None None.

(** The two shapes of the asset [asset_from_jar] returns. *)
Lemma asset_from_jar_shape filename :
  let a := asset_from_jar sha1sum unzip_manifest filename in
  a = plain_asset filename
  \/ exists vendor nm version,
       a = mkAsset (Some nm) (Some (vendor +:+ ":" +:+ nm +:+ ":" +:+ version))
                   None (Some (sha1sum filename)) None None
       /\ vendor <> EmptyString /\ nm <> EmptyString /\ version <> EmptyString
       /\ Re.has_char ":" vendor = false /\ Re.has_char ":" version = false
       /\ nm = PyText.last_part "/" (PyText.before_sub ("-" +:+ version) filename).
Proof.
  cbv zeta. unfold asset_from_jar. fold (plain_asset filename).
  destruct (unzip_manifest filename) as [manifest|]; [|left; reflexivity].
  destruct (manifest_lines (mkManifest None None) (PyStr.split "010" manifest))
    as [st|e] eqn:Hlines; [|left; reflexivity].
  apply manifest_lines_colon_free in Hlines as [Hvendor Hversion]; [|exact I|exact I].
  cbv zeta.
  destruct (man_version st) as [[|c version]|].
  1,3: left; reflexivity.
  change (PyStr.truthy (Some (String c version))) with true. cbv iota.
  cbn [PyStr.str].
  remember (PyText.last_part "/"
              (PyText.before_sub ("-" +:+ String c version) filename)) as nm eqn:Hnm.
  destruct nm as [|n0 nm]; [left; reflexivity|].
  destruct (man_vendor st) as [[|d vendor]|]; try (left; reflexivity).
  right. exists (String d vendor), (String n0 nm), (String c version).
  split; [reflexivity|]. repeat split; try discriminate; auto.
Qed.

(** X17. [asset_from_jar] always gives an asset with the digest of the
    file and without repository, source digest or old version. Either
    it has no coordinate and is named after the file, which is what
    happens when the manifest cannot be read; or its coordinate is
    [vendor:name:version] with three non-empty parts, vendor and version
    free of colons, and its name is the middle part: the base name of
    the text before the first [-version] in the file name. *)
Theorem asset_from_jar_returns (filename : string) :
  let a := asset_from_jar sha1sum unzip_manifest filename in
  sha1 a = Some (sha1sum filename)
  /\ repository a = None /\ src_sha1 a = None /\ old_version a = None
  /\ (unzip_manifest filename = None -> a = plain_asset filename)
  /\ ((artifact a = None /\ name a = Some (PyText.last_part "/" filename))
      \/ exists vendor nm version,
           artifact a = Some (vendor +:+ ":" +:+ nm +:+ ":" +:+ version)
           /\ name a = Some nm
           /\ vendor <> EmptyString /\ nm <> EmptyString /\ version <> EmptyString
           /\ Re.has_char ":" vendor = false /\ Re.has_char ":" version = false
           /\ Re.has_char "/" nm = false
           /\ nm = PyText.last_part "/" (PyText.before_sub ("-" +:+ version) filename)).
Proof.
  cbv zeta. split; [|split; [|split; [|split; [|split]]]].
  1-4: destruct (asset_from_jar_shape filename) as [->|(v & n & ver & -> & _)];
    reflexivity.
  - intros Hnone. unfold asset_from_jar. rewrite Hnone. reflexivity.
  - destruct (asset_from_jar_shape filename)
      as [->|(v & n & ver & -> & Hv & Hn & Hver & Hcv & Hcver & Hnm)].
    + left. split; reflexivity.
    + right. exists v, n, ver. cbn [artifact name].
      repeat split; auto. rewrite Hnm. apply last_part_no_sep.
Qed.

(** X18. The group [assets_from_directory_walk] builds is DIR-sourced
    and has one asset per file the walk finds and the matcher accepts,
    in order; every asset has a name and a digest, so the group has no
    asset missing a digest, and the group cannot be the left side of
    [make_replacement_set]. *)
Theorem assets_from_directory_walk_returns (pathname : string)
    (matcher : string -> bool) :
  let g := assets_from_directory_walk sha1sum unzip_manifest walk pathname matcher in
  source_type g = "DIR" /\ source g = pathname
  /\ length (assets g) = length (file_walk walk pathname matcher)
  /\ (forall i f, file_walk walk pathname matcher !! i = Some f ->
        matcher f = true
        /\ exists a, assets g !! i = Some a
                     /\ sha1 a = Some (sha1sum f) /\ is_Some (name a))
  /\ assets_missing_shas g = []
  /\ forall other, make_replacement_set g other = Raise TypeError.
Proof.
  cbv zeta. unfold assets_from_directory_walk. cbn [source_type source assets].
  split; [reflexivity|]. split; [reflexivity|]. split; [apply length_map|].
  assert (Hsha : forall f, sha1 (asset_from_jar sha1sum unzip_manifest f)
                           = Some (sha1sum f)).
  { intros f. destruct (asset_from_jar_shape f) as [->|(v & n & ver & -> & _)];
      reflexivity. }
  split; [|split].
  - intros i f Hi. split.
    + apply list_elem_of_lookup_2, list_elem_of_In in Hi.
      unfold file_walk in Hi. cbv zeta in Hi. apply filter_In in Hi as [_ Hm]. exact Hm.
    + exists (asset_from_jar sha1sum unzip_manifest f).
      rewrite list_lookup_fmap, Hi. split; [reflexivity|]. split; [apply Hsha|].
      destruct (asset_from_jar_shape f) as [->|(v & n & ver & -> & _)]; eexists;
        reflexivity.
  - unfold assets_missing_shas. cbn [assets].
    induction (file_walk walk pathname matcher) as [|f l IH]; [reflexivity|].
    cbn [map mbind list_bind]. rewrite Hsha. cbn [opt_eqb]. exact IH.
  - intros other. reflexivity.
Qed.

End JarFacts.

(** ** Writing a repository back *)

(** X19. The resolved value of a known repository is written back under
    the name the manifest uses for it: for every entry of [known_repos],
    a [repository] line whose value differs from the asset's resolved
    repository is replaced by the line [repository = NAME,] with the
    entry's name, the asset is not counted as updated by it, and reading
    that line again gives the name, which resolves to the same
    repository. *)
Theorem update_field_repository (oa : attributes) (key : option string)
    (new_asset : Asset) (v original_line var value : string) :
  Dict.get var known_repos = Some value ->
  repository new_asset = Some value ->
  v <> value ->
  let written := "        repository = " +:+ var +:+ "," +:+ PyStr.newline in
  update_field oa key new_asset "repository" v original_line = Ok (written, false)
  /\ parse_property (PyStr.strip written) "=" = Ok ("repository", var)
  /\ known_repo (Some var) = repository new_asset.
Proof.
  intros Hget Hrepo Hne. cbv zeta.
  assert (Hv : opt_eqb (Some v) (Some value) = false)
    by (apply opt_eqb_false; congruence).
  unfold update_field.
  change (Asset_member "repository" new_asset) with (Some (repository new_asset)).
  rewrite Hrepo, Hv.
  change (String.eqb "repository" "sha1") with false. cbv iota.
  cbn [mbind result_bind]. change (String.eqb "repository" "repository") with true.
  cbv iota. unfold known_repo. rewrite Hget.
  unfold known_repos in Hget. cbn [Dict.get] in Hget.
  repeat (destruct (decide _) as [->|_] in Hget;
          [injection Hget as <-; repeat split; reflexivity|]).
  discriminate.
Qed.

Lemma update_field_repository_witness :
  update_field scenario_attributes (name scenario_asset) scenario_asset "repository"
    "WANDISCO_ASSETS" "  repository = WANDISCO_ASSETS,"
  = Ok ("        repository = " +:+ "WANDISCO_ASSETS" +:+ "," +:+ PyStr.newline, false).
Proof.
  apply (update_field_repository scenario_attributes (name scenario_asset)
           scenario_asset "WANDISCO_ASSETS"
           "  repository = WANDISCO_ASSETS," "WANDISCO_ASSETS" "WANDISCO:");
    [reflexivity|reflexivity|discriminate].
Defined.

(** ** Files other than the manifest *)

(** X20. [replace_shas_in_file] names only the source of the left group
    as the file of the commands it runs: as long as a command changes no
    file but the one it names, every other file is as it was when the
    call returns, and the call returns only for a FILE-sourced group. *)
Theorem replace_shas_in_file_frame (run_sed : list string -> FS -> FS) (fs fs' : FS)
    (groupA groupB : AssetGroup) (enable_shas : bool) :
  (forall cmd fs0 path, cmd !! 3 <> Some path -> run_sed cmd fs0 !! path = fs0 !! path) ->
  replace_shas_in_file run_sed fs groupA groupB enable_shas = Ok fs' ->
  source_type groupA = "FILE"
  /\ forall path, path <> source groupA -> fs' !! path = fs !! path.
Proof.
  intros Hsed. unfold replace_shas_in_file.
  destruct (make_replacement_set groupA groupB) as [replacements|e] eqn:Hset;
    [|discriminate].
  cbn [mbind result_bind]. intros [= <-]. split.
  - unfold make_replacement_set in Hset.
    destruct (String.eqb (source_type groupA) "FILE") eqn:Hfile; [|discriminate].
    apply String.eqb_eq, Hfile.
  - intros path Hpath. clear Hset. revert fs.
    induction replacements as [|[[art old] new] rest IH]; intros fs; [reflexivity|].
    cbn [fold_left]. rewrite IH. apply Hsed. cbn. congruence.
Qed.

(** A stand-in for the command: it marks the file it is given. *)
Definition marking_sed (cmd : list string) (fs : FS) : FS :=
  match cmd !! 3 with
  | Some file => <[file := "patched"]> fs
  | None => fs
  end.

Lemma replace_shas_in_file_frame_witness :
  source_type (mkAssetGroup "FILE" "WORKSPACE" [scenario_asset] None) = "FILE"
  /\ forall path, path <> "WORKSPACE" ->
       (<["WORKSPACE" := "patched"]> ({["WORKSPACE" := "text"]} : FS)) !! path
       = ({["WORKSPACE" := "text"]} : FS) !! path.
Proof.
  apply (replace_shas_in_file_frame marking_sed {["WORKSPACE" := "text"]} _
           (mkAssetGroup "FILE" "WORKSPACE" [scenario_asset] None)
           (mkAssetGroup "REPO" "WANDISCO:"
              [Asset_setitem "sha1" (Some "abcdef") scenario_asset] None)
           false).
  - intros cmd fs0 path Hcmd. unfold marking_sed.
    destruct (cmd !! 3) as [file|]; [|reflexivity].
    apply lookup_insert_ne. congruence.
  - reflexivity.
Defined.

(** ** Repositories of a parsed manifest *)

Lemma known_repos_values var value :
  Dict.get var known_repos = Some value -> Dict.get value known_repos = None.
Proof.
  unfold known_repos. cbn [Dict.get]. intros Hget.
  repeat (destruct (decide (var = _)) as [->|_] in Hget;
          [injection Hget as <-; reflexivity|]).
  discriminate.
Qed.

(** X21. In a parsed manifest no asset is left with the name of a known
    repository: a repository given by one of the names of [known_repos]
    has been replaced by the prefix the table gives for it, and that
    prefix is not itself a name of the table. *)
Theorem assets_from_bazel_text_repositories (filename content : string) :
  exists g,
    assets_from_bazel_text filename content = Ok g
    /\ forall a, a ∈ assets g -> known_repo (repository a) = None.
Proof.
  unfold assets_from_bazel_text.
  destruct (scan_lines_returns (PyStr.readlines content) (mkScan None [] []))
    as [st ->].
  cbn [mbind result_bind]. eexists. split; [reflexivity|].
  cbn [assets]. intros a Ha. apply list_elem_of_fmap in Ha as (a0 & -> & _).
  unfold resolve_asset. cbv zeta.
  destruct (known_repo (repository (fold_left substitute_asset _ a0))) as [repo|] eqn:Hk.
  - change (repository (Asset_setitem "repository" (Some repo) _)) with (Some repo).
    unfold known_repo in Hk |- *.
    destruct (repository (fold_left substitute_asset _ a0)) as [r|]; [|discriminate].
    apply (known_repos_values r repo Hk).
  - exact Hk.
Qed.

(** ** The dictionaries of [process_assets] *)

Lemma all_assets_flattened_bind groups :
  all_assets_flattened groups = (asset_group ← groups; assets asset_group).
Proof.
  unfold all_assets_flattened. cbv zeta.
  induction groups as [|g groups IH]; [reflexivity|].
  cbn [map mbind list_bind]. rewrite IH. f_equal.
  induction (assets g) as [|a l IHl]; [reflexivity|].
  cbn [mbind list_bind]. simpl. f_equal. exact IHl.
Qed.

Lemma dict_get_elem {K V : Type} `{EqDecision K} (d : Dict.t K V) k v :
  Dict.get k d = Some v -> (k, v) ∈ d.
Proof.
  induction d as [|[k' v'] d IH]; simpl; [discriminate|].
  destruct (decide (k = k')) as [->|_].
  - intros [= ->]. apply elem_of_cons. left. reflexivity.
  - intros H. apply elem_of_cons. right. apply IH, H.
Qed.

Lemma dict_set_elem {K V : Type} `{EqDecision K} (d : Dict.t K V) k0 v0 k v :
  (k, v) ∈ Dict.set k0 v0 d -> (k = k0 /\ v = v0) \/ (k, v) ∈ d.
Proof.
  induction d as [|[k' v'] d IH]; simpl.
  - intros H. apply list_elem_of_singleton in H. injection H as -> ->. auto.
  - destruct (decide (k0 = k')) as [->|_]; intros H;
      apply elem_of_cons in H as [H|H].
    + injection H as -> ->. auto.
    + right. apply elem_of_cons. right. exact H.
    + right. apply elem_of_cons. left. exact H.
    + destruct (IH H) as [?|?]; [auto|]. right. apply elem_of_cons. right. assumption.
Qed.

Lemma dict_get_keys {K V : Type} `{EqDecision K} (d : Dict.t K V) k :
  k ∈ Dict.keys d <-> exists v, Dict.get k d = Some v.
Proof.
  unfold Dict.keys. induction d as [|[k' v'] d IH]; simpl.
  - split; [intros H; inversion H|intros [v H]; discriminate].
  - destruct (decide (k = k')) as [->|Hne].
    + split; [eauto|]. intros _. apply elem_of_cons. left. reflexivity.
    + rewrite elem_of_cons, IH. split; [intros [?|?]; [contradiction|assumption]|auto].
Qed.

Section ProcessFacts.

Variables (tempdir pid : string) (download_file : list string -> option captured)
  (properties : Dict.t string string).

(** An entry of [assets_to_update]: a new object made from an asset of
    the groups whose version differs from the table's. *)
Definition selected (pool : list Asset) (key : option string) (a : Asset) : Prop :=
  exists orig art group_id artifact_id version property_version rest,
    orig ∈ pool
    /\ artifact orig = Some art
    /\ PyStr.split ":" art = group_id :: artifact_id :: version :: rest
    /\ Dict.get (property_key_of group_id artifact_id) properties = Some property_version
    /\ version <> property_version
    /\ artifact a
       = Some (group_id +:+ ":" +:+ artifact_id +:+ ":" +:+ property_version)
    /\ old_version a = Some version
    /\ name a = name orig /\ repository a = repository orig
    /\ src_sha1 a = src_sha1 orig
    /\ key = (if String.eqb artifact_id jgit_artifact_id then Some artifact_id
              else name orig).

(** An entry of [skipped_assets]: an asset of the groups whose version
    is the table's. *)
Definition passed_over (pool : list Asset) (key : option string) (a : Asset) : Prop :=
  a ∈ pool /\ key = name a
  /\ exists art group_id artifact_id version rest,
       artifact a = Some art
       /\ PyStr.split ":" art = group_id :: artifact_id :: version :: rest
       /\ Dict.get (property_key_of group_id artifact_id) properties = Some version.

Definition process_invariant (pool : list Asset) (st : process_state) : Prop :=
  (forall key ref, (key, ref) ∈ assets_to_update st ->
     ref < length (proc_heap st)
     /\ selected pool key (heap_get (proc_heap st) ref))
  /\ (forall key a, (key, a) ∈ skipped_assets st -> passed_over pool key a).

Lemma process_asset_invariant pool st asset st' :
  asset ∈ pool ->
  process_invariant pool st ->
  process_asset tempdir pid download_file properties st asset = Ok st' ->
  process_invariant pool st'.
Proof.
  intros Hin [Hupd Hskip]. unfold process_asset.
  destruct (artifact asset) as [art|] eqn:Hart; [|discriminate].
  cbv zeta.
  destruct (PyStr.split ":" art) as [|group_id [|artifact_id [|version rest]]] eqn:Hsplit;
    try discriminate.
  cbn [index nth_error mbind result_bind].
  fold (property_key_of group_id artifact_id).
  destruct (Dict.get (property_key_of group_id artifact_id) properties)
    as [property_version|] eqn:Hkey.
  2:{ intros [= <-]. split; assumption. }
  destruct (String.eqb version property_version) eqn:Hversion.
  - apply String.eqb_eq in Hversion. subst property_version.
    intros [= <-]. cbn [proc_heap assets_to_update skipped_assets]. split; [exact Hupd|].
    intros key a Hget. apply dict_set_elem in Hget as [[-> ->]|Hget];
      [|apply Hskip, Hget].
    split; [exact Hin|]. split; [reflexivity|].
    exists art, group_id, artifact_id, version, rest. auto.
  - apply String.eqb_neq in Hversion.
    unfold heap_alloc. rewrite Asset_copy_eq.
    set (h := proc_heap st) in *.
    set (new_art := group_id +:+ ":" +:+ artifact_id +:+ ":" +:+ property_version).
    rewrite !heap_setattr_last.
    set (a3 := Asset_setitem "old_version" (Some version)
                 (Asset_setitem "artifact" (Some new_art) asset)).
    assert (Hget3 : heap_get (h ++ [a3]) (length h) = a3)
      by (apply (heap_get_alloc_new h a3)).
    rewrite Hget3.
    destruct (asset_from_repo tempdir pid download_file (h ++ [a3]) (length h)
                (repository a3)) as [[new|e] h4] eqn:Hcall; [|discriminate].
    apply asset_from_repo_shape in Hcall as (-> & sha & ->).
    rewrite Hget3. cbn [mbind result_bind]. intros [= <-].
    unfold process_invariant.
    cbn [proc_heap assets_to_update skipped_assets]. split; [|exact Hskip].
    set (a4 := Asset_setitem "sha1" sha a3).
    assert (Hget4 : heap_get ((h ++ [a3]) ++ [a4]) (length (h ++ [a3])) = a4)
      by (apply (heap_get_alloc_new (h ++ [a3]) a4)).
    intros key ref Hget. apply dict_set_elem in Hget as [[-> ->]|Hget].
    + split; [rewrite !length_app; simpl; lia|]. rewrite Hget4.
      exists asset, art, group_id, artifact_id, version, property_version, rest.
      repeat split; auto.
    + destruct (Hupd key ref Hget) as [Hlive Hsel].
      split; [rewrite !length_app; simpl; lia|].
      rewrite <- app_assoc, heap_get_app_old by exact Hlive. exact Hsel.
Qed.

Lemma process_list_invariant pool l : forall st st',
  (forall a, a ∈ l -> a ∈ pool) ->
  process_invariant pool st ->
  process_list tempdir pid download_file properties st l = Ok st' ->
  process_invariant pool st'.
Proof.
  induction l as [|asset rest IH]; intros st st' Hpool Hinv; cbn [process_list].
  - intros [= <-]. exact Hinv.
  - destruct (process_asset tempdir pid download_file properties st asset)
      as [st1|e] eqn:Hstep; [|discriminate].
    cbn [mbind result_bind]. apply IH.
    + intros a Ha. apply Hpool. apply elem_of_cons. right. exact Ha.
    + apply (process_asset_invariant pool st asset st1); [|exact Hinv|exact Hstep].
      apply Hpool. apply elem_of_cons. left. reflexivity.
Qed.

(** X22. When [process_assets] returns, every entry of
    [assets_to_update] names an object of the store that was made from
    an asset of the groups whose coordinate has a version different from
    the one the table gives for it: the object has the coordinate with
    the table's version, the old version recorded, and the name,
    repository and source digest of that asset, and it is stored under
    [org.eclipse.jgit] when that is its artifact id and under the
    asset's name otherwise. Every entry of [skipped_assets] is an asset
    of the groups, stored under its name, whose version is the
    table's. *)
Theorem process_assets_entries (groups : list AssetGroup) (st : process_state) :
  process_assets tempdir pid download_file properties groups = Ok st ->
  (forall key ref, Dict.get key (assets_to_update st) = Some ref ->
     ref < length (proc_heap st)
     /\ selected (all_assets_flattened groups) key (heap_get (proc_heap st) ref))
  /\ (forall key a, Dict.get key (skipped_assets st) = Some a ->
        passed_over (all_assets_flattened groups) key a).
Proof.
  unfold process_assets. rewrite all_assets_flattened_bind. intros Hrun.
  apply (process_list_invariant _ _ _ _ (fun a Ha => Ha)) in Hrun.
  - destruct Hrun as [Hupd Hskip].
    split; intros key x Hget; [apply Hupd|apply Hskip]; apply dict_get_elem, Hget.
  - split; intros key x Hget; inversion Hget.
Qed.

End ProcessFacts.

Lemma process_assets_entries_witness :
  passed_over [("com.x.lib.version", "1.0")]
    (all_assets_flattened [mkAssetGroup "FILE" "WORKSPACE" [scenario_asset] None])
    (Some "lib") scenario_asset.
Proof.
  apply (proj2 (process_assets_entries "/tmp" "42" reporting_download
                  [("com.x.lib.version", "1.0")]
                  [mkAssetGroup "FILE" "WORKSPACE" [scenario_asset] None]
                  (mkProcess [] [] [(Some "lib", scenario_asset)]) eq_refl)).
  reflexivity.
Defined.

(** ** The dependency report *)

Lemma for_each_returns {A : Type} (f : A -> result string) (l : list A) :
  (forall x, x ∈ l -> exists y, f x = Ok y) -> exists ys, for_each f l = Ok ys.
Proof.
  induction l as [|x l IH]; intros H; cbn [for_each]; [eauto|].
  destruct (H x) as [y ->]; [apply elem_of_cons; left; reflexivity|].
  destruct IH as [ys ->]; [intros x' Hx'; apply H, elem_of_cons; right; exact Hx'|].
  cbn [mbind result_bind]. eauto.
Qed.

Lemma nonempty_length {A : Type} (l : list A) : (0 <? length l)%nat = nonempty l.
Proof. destruct l; reflexivity. Qed.

Lemma nonempty_elem {A : Type} (l : list A) x : x ∈ l -> nonempty l = true.
Proof. destruct l; [intros H; inversion H|reflexivity]. Qed.

(** The line of a selected asset can be printed. *)
Lemma report_entry_selected properties pool key a :
  selected properties pool key a -> exists line, report_entry a = Ok line.
Proof.
  intros (orig & art & group_id & artifact_id & version & property_version & rest
          & _ & _ & Hsplit & _ & _ & Hart & Hold & _).
  assert (Hg : Re.has_char ":" group_id = false).
  { apply (split_parts_no_sep ":" art). rewrite Hsplit.
    apply elem_of_cons. left. reflexivity. }
  assert (Ha : Re.has_char ":" artifact_id = false).
  { apply (split_parts_no_sep ":" art). rewrite Hsplit.
    apply elem_of_cons. right. apply elem_of_cons. left. reflexivity. }
  unfold report_entry. rewrite Hart, Hold. cbn [mbind result_bind]. cbv zeta.
  change (group_id +:+ ":" +:+ artifact_id +:+ ":" +:+ property_version)
    with (group_id +:+ String ":" (artifact_id +:+ String ":" property_version)).
  rewrite (split_cons_no_sep ":" group_id _ Hg).
  rewrite (split_cons_no_sep ":" artifact_id _ Ha).
  rewrite (split_before_after ":" property_version).
  cbn [index nth_error mbind result_bind]. eauto.
Qed.

Section ReportFacts.

Variable set_order : list (option string) -> list (option string).

(** Iterating over a set visits the elements of the set. *)
Hypothesis set_order_elements : forall l k, k ∈ set_order l <-> k ∈ l.

(** X23. The dependency check on what [process_assets] returns: the
    report prints every line without raising, and the call ends with
    [exit(1)] exactly when some asset was selected for update. *)
Theorem dependency_check_outcome (tempdir pid : string)
    (download_file : list string -> option captured)
    (properties : Dict.t string string) (groups : list AssetGroup)
    (st : process_state) :
  process_assets tempdir pid download_file properties groups = Ok st ->
  exists out,
    print_dependency_management_report set_order [] (selected_assets st)
      (skipped_assets st) true
    = Ok (out, if nonempty (assets_to_update st) then Exits 1 else Returns).
Proof.
  unfold process_assets. intros Hrun.
  apply (process_list_invariant _ _ _ _ _ _ _ _ (fun a Ha => Ha)) in Hrun.
  2:{ split; intros key x Hget; inversion Hget. }
  destruct Hrun as [Hupd Hskip].
  unfold print_dependency_management_report. cbn [nonempty mbind result_bind].
  cbv zeta.
  destruct (for_each_returns
              (fun name => match Dict.get name (selected_assets st) with
                           | Some asset => report_entry asset
                           | None => Raise AttributeError
                           end)
              (set_order (Dict.keys (selected_assets st)))) as [lines2 Hlines2].
  { intros name Hname. apply set_order_elements, dict_get_keys in Hname as [a Hget].
    rewrite Hget. apply dict_get_elem in Hget. unfold selected_assets in Hget.
    apply list_elem_of_fmap in Hget as ([k ref] & [= -> ->] & Hin).
    destruct (Hupd _ _ Hin) as [_ Hsel].
    apply (report_entry_selected _ _ _ _ Hsel). }
  rewrite Hlines2.
  destruct (for_each_returns skipped_entry (map snd (skipped_assets st)))
    as [lines3 Hlines3].
  { intros a Ha. apply list_elem_of_fmap in Ha as ([k a'] & -> & Hin).
    destruct (Hskip _ _ Hin) as (_ & _ & art & ? & ? & ? & ? & Hart & _).
    unfold skipped_entry. cbn [snd]. rewrite Hart. eauto. }
  rewrite Hlines3.
  assert (Hlen : (0 <? length (selected_assets st))%nat = nonempty (assets_to_update st)).
  { unfold selected_assets. rewrite length_map. apply nonempty_length. }
  rewrite Hlen.
  destruct (nonempty (set_order (Dict.keys (selected_assets st))));
    destruct (nonempty (skipped_assets st)); cbn [mbind result_bind andb];
    destruct (nonempty (assets_to_update st)); cbn [negb andb]; eauto.
Qed.

(** How an update run ends when the report is printed. *)
Lemma update_report_outcome updated to_update skipped out status :
  print_dependency_management_report set_order updated to_update skipped false
  = Ok (out, status) ->
  (exists key, key ∈ Dict.keys to_update /\ key ∉ Dict.keys updated) ->
  status = Exits 1.
Proof.
  unfold print_dependency_management_report. intros Hrun (key & Hin & Hout).
  cbv zeta in Hrun.
  assert (Hnot : nonempty
                   (set_order
                      (if nonempty updated
                       then List.filter (fun k => negb (Dict.mem k updated))
                                        (Dict.keys to_update)
                       else Dict.keys to_update)) = true).
  { apply (nonempty_elem _ key), set_order_elements.
    destruct (nonempty updated); [|exact Hin].
    apply list_elem_of_In, filter_In. split; [apply list_elem_of_In, Hin|].
    unfold Dict.mem. destruct (Dict.get key updated) as [a|] eqn:Hget; [|reflexivity].
    exfalso. apply Hout, dict_get_keys. eauto. }
  rewrite <- nonempty_length in Hnot.
  destruct (if nonempty updated then _ else Ok []) as [out1|]; [|discriminate].
  cbn [mbind result_bind] in Hrun.
  destruct (if nonempty (set_order _) then _ else Ok []) as [out2|]; [|discriminate].
  cbn [mbind result_bind] in Hrun.
  destruct (if nonempty skipped then _ else Ok []) as [out3|]; [|discriminate].
  cbn [mbind result_bind andb negb] in Hrun. rewrite Hnot in Hrun.
  injection Hrun as _ <-. reflexivity.
Qed.

(** X24. An asset filed in [assets_to_update] under a key that is the
    name of no asset to update cannot be reported as updated by
    [update_bazel_file], which records assets under their own names: the
    update run then ends with [exit(1)] whenever the report is printed,
    whatever was written to the file. This is the case of the jgit
    asset, filed under [org.eclipse.jgit], when its name in the manifest
    is another one. *)
Theorem update_report_foreign_key (oa : attributes) (fs fs' : FS) (filename : string)
    (to_update updated skipped : Dict.t (option string) Asset)
    (key : option string) (out : list string) (status : outcome) :
  update_bazel_file oa fs filename to_update = Ok (fs', updated) ->
  key ∈ Dict.keys to_update ->
  (forall k a, (k, a) ∈ to_update -> name a <> key) ->
  print_dependency_management_report set_order updated to_update skipped false
  = Ok (out, status) ->
  status = Exits 1.
Proof.
  intros Hupdate Hkey Hnames Hreport.
  apply (update_report_outcome _ _ _ _ _ Hreport). exists key. split; [exact Hkey|].
  intros Hin. apply dict_get_keys in Hin as [a Hget].
  assert (Hrep : reported to_update updated).
  { unfold update_bazel_file in Hupdate.
    destruct (read_file fs filename) as [text|]; cbn [mbind result_bind] in Hupdate;
      [|discriminate].
    destruct (update_lines _ _ _ _) as [st|] eqn:Hrun; cbn [mbind result_bind] in Hupdate;
      [|discriminate].
    injection Hupdate as _ <-.
    eapply (update_lines_reported oa to_update _ _ st); [|exact Hrun].
    intros k x Hx. discriminate. }
  destruct (Hrep key a Hget) as (-> & k' & Hget').
  apply dict_get_elem in Hget'. exact (Hnames k' a Hget' eq_refl).
Qed.

End ReportFacts.

Lemma dependency_check_outcome_witness :
  exists out,
    print_dependency_management_report remove_dups []
      (selected_assets
         (mkProcess
            [mkAsset (Some "lib") (Some "com.x:lib:2.0") (Some "WANDISCO:")
                     (Some "aaa") None (Some "1.0");
             mkAsset (Some "lib") (Some "com.x:lib:2.0") (Some "WANDISCO:")
                     (Some "abcdef") None (Some "1.0")]
            [(Some "lib", 1)] []))
      [] true
    = Ok (out, Exits 1).
Proof.
  exact (dependency_check_outcome remove_dups elem_of_remove_dups
           "/tmp" "42" reporting_download [("com.x.lib.version", "2.0")]
           [mkAssetGroup "FILE" "WORKSPACE" [scenario_asset] None] _ eq_refl).
Defined.

(** The jgit asset selected for update, named otherwise in the
    manifest. *)
Definition jgit_update : Dict.t (option string) Asset :=
  [(Some "org.eclipse.jgit",
    mkAsset (Some "jgit") (Some "org.eclipse.jgit:org.eclipse.jgit:5.1.0-WD")
            (Some "WANDISCO:") (Some "abcdef") None (Some "5.0.0"))].

(** How a call ended, when it did not raise. *)
Definition status_of (r : result (list string * outcome)) : option outcome :=
  match r with
  | Ok (_, status) => Some status
  | Raise _ => None
  end.

Lemma update_report_foreign_key_witness :
  status_of (print_dependency_management_report remove_dups [] jgit_update [] false)
  = Some (Exits 1).
Proof.
  assert (Hkey : Some "org.eclipse.jgit" ∈ Dict.keys jgit_update)
    by (apply elem_of_cons; left; reflexivity).
  assert (Hnames : forall k a, (k, a) ∈ jgit_update -> name a <> Some "org.eclipse.jgit").
  { intros k a Hin. apply list_elem_of_singleton in Hin. injection Hin as -> ->.
    discriminate. }
  exact (f_equal Some
           (update_report_foreign_key remove_dups elem_of_remove_dups
              scenario_attributes {["WORKSPACE" := scenario3_text]} _ "WORKSPACE" jgit_update [] []
              (Some "org.eclipse.jgit") _ _ eq_refl Hkey Hnames eq_refl)).
Defined.
